(** * The Groq provider adapter of agno, embedded from
      [libs/agno/agno/models/groq/groq.py].

    Python objects that are mutated in place (the dicts built by
    [parse_tool_calls], the [Message] handed to [format_message], the
    adapter instance itself) are modelled with explicit stores and explicit
    state passing; exceptions are an error result. *)

From Stdlib Require Import ZArith Lia Ascii.
From stdpp Require Import base option list gmap strings.

Local Open Scope string_scope.
Local Open Scope list_scope.
Local Open Scope Z_scope.

(** ** Exceptions and results *)

(** The HTTP response object carried by the provider's status errors
    ([e.response.status_code], [e.response.text]). *)
Record HttpResponse := {
  status_code : Z;
  text : string;
}.

(** The exceptions the adapter raises, catches or lets through.  The three
    [API...] constructors are the provider SDK's classes
    ([APIResponseValidationError] and [APIStatusError] both derive from
    [APIError]); [FileNotFoundError] is what opening a missing file raises;
    [OtherException] is any other [Exception], identified by its [str()].
    All of them are subclasses of [Exception]; an exception that derives
    from [BaseException] only ([KeyboardInterrupt],
    [asyncio.CancelledError]) is caught by no clause of the adapter and is
    not modelled.
    [ModelProviderError] is called with keywords only; a [status] of [None]
    means that the [status_code] keyword was not passed. *)
Inductive exn :=
| IndexError
| KeyError (key : string)
| TypeError (msg : string)
| ValueError (msg : string)
| APIResponseValidationError (message : string) (response : HttpResponse)
| APIStatusError (message : string) (response : HttpResponse)
| APIError (message : string)
| FileNotFoundError (path : string)
| OtherException (str : string)
| ModelProviderError (message : string) (status : option Z)
                     (model_name model_id : string).

Inductive result (A : Type) :=
| Ok (a : A)
| Raise (e : exn).
Arguments Ok {A} a.
Arguments Raise {A} e.

Definition rbind {A B} (r : result A) (k : A -> result B) : result B :=
  match r with
  | Ok a => k a
  | Raise e => Raise e
  end.

Notation "x <~ r ; k" := (rbind r (fun x => k))
  (at level 200, r at level 100, k at level 200, right associativity,
   format "'[v' x  <~  r ; '/' k ']'").

(** Python truthiness of an [Optional[str]]: [None] and the empty string are
    falsy. *)
Definition truthy (o : option string) : bool :=
  match o with
  | Some (String _ _) => true
  | _ => false
  end.

(** [o or s] with [s] the empty string. *)
Definition or_empty (o : option string) : string :=
  match o with
  | Some s => if truthy o then s else EmptyString
  | None => EmptyString
  end.

(** [l[i]] on a Python list: a negative index counts from the end, anything
    outside [-len, len) raises [IndexError]. *)
Definition list_getitem {A} (l : list A) (i : Z) : result A :=
  let n := Z.of_nat (length l) in
  let j := if i <? 0 then i + n else i in
  if (0 <=? j) && (j <? n) then
    match l !! Z.to_nat j with
    | Some x => Ok x
    | None => Raise IndexError
    end
  else Raise IndexError.

(** ** Streamed tool calls: [Groq.parse_tool_calls] *)

(** [ChoiceDeltaToolCall] and its [function] part, as the method reads
    them. *)
Module Delta.

Record ChoiceDeltaToolCallFunction := {
  name : option string;
  arguments : option string;
}.

Record ChoiceDeltaToolCall := {
  index : Z;
  id : option string;
  type : option string;
  function : option ChoiceDeltaToolCallFunction;
}.

End Delta.

Module Reassembler.

(** The dicts are objects: a list holds references to them, and two slots
    of a list may hold the same reference.  The store maps a location to
    the dict living there; a dict value is [None], a string or a reference
    to another dict. *)
Abbreviation loc := nat.

Inductive hval :=
| HNone
| HStr (s : string)
| HDict (l : loc).

#[global] Instance hval_eq_dec : EqDecision hval.
Proof. solve_decision. Defined.

Abbreviation dict := (gmap string hval).
Abbreviation store := (list (gmap string hval)).

Definition of_optional (o : option string) : hval :=
  match o with
  | Some s => HStr s
  | None => HNone
  end.

(** A dict literal allocates a new object. *)
Definition alloc (d : dict) (h : store) : loc * store :=
  (length h, h ++ [d]).

Definition deref (h : store) (l : loc) : result dict :=
  match h !! l with
  | Some d => Ok d
  | None => Raise (TypeError "dangling reference")
  end.

(** [obj[k] = v] *)
Definition setitem (l : loc) (k : string) (v : hval) (h : store)
  : result store :=
  d <~ deref h l;
  Ok (<[l := <[k := v]> d]> h).

(** [obj[k]] *)
Definition getitem (l : loc) (k : string) (h : store) : result hval :=
  d <~ deref h l;
  match d !! k with
  | Some v => Ok v
  | None => Raise (KeyError k)
  end.

(** [obj[k1][k2] += s] *)
Definition iadd_nested (l : loc) (k1 k2 : string) (s : string) (h : store)
  : result store :=
  inner <~ getitem l k1 h;
  match inner with
  | HDict li =>
      old <~ getitem li k2 h;
      match old with
      | HStr t => setitem li k2 (HStr (t +:+ s)) h
      | _ => Raise (TypeError "unsupported operand type(s) for +=")
      end
  | _ => Raise (TypeError "object is not subscriptable")
  end.

(** The state of the loop: the list [tool_calls] (of references) and the
    store of the dicts created so far. *)
Definition state : Type := list loc * store.

(** [tool_calls.extend([{}] * k)]: the dict literal is evaluated once and
    the list repetition copies the reference [k] times. *)
Definition extend_placeholders (k : Z) (st : state) : state :=
  let '(l, h') := alloc ∅ st.2 in
  (st.1 ++ replicate (Z.to_nat k) l, h').

(** One iteration of the loop body (lines 384-408). *)
Definition step (st : state) (_tool_call : Delta.ChoiceDeltaToolCall)
  : result state :=
  let _index := Delta.index _tool_call in
  let _tool_call_id := Delta.id _tool_call in
  let _tool_call_type := Delta.type _tool_call in
  let _function_name :=
    match Delta.function _tool_call with
    | Some f => Delta.name f
    | None => None
    end in
  let _function_arguments :=
    match Delta.function _tool_call with
    | Some f => Delta.arguments f
    | None => None
    end in
  let st :=
    if Z.of_nat (length st.1) <=? _index
    then extend_placeholders (_index - Z.of_nat (length st.1) + 1) st
    else st in
  let '(tool_calls, h) := st in
  tool_call_entry <~ list_getitem tool_calls _index;
  d <~ deref h tool_call_entry;
  if decide (d = ∅) then
    h <~ setitem tool_call_entry "id" (of_optional _tool_call_id) h;
    h <~ setitem tool_call_entry "type" (of_optional _tool_call_type) h;
    let '(lf, h) :=
      alloc (<["arguments" := HStr (or_empty _function_arguments)]>
             (<["name" := HStr (or_empty _function_name)]> ∅)) h in
    h <~ setitem tool_call_entry "function" (HDict lf) h;
    Ok (tool_calls, h)
  else
    h <~ (if truthy _function_name
          then iadd_nested tool_call_entry "function" "name"
                           (default EmptyString _function_name) h
          else Ok h);
    h <~ (if truthy _function_arguments
          then iadd_nested tool_call_entry "function" "arguments"
                           (default EmptyString _function_arguments) h
          else Ok h);
    h <~ (if truthy _tool_call_id
          then setitem tool_call_entry "id" (of_optional _tool_call_id) h
          else Ok h);
    h <~ (if truthy _tool_call_type
          then setitem tool_call_entry "type" (of_optional _tool_call_type) h
          else Ok h);
    Ok (tool_calls, h).

Fixpoint run (st : state) (tool_calls_data : list Delta.ChoiceDeltaToolCall)
  : result state :=
  match tool_calls_data with
  | [] => Ok st
  | tc :: rest => st' <~ step st tc; run st' rest
  end.

(** The method: the returned list, together with the store its references
    point into. *)
Definition parse_tool_calls (tool_calls_data : list Delta.ChoiceDeltaToolCall)
  : result state :=
  run ([], []) tool_calls_data.

(** What a caller sees when it reads one entry of the returned list: the
    empty dict, or the four items of a tool call. *)
Inductive entry :=
| EmptyDict
| ToolCall (e_id e_type : hval) (e_name e_arguments : string).

Definition read_entry (h : store) (l : loc) : option entry :=
  d ← (h !! l : option dict);
  if decide (d = ∅) then Some EmptyDict else
  i ← d !! "id";
  t ← d !! "type";
  f ← d !! "function";
  match f with
  | HDict lf =>
      fd ← h !! lf;
      n ← fd !! "name";
      a ← fd !! "arguments";
      match n, a with
      | HStr n, HStr a => Some (ToolCall i t n a)
      | _, _ => None
      end
  | _ => None
  end.

(** The returned list as the entries a caller reads from it. *)
Definition entries (st : state) : list (option entry) :=
  read_entry st.2 <$> st.1.

(** What the caller has in hand when the method returns: which dict
    object sits in each slot of the list, and what each slot reads as. *)
Definition observe (r : result state)
  : result (list loc * list (option entry)) :=
  st <~ r;
  Ok (st.1, entries st).

(** A fragment as the provider streams it. *)
Definition fragment (i : Z) (fid ftype : option string) (n a : option string)
  : Delta.ChoiceDeltaToolCall :=
  {| Delta.index := i; Delta.id := fid; Delta.type := ftype;
     Delta.function := Some {| Delta.name := n; Delta.arguments := a |} |}.

End Reassembler.


(** ** Values, messages and provider objects *)

(** The values the adapter only passes along (request options, content
    blocks, SDK objects).  A float is kept as its IEEE-754 bit pattern; an
    object the adapter never looks into is a reference. *)
#[warnings="-register-all"]
Inductive pyval :=
| PNone
| PBool (b : bool)
| PInt (z : Z)
| PFloat (bits : Z)
| PStr (s : string)
| PBytes (b : list Byte.byte)
| PList (l : list pyval)
| PDict (items : list (string * pyval))
| PObj (ref : nat).

Abbreviation bytes := (list Byte.byte).
Abbreviation pydict := (gmap string pyval).

(** [{k: v for k, v in base.items() if v is not None}] *)
Definition non_none (base : list (string * option pyval)) : pydict :=
  list_to_map (omap (fun kv => pair kv.1 <$> kv.2) base).

(** [d.update(other)] *)
Definition update (d other : pydict) : pydict := other ∪ d.

(** [d.get(k)] on a dict literal. *)
Fixpoint dict_get (items : list (string * pyval)) (k : string) : pyval :=
  match items with
  | [] => PNone
  | (k', v) :: rest => if String.eqb k' k then v else dict_get rest k
  end.

Definition is_str (v : pyval) (s : string) : bool :=
  match v with
  | PStr t => String.eqb t s
  | _ => false
  end.

(** [agno.media.Audio], as [_format_audio_for_message] and
    [transcribe_audio] read it.  [audio_url_content] is a property of the
    class; the field holds what it evaluates to. *)
Module Audio.
Record t := {
  content : option pyval;
  url : option string;
  audio_url_content : option bytes;
  filepath : option string;
  format : option string;
}.
End Audio.

(** [agno.models.message.Message], as [format_message] reads it. *)
Module Message.
Record t := {
  role : string;
  content : pyval;
  name : option string;
  tool_call_id : option string;
  tool_calls : option pyval;
  images : option (list pyval);
  audio : option (list Audio.t);
  videos : option (list pyval);
}.

Definition set_content (c : pyval) (m : t) : t :=
  {| role := role m; content := c; name := name m;
     tool_call_id := tool_call_id m; tool_calls := tool_calls m;
     images := images m; audio := audio m; videos := videos m |}.
End Message.

(** The provider's complete response, as [parse_provider_response] reads
    it. *)
Module Completion.
Record Usage := {
  prompt_tokens : pyval;
  completion_tokens : pyval;
  total_tokens : pyval;
  completion_time : pyval;
  prompt_time : pyval;
  queue_time : pyval;
  total_time : pyval;
}.

Record ResponseMessage := {
  role : option string;
  content : option string;
  tool_calls : option (list pyval);
}.

Record Choice := { message : ResponseMessage }.

Record t := {
  choices : list Choice;
  usage : option Usage;
}.
End Completion.

(** One chunk of a streamed response, as [parse_provider_response_delta]
    reads it.  The tool calls of a delta are objects the parser does not
    look into. *)
Module Chunk.
Record ChoiceDelta := {
  content : option string;
  tool_calls : option (list pyval);
}.

Record Choice := { delta : ChoiceDelta }.

Record XGroq := { usage : option Completion.Usage }.

Record t := {
  choices : list Choice;
  x_groq : option XGroq;
}.
End Chunk.

(** [agno.models.response.ModelResponse]: the four attributes the parser
    assigns.  [None] is an attribute the parser left as the constructor
    set it. *)
Module ModelResponse.
Record t := {
  role : option string;
  content : option string;
  tool_calls : option (list pyval);
  response_usage : option pydict;
}.
End ModelResponse.

(** A streamed reply: the chunks iteration yields, and the exception that
    ends the iteration when the stream breaks. *)
Record Stream := {
  chunks : list pyval;
  failure : option exn;
}.

(** ** The adapter instance and the world around it *)

(** A client object of the provider SDK: its identity, its class
    ([AsyncGroq] or [Groq]) and the keyword arguments it was built with. *)
Record GroqClient := {
  client_ref : nat;
  is_async : bool;
  client_kwargs : pydict;
}.

(** What goes over the network. *)
Record ChatRequest := {
  chat_client : GroqClient;
  chat_model : string;
  chat_messages : list pydict;
  chat_stream : bool;
  chat_kwargs : pydict;
}.

Inductive AudioData :=
| RawBytes (b : bytes)
| OneAudio (a : Audio.t)
| AudioList (l : list Audio.t).

Record TranscriptionRequest := {
  tr_client : GroqClient;
  tr_file_name : string;
  tr_file : AudioData;
  tr_model : string;
  tr_params : pydict;
}.

Inductive NetCall :=
| ChatCall (r : ChatRequest)
| TranscriptionCall (r : TranscriptionRequest).

Inductive level := INFO | WARNING | ERROR.

(** The attributes of the instance the methods assign ([api_key],
    [client], [async_client]), the [Message] objects of the caller (the
    methods get references to them), the files on disk, and the trace of
    what the methods did to the outside: objects created, network calls,
    log lines. *)
Record World := {
  api_key : option string;
  client : option GroqClient;
  async_client : option GroqClient;
  messages : list Message.t;
  files : gmap string bytes;
  next_ref : nat;
  calls : list NetCall;
  logged : list (level * string);
}.

(** The external collaborators: the process environment, the SDK's client
    constructors and endpoints (each sees the calls made before), pydantic's
    [model_dump], [agno.utils.openai.images_to_message], and the string
    formatting of a transcription. *)
Record Externals := {
  getenv : string -> option string;
  client_init : bool -> pydict -> option exn;
  chat_create : list NetCall -> ChatRequest -> result Completion.t;
  chat_create_stream : list NetCall -> ChatRequest -> result Stream;
  transcriptions_create : list NetCall -> TranscriptionRequest -> result pyval;
  model_dump : pyval -> result pyval;
  images_to_message : list pyval -> result (list pyval);
  format_transcription : pyval -> string;
}.

(** [str(e)] *)
Definition exn_str (e : exn) : string :=
  match e with
  | IndexError => "list index out of range"
  | KeyError k => "'" +:+ k +:+ "'"
  | TypeError m => m
  | ValueError m => m
  | APIResponseValidationError m _ => m
  | APIStatusError m _ => m
  | APIError m => m
  | FileNotFoundError p => "No such file or directory: '" +:+ p +:+ "'"
  | OtherException s => s
  | ModelProviderError m _ _ _ => m
  end.

(** ** Methods as state transformers that may raise *)

Definition M (A : Type) : Type := World -> result A * World.

Definition ret {A} (a : A) : M A := fun w => (Ok a, w).

Definition raise {A} (e : exn) : M A := fun w => (Raise e, w).

Definition bind {A B} (m : M A) (k : A -> M B) : M B :=
  fun w =>
    match m w with
    | (Ok a, w') => k a w'
    | (Raise e, w') => (Raise e, w')
    end.

(** [try: m except Exception as e: h e] *)
Definition try_except {A} (m : M A) (h : exn -> M A) : M A :=
  fun w =>
    match m w with
    | (Ok a, w') => (Ok a, w')
    | (Raise e, w') => h e w'
    end.

Definition lift {A} (r : result A) : M A := fun w => (r, w).

Definition get : M World := fun w => (Ok w, w).

Notation "x <- m ;; k" := (bind m (fun x => k))
  (at level 20, m at level 99, k at level 200, only parsing).
Notation "' p <- m ;; k" := (bind m (fun p => k))
  (at level 20, p pattern, m at level 99, k at level 200, only parsing).

Definition when (b : bool) (m : M unit) : M unit :=
  if b then m else ret tt.

Definition log (l : level) (msg : string) : M unit :=
  fun w =>
    (Ok tt,
     {| api_key := api_key w; client := client w;
        async_client := async_client w; messages := messages w;
        files := files w; next_ref := next_ref w; calls := calls w;
        logged := logged w ++ [(l, msg)] |}).

Definition set_api_key (k : option string) : M unit :=
  fun w =>
    (Ok tt,
     {| api_key := k; client := client w;
        async_client := async_client w; messages := messages w;
        files := files w; next_ref := next_ref w; calls := calls w;
        logged := logged w |}).

Definition set_client (c : option GroqClient) : M unit :=
  fun w =>
    (Ok tt,
     {| api_key := api_key w; client := c;
        async_client := async_client w; messages := messages w;
        files := files w; next_ref := next_ref w; calls := calls w;
        logged := logged w |}).

Definition set_message (i : nat) (m : Message.t) : M unit :=
  fun w =>
    (Ok tt,
     {| api_key := api_key w; client := client w;
        async_client := async_client w; messages := <[i := m]> (messages w);
        files := files w; next_ref := next_ref w; calls := calls w;
        logged := logged w |}).

(** A new object gets the next unused identity. *)
Definition new_ref : M nat :=
  fun w =>
    (Ok (next_ref w),
     {| api_key := api_key w; client := client w;
        async_client := async_client w; messages := messages w;
        files := files w; next_ref := S (next_ref w); calls := calls w;
        logged := logged w |}).

Definition record_call (c : NetCall) : M unit :=
  fun w =>
    (Ok tt,
     {| api_key := api_key w; client := client w;
        async_client := async_client w; messages := messages w;
        files := files w; next_ref := next_ref w; calls := calls w ++ [c];
        logged := logged w |}).

(** Python truthiness of the values the methods test with [if v:]. *)
Definition py_truthy (v : pyval) : bool :=
  match v with
  | PNone => false
  | PBool b => b
  | PInt z => negb (z =? 0)
  | PFloat bits => negb ((bits =? 0) || (bits =? 2 ^ 63))
  | PStr s => truthy (Some s)
  | PBytes b => negb (bool_decide (b = []))
  | PList l => match l with [] => false | _ => true end
  | PDict l => match l with [] => false | _ => true end
  | PObj _ => true
  end.

Definition opt_truthy (o : option pyval) : bool :=
  match o with
  | Some v => py_truthy v
  | None => false
  end.

Definition dict_truthy (o : option pydict) : bool :=
  match o with
  | Some d => negb (bool_decide (dom d = ∅))
  | None => false
  end.

(** ** The [Groq] dataclass *)

Module Groq.

(** The attributes the methods only read.  ([api_key], [client] and
    [async_client], which they assign, are in the [World].)  [_tools] and
    [tool_choice] are inherited from [Model]. *)
Record t := {
  id : string;
  name : string;
  provider : string;
  frequency_penalty : option pyval;
  logit_bias : option pyval;
  logprobs : option pyval;
  max_tokens : option pyval;
  presence_penalty : option pyval;
  response_format : option (list (string * pyval));
  seed : option pyval;
  stop : option pyval;
  temperature : option pyval;
  top_logprobs : option pyval;
  top_p : option pyval;
  user : option pyval;
  extra_headers : option pyval;
  extra_query : option pyval;
  request_params : option pydict;
  base_url : option pyval;
  request_timeout : option pyval;
  max_retries : option pyval;
  default_headers : option pyval;
  default_query : option pyval;
  http_client : option pyval;
  client_params : option pydict;
  _tools : option pyval;
  tool_choice : option pyval;
}.

(** The default values of the dataclass fields. *)
Definition defaults : t :=
  {| id := "llama-3.3-70b-versatile"; name := "Groq"; provider := "Groq";
     frequency_penalty := None; logit_bias := None; logprobs := None;
     max_tokens := None; presence_penalty := None; response_format := None;
     seed := None; stop := None; temperature := None; top_logprobs := None;
     top_p := None; user := None; extra_headers := None; extra_query := None;
     request_params := None; base_url := None; request_timeout := None;
     max_retries := None; default_headers := None; default_query := None;
     http_client := None; client_params := None; _tools := None;
     tool_choice := None |}.

(** [Groq(response_format=rf)] *)
Definition with_response_format (rf : list (string * pyval)) : t :=
  {| id := "llama-3.3-70b-versatile"; name := "Groq"; provider := "Groq";
     frequency_penalty := None; logit_bias := None; logprobs := None;
     max_tokens := None; presence_penalty := None;
     response_format := Some rf;
     seed := None; stop := None; temperature := None; top_logprobs := None;
     top_p := None; user := None; extra_headers := None; extra_query := None;
     request_params := None; base_url := None; request_timeout := None;
     max_retries := None; default_headers := None; default_query := None;
     http_client := None; client_params := None; _tools := None;
     tool_choice := None |}.

Section methods.

Variable ext : Externals.
Variable self : t.

Definition _get_client_params : M pydict :=
  w <- get;;
  _ <- when (negb (truthy (api_key w)))
         (_ <- set_api_key (getenv ext "GROQ_API_KEY");;
          w <- get;;
          when (negb (truthy (api_key w)))
            (log ERROR ("GROQ_API_KEY not set. Please set the " +:+
                        "GROQ_API_KEY environment variable.")));;
  w <- get;;
  let base_params :=
    [("api_key", PStr <$> api_key w);
     ("base_url", base_url self);
     ("timeout", request_timeout self);
     ("max_retries", max_retries self);
     ("default_headers", default_headers self);
     ("default_query", default_query self)] in
  let client_params := non_none base_params in
  let client_params :=
    if dict_truthy (Groq.client_params self)
    then update client_params (default ∅ (Groq.client_params self))
    else client_params in
  ret client_params.

(** Calling the SDK's [GroqClient] or [AsyncGroqClient] class with the
    keyword arguments [client_params]: the constructor may refuse its
    arguments; otherwise a new object. *)
Definition new_client (async : bool) (client_params : pydict)
  : M GroqClient :=
  match client_init ext async client_params with
  | Some e => raise e
  | None =>
      r <- new_ref;;
      ret {| client_ref := r; is_async := async;
             client_kwargs := client_params |}
  end.

Definition get_client : M GroqClient :=
  w <- get;;
  match client w with
  | Some c => ret c
  | None =>
      client_params <- _get_client_params;;
      let client_params :=
        match http_client self with
        | Some h => <["http_client" := h]> client_params
        | None => client_params
        end in
      c <- new_client false client_params;;
      _ <- set_client (Some c);;
      ret c
  end.

Definition get_async_client : M GroqClient :=
  w <- get;;
  match async_client w with
  | Some c => ret c
  | None =>
      client_params <- _get_client_params;;
      client_params <-
        (if opt_truthy (http_client self)
         then ret (<["http_client" := default PNone (http_client self)]>
                     client_params)
         else
           (* a new [httpx.AsyncClient] with custom limits *)
           r <- new_ref;;
           ret (<["http_client" := PObj r]> client_params));;
      new_client true client_params
  end.

Definition request_kwargs : pydict :=
  let base_params :=
    [("frequency_penalty", frequency_penalty self);
     ("logit_bias", logit_bias self);
     ("logprobs", logprobs self);
     ("max_tokens", max_tokens self);
     ("presence_penalty", presence_penalty self);
     ("response_format", PDict <$> response_format self);
     ("seed", seed self);
     ("stop", stop self);
     ("temperature", temperature self);
     ("top_logprobs", top_logprobs self);
     ("top_p", top_p self);
     ("user", user self);
     ("extra_headers", extra_headers self);
     ("extra_query", extra_query self)] in
  let request_params := non_none base_params in
  let request_params :=
    match _tools self with
    | Some tools =>
        let request_params := <["tools" := tools]> request_params in
        match tool_choice self with
        | Some c => <["tool_choice" := c]> request_params
        | None => request_params
        end
    | None => request_params
    end in
  if dict_truthy (Groq.request_params self)
  then update request_params (default ∅ (Groq.request_params self))
  else request_params.

(** *** Audio *)

Definition _format_audio_for_message (audio : Audio.t) : M (option bytes) :=
  match Audio.content audio with
  | Some (PBytes (b :: rest)) =>
      (* Case 1: Audio is a bytes object *)
      ret (Some (b :: rest))
  | _ =>
      match Audio.url audio, Audio.audio_url_content audio with
      | Some _, Some c =>
          (* Case 2: Audio is a URL *)
          ret (Some c)
      | _, _ =>
          match Audio.filepath audio with
          | Some audio_path =>
              (* Case 3: Audio is a local file path *)
              _ <- log INFO ("Attempting to read audio from file: " +:+ audio_path);;
              w <- get;;
              match files w !! audio_path with
              | Some content => ret (Some content)
              | None => ret None
              end
          | None =>
              _ <- log WARNING "Unknown audio type or no content available";;
              ret None
          end
      end
  end.

Definition transcribe_audio (audio_data : AudioData)
    (file_format language prompt response_format : option string)
    (temperature : option pyval) (model : string) : M pyval :=
  '(audio_bytes, file_format) <-
    match audio_data with
    | AudioList (audio_obj :: _) =>
        processed_audio <- _format_audio_for_message audio_obj;;
        match processed_audio with
        | None => raise (ValueError "Failed to process audio data")
        | Some b =>
            ret (RawBytes b,
                 if negb (truthy file_format) && truthy (Audio.format audio_obj)
                 then Audio.format audio_obj else file_format)
        end
    | OneAudio audio =>
        processed_audio <- _format_audio_for_message audio;;
        match processed_audio with
        | None => raise (ValueError "Failed to process audio data")
        | Some b =>
            ret (RawBytes b,
                 if negb (truthy file_format) && truthy (Audio.format audio)
                 then Audio.format audio else file_format)
        end
    | _ => ret (audio_data, file_format)
    end;;
  let params : pydict := ∅ in
  let params :=
    if truthy language
    then <["language" := PStr (default EmptyString language)]> params
    else params in
  let params :=
    if truthy prompt
    then <["prompt" := PStr (default EmptyString prompt)]> params
    else params in
  let params :=
    if truthy response_format
    then <["response_format" := PStr (default EmptyString response_format)]>
           params
    else params in
  let params :=
    match temperature with
    | Some t => <["temperature" := t]> params
    | None => params
    end in
  let file_format :=
    if truthy file_format then default EmptyString file_format else "mp3" in
  let file_name := "audio." +:+ file_format in
  client <- get_client;;
  let request :=
    {| tr_client := client; tr_file_name := file_name;
       tr_file := audio_bytes; tr_model := model; tr_params := params |} in
  w <- get;;
  _ <- record_call (TranscriptionCall request);;
  response <- lift (transcriptions_create ext (calls w) request);;
  ret response.

(** *** Messages *)

Definition newline : string := String "010"%char EmptyString.

(** The JSON-output directive appended for system messages. *)
Definition json_directive : string :=
  newline +:+ newline +:+ "Your output should be in JSON format.".

(** Reading the attributes of the [Message] object behind a reference. *)
Definition read_message (message : nat) : M Message.t :=
  w <- get;;
  match messages w !! message with
  | Some m => ret m
  | None => raise (TypeError "dangling reference")
  end.

Definition not_none (v : pyval) : option pyval :=
  match v with
  | PNone => None
  | _ => Some v
  end.

Definition json_object_requested : bool :=
  match response_format self with
  | Some rf => is_str (dict_get rf "type") "json_object"
  | None => false
  end.

Definition format_message (message : nat) : M pydict :=
  m <- read_message message;;
  let message_dict : pydict :=
    non_none
      [("role", Some (PStr (Message.role m)));
       ("content", not_none (Message.content m));
       ("name", PStr <$> Message.name m);
       ("tool_call_id", PStr <$> Message.tool_call_id m);
       ("tool_calls", Message.tool_calls m)] in
  _ <- match Message.content m with
       | PStr s =>
           when (String.eqb (Message.role m) "system" && json_object_requested)
             (* message.content += ... *)
             (set_message message
                (Message.set_content (PStr (s +:+ json_directive)) m))
       | _ => ret tt
       end;;
  m <- read_message message;;
  message_dict <-
    match Message.images m with
    | Some (i :: imgs) =>
        match Message.content m with
        | PStr s =>
            let text_part := PDict [("type", PStr "text"); ("text", PStr s)] in
            parts <- lift (images_to_message ext (i :: imgs));;
            ret (<["content" := PList (text_part :: parts)]> message_dict)
        | _ => ret message_dict
        end
    | _ => ret message_dict
    end;;
  message_dict <-
    match Message.audio m with
    | Some (a :: rest) =>
        try_except
          (transcription_result <-
             transcribe_audio (AudioList (a :: rest)) None None None
               (Some "text") None "whisper-large-v3-turbo";;
           ret (<["content" :=
                    PStr ("Audio Transcription: " +:+
                          format_transcription ext transcription_result)]>
                  message_dict))
          (fun e =>
             _ <- log ERROR ("Error transcribing audio: " +:+ exn_str e);;
             ret message_dict)
    | _ => ret message_dict
    end;;
  _ <- when (bool_decide (is_Some (Message.videos m)))
         (log WARNING "Video input is currently unsupported.");;
  ret message_dict.

(** [[self.format_message(m) for m in messages]] *)
Fixpoint format_messages (messages : list nat) : M (list pydict) :=
  match messages with
  | [] => ret []
  | m :: rest =>
      d <- format_message m;;
      ds <- format_messages rest;;
      ret (d :: ds)
  end.

(** *** Requests *)

(** The call [create(model=self.id, messages=..., [stream=True,]
    **self.request_kwargs)]: a keyword that is also in [request_kwargs] is
    a [TypeError]. *)
Definition chat_request (client : GroqClient) (stream : bool)
    (msgs : list pydict) : M ChatRequest :=
  let kwargs := request_kwargs in
  let explicit :=
    ["model"; "messages"] ++ (if stream then ["stream"] else []) in
  if bool_decide (Exists (fun k => is_Some (kwargs !! k)) explicit)
  then raise (TypeError "got multiple values for keyword argument")
  else ret {| chat_client := client; chat_model := id self;
              chat_messages := msgs; chat_stream := stream;
              chat_kwargs := kwargs |}.

(** The three [except] clauses, the same in the four methods.  The last
    one is [except Exception]: it catches every [exn]. *)
Definition except_clauses {A} (e : exn) : M A :=
  match e with
  | APIResponseValidationError _ response
  | APIStatusError _ response =>
      _ <- log ERROR ("Error calling Groq API: " +:+ exn_str e);;
      raise (ModelProviderError (text response)
               (Some (status_code response)) (name self) (id self))
  | APIError message =>
      _ <- log ERROR ("Error calling Groq API: " +:+ exn_str e);;
      raise (ModelProviderError message None (name self) (id self))
  | _ =>
      _ <- log ERROR ("Unexpected error calling Groq API: " +:+ exn_str e);;
      raise (ModelProviderError (exn_str e) None (name self) (id self))
  end.

(** What the four methods evaluate, in this order, before the SDK's
    [create] runs: the client, the formatted messages, the keyword
    arguments. *)
Definition prepare_request (async stream : bool) (messages : list nat)
  : M ChatRequest :=
  client <- (if async then get_async_client else get_client);;
  msgs <- format_messages messages;;
  chat_request client stream msgs.

(** [client.chat.completions.create(...)] without and with [stream=True]. *)
Definition create (request : ChatRequest) : M Completion.t :=
  w <- get;;
  _ <- record_call (ChatCall request);;
  lift (chat_create ext (calls w) request).

Definition create_stream (request : ChatRequest) : M Stream :=
  w <- get;;
  _ <- record_call (ChatCall request);;
  lift (chat_create_stream ext (calls w) request).

Definition invoke (messages : list nat) : M Completion.t :=
  try_except
    (request <- prepare_request false false messages;;
     create request)
    except_clauses.

Definition ainvoke (messages : list nat) : M Completion.t :=
  try_except
    (request <- prepare_request true false messages;;
     create request)
    except_clauses.

(** The stream is returned as the SDK made it: it is iterated by the
    caller, outside the [try]. *)
Definition invoke_stream (messages : list nat) : M Stream :=
  try_except
    (request <- prepare_request false true messages;;
     create_stream request)
    except_clauses.

(** The asynchronous generator, driven to its end: the chunks it yielded,
    or the exception its consumer got.  The iteration is inside the
    [try]. *)
Definition ainvoke_stream (messages : list nat) : M (list pyval) :=
  try_except
    (request <- prepare_request true true messages;;
     stream <- create_stream request;;
     match failure stream with
     | Some e => raise e
     | None => ret (chunks stream)
     end)
    except_clauses.

(** *** Responses *)

(** [[t.model_dump() for t in tool_calls]]: the first failure ends the
    comprehension. *)
Fixpoint dump_all (tool_calls : list pyval) : result (list pyval) :=
  match tool_calls with
  | [] => Ok []
  | t :: rest =>
      d <~ model_dump ext t;
      ds <~ dump_all rest;
      Ok (d :: ds)
  end.

Definition response_usage_of (usage : Completion.Usage) : pydict :=
  list_to_map
    [("input_tokens", Completion.prompt_tokens usage);
     ("output_tokens", Completion.completion_tokens usage);
     ("total_tokens", Completion.total_tokens usage);
     ("additional_metrics",
      PDict [("completion_time", Completion.completion_time usage);
             ("prompt_time", Completion.prompt_time usage);
             ("queue_time", Completion.queue_time usage);
             ("total_time", Completion.total_time usage)])].

Definition parse_provider_response (response : Completion.t)
  : M ModelResponse.t :=
  (* Get response message *)
  choice <- lift (list_getitem (Completion.choices response) 0);;
  let response_message := Completion.message choice in
  (* Add role *)
  let role := Completion.role response_message in
  (* Add content *)
  let content := Completion.content response_message in
  (* Add tool calls *)
  tool_calls <-
    match Completion.tool_calls response_message with
    | Some (t :: ts) =>
        try_except
          (dumped <- lift (dump_all (t :: ts));;
           ret (Some dumped))
          (fun e =>
             _ <- log WARNING ("Error processing tool calls: " +:+ exn_str e);;
             ret None)
    | _ => ret None
    end;;
  (* Add usage metrics if present *)
  let response_usage := response_usage_of <$> Completion.usage response in
  ret {| ModelResponse.role := role;
         ModelResponse.content := content;
         ModelResponse.tool_calls := tool_calls;
         ModelResponse.response_usage := response_usage |}.

Definition parse_provider_response_delta (response : Chunk.t)
  : M ModelResponse.t :=
  '(content, tool_calls) <-
    match Chunk.choices response with
    | _ :: _ =>
        choice <- lift (list_getitem (Chunk.choices response) 0);;
        let delta := Chunk.delta choice in
        (* Add content, add tool calls *)
        ret (Chunk.content delta, Chunk.tool_calls delta)
    | [] => ret (None, None)
    end;;
  (* Add usage metrics if present *)
  let response_usage :=
    match Chunk.x_groq response with
    | Some x_groq => response_usage_of <$> Chunk.usage x_groq
    | None => None
    end in
  ret {| ModelResponse.role := None;
         ModelResponse.content := content;
         ModelResponse.tool_calls := tool_calls;
         ModelResponse.response_usage := response_usage |}.

(** [to_dict]; [super_to_dict] is the mapping [Model.to_dict] returned, in
    which a key may hold [None]. *)
Definition to_dict (super_to_dict : gmap string (option pyval)) : pydict :=
  let model_dict := super_to_dict in
  (* model_dict.update({...}) *)
  let model_dict :=
    (list_to_map
       [("frequency_penalty", frequency_penalty self);
        ("logit_bias", logit_bias self);
        ("logprobs", logprobs self);
        ("max_tokens", max_tokens self);
        ("presence_penalty", presence_penalty self);
        ("response_format", PDict <$> response_format self);
        ("seed", seed self);
        ("stop", stop self);
        ("temperature", temperature self);
        ("top_logprobs", top_logprobs self);
        ("top_p", top_p self);
        ("user", user self);
        ("extra_headers", extra_headers self);
        ("extra_query", extra_query self)]
     : gmap string (option pyval)) ∪ model_dict in
  let model_dict :=
    match _tools self with
    | Some tools =>
        let model_dict := <["tools" := Some tools]> model_dict in
        match tool_choice self with
        | Some c => <["tool_choice" := Some c]> model_dict
        | None => <["tool_choice" := Some (PStr "auto")]> model_dict
        end
    | None => model_dict
    end in
  (* {k: v for k, v in model_dict.items() if v is not None} *)
  omap (fun v => v) model_dict.

Definition atranscribe_audio (audio_data : AudioData)
    (file_format language prompt response_format : option string)
    (temperature : option pyval) (model : string) : M pyval :=
  '(audio_bytes, file_format) <-
    match audio_data with
    | AudioList (audio_obj :: _) =>
        processed_audio <- _format_audio_for_message audio_obj;;
        match processed_audio with
        | None => raise (ValueError "Failed to process audio data")
        | Some b =>
            ret (RawBytes b,
                 if negb (truthy file_format) && truthy (Audio.format audio_obj)
                 then Audio.format audio_obj else file_format)
        end
    | OneAudio audio =>
        processed_audio <- _format_audio_for_message audio;;
        match processed_audio with
        | None => raise (ValueError "Failed to process audio data")
        | Some b =>
            ret (RawBytes b,
                 if negb (truthy file_format) && truthy (Audio.format audio)
                 then Audio.format audio else file_format)
        end
    | _ => ret (audio_data, file_format)
    end;;
  let params : pydict := ∅ in
  let params :=
    if truthy language
    then <["language" := PStr (default EmptyString language)]> params
    else params in
  let params :=
    if truthy prompt
    then <["prompt" := PStr (default EmptyString prompt)]> params
    else params in
  let params :=
    if truthy response_format
    then <["response_format" := PStr (default EmptyString response_format)]>
           params
    else params in
  let params :=
    match temperature with
    | Some t => <["temperature" := t]> params
    | None => params
    end in
  let file_name :=
    if truthy file_format
    then "audio." +:+ default EmptyString file_format
    else "audio.mp3" in
  client <- get_async_client;;
  let request :=
    {| tr_client := client; tr_file_name := file_name;
       tr_file := audio_bytes; tr_model := model; tr_params := params |} in
  w <- get;;
  _ <- record_call (TranscriptionCall request);;
  response <- lift (transcriptions_create ext (calls w) request);;
  ret response.

(** The condition under which [format_message] appends the JSON
    directive. *)
Definition directive_applies (m : Message.t) : bool :=
  match Message.content m with
  | PStr _ => String.eqb (Message.role m) "system" && json_object_requested
  | _ => false
  end.

End methods.
End Groq.

(** ** Observations and concrete instances *)

(** The exception a call ends with, if it ends with one. *)
Definition surfaced {A} (r : result A * World) : option exn :=
  match r.1 with
  | Raise e => Some e
  | Ok _ => None
  end.

(** The exception the caller of one of the four invocation methods gets. *)
Definition invocation_error (ext : Externals) (self : Groq.t)
    (async stream : bool) (messages : list nat) (w : World) : option exn :=
  match async, stream with
  | false, false => surfaced (Groq.invoke ext self messages w)
  | true, false => surfaced (Groq.ainvoke ext self messages w)
  | false, true => surfaced (Groq.invoke_stream ext self messages w)
  | true, true => surfaced (Groq.ainvoke_stream ext self messages w)
  end.

(** The three token counts of the [response_usage] of a parsed response. *)
Definition token_counts (r : result ModelResponse.t * World)
  : option (option pyval * option pyval * option pyval) :=
  match r.1 with
  | Ok mr =>
      match ModelResponse.response_usage mr with
      | Some ru =>
          Some (ru !! "input_tokens", ru !! "output_tokens",
                ru !! "total_tokens")
      | None => None
      end
  | Raise _ => None
  end.

(** The double quote character, for JSON text. *)
Definition dq : string := String "034"%char EmptyString.

(** [s.endswith(suffix)] *)
Definition ends_with (suffix s : string) : bool :=
  let n := String.length s in
  let k := String.length suffix in
  (k <=? n)%nat && String.eqb (String.substring (n - k) k s) suffix.

(** The [content] item of a formatted message. *)
Definition formatted_content (r : result pydict * World) : option pyval :=
  match r.1 with
  | Ok d => d !! "content"
  | Raise _ => None
  end.

(** The [Message] object behind a reference once a call is over. *)
Definition message_after {A} (r : result A * World) (message : nat)
  : option Message.t :=
  messages r.2 !! message.

(** One call after another on the same instance. *)
Definition twice {A} (m : M A) : M (A * A) :=
  a <- m;;
  b <- m;;
  ret (a, b).

(** The identities of the client objects two successive calls of a getter
    returned, and of the objects the instance holds in [client] and
    [async_client] afterwards. *)
Definition client_identities (r : result (GroqClient * GroqClient) * World)
  : option (nat * nat * option nat * option nat) :=
  match r.1 with
  | Ok (c1, c2) =>
      Some (client_ref c1, client_ref c2,
            client_ref <$> client r.2, client_ref <$> async_client r.2)
  | Raise _ => None
  end.

(** How many network calls were made by the end of a call. *)
Definition network_calls {A} (r : result A * World) : nat :=
  length (calls r.2).

(** A computation that leaves the caller's [Message] objects as they
    are, however it ends. *)
Definition keeps_messages {A} (m : M A) : Prop :=
  forall w, messages (m w).2 = messages w.

(** The transcription request sent last. *)
Definition last_transcription {A} (r : result A * World)
  : option TranscriptionRequest :=
  match last (calls r.2) with
  | Some (TranscriptionCall q) => Some q
  | _ => None
  end.

(** The world one of the four invocation methods leaves behind. *)
Definition invocation_world (ext : Externals) (self : Groq.t)
    (async stream : bool) (messages : list nat) (w : World) : World :=
  match async, stream with
  | false, false => (Groq.invoke ext self messages w).2
  | true, false => (Groq.ainvoke ext self messages w).2
  | false, true => (Groq.invoke_stream ext self messages w).2
  | true, true => (Groq.ainvoke_stream ext self messages w).2
  end.

Module Examples.

(** An adapter asked for JSON output. *)
Definition json_mode : Groq.t :=
  Groq.with_response_format [("type", PStr "json_object")].

Definition rate_limited : HttpResponse :=
  {| status_code := 429; text := "rate limited" |}.

(** A provider that answers every chat request with HTTP status 429; the
    API key is in the environment, transcriptions succeed. *)
Definition rate_limiting_provider : Externals :=
  {| getenv := fun _ => Some "gsk_test";
     client_init := fun _ _ => None;
     chat_create := fun _ _ =>
       Raise (APIStatusError "Error code: 429" rate_limited);
     chat_create_stream := fun _ _ =>
       Raise (APIStatusError "Error code: 429" rate_limited);
     transcriptions_create := fun _ _ => Ok (PStr "hello");
     model_dump := fun t => Ok (PDict [("dumped", t)]);
     images_to_message := fun images => Ok images;
     format_transcription := fun t =>
       match t with
       | PStr s => s
       | _ => EmptyString
       end |}.

(** [Message(role="system", content=c)] *)
Definition system_message (c : string) : Message.t :=
  {| Message.role := "system"; Message.content := PStr c;
     Message.name := None; Message.tool_call_id := None;
     Message.tool_calls := None; Message.images := None;
     Message.audio := None; Message.videos := None |}.

(** A new adapter instance, the given messages, nothing on disk. *)
Definition world (ms : list Message.t) : World :=
  {| api_key := None; client := None; async_client := None;
     messages := ms; files := ∅; next_ref := 0%nat; calls := [];
     logged := [] |}.

(** What [invoke] has at hand on one system message when it calls the
    SDK: the request, and the instance as the preparation left it. *)
Definition brief : World := world [system_message "Be brief"].

Definition prepared : result ChatRequest * World :=
  Groq.prepare_request rate_limiting_provider Groq.defaults false false
    [0%nat] brief.

Definition prepared_request : ChatRequest :=
  match prepared.1 with
  | Ok request => request
  | Raise _ =>
      {| chat_client :=
           {| client_ref := 0%nat; is_async := false; client_kwargs := ∅ |};
         chat_model := Groq.id Groq.defaults; chat_messages := [];
         chat_stream := false; chat_kwargs := ∅ |}
  end.

(** [Audio(filepath="/tmp/missing.mp3")] *)
Definition missing_file_audio : Audio.t :=
  {| Audio.content := None; Audio.url := None;
     Audio.audio_url_content := None;
     Audio.filepath := Some "/tmp/missing.mp3"; Audio.format := None |}.

(** [Audio()] *)
Definition empty_audio : Audio.t :=
  {| Audio.content := None; Audio.url := None;
     Audio.audio_url_content := None;
     Audio.filepath := None; Audio.format := None |}.

(** A complete response with two tool calls, 10 prompt tokens and 5
    completion tokens, and the given total. *)
Definition response_with_total (total : pyval) : Completion.t :=
  {| Completion.choices :=
       [{| Completion.message :=
             {| Completion.role := Some "assistant";
                Completion.content := None;
                Completion.tool_calls := Some [PObj 1; PObj 2] |} |}];
     Completion.usage :=
       Some {| Completion.prompt_tokens := PInt 10;
               Completion.completion_tokens := PInt 5;
               Completion.total_tokens := total;
               Completion.completion_time := PFloat 0;
               Completion.prompt_time := PFloat 0;
               Completion.queue_time := PFloat 0;
               Completion.total_time := PFloat 0 |} |}.

(** A stream that yields one chunk and then breaks with status 429. *)
Definition broken_stream : Stream :=
  {| chunks := [PObj 7];
     failure := Some (APIStatusError "Error code: 429" rate_limited) |}.

(** A provider whose streams break after the first chunk. *)
Definition stream_breaking_provider : Externals :=
  {| getenv := fun _ => Some "gsk_test";
     client_init := fun _ _ => None;
     chat_create := fun _ _ =>
       Raise (APIStatusError "Error code: 429" rate_limited);
     chat_create_stream := fun _ _ => Ok broken_stream;
     transcriptions_create := fun _ _ => Ok (PStr "hello");
     model_dump := fun t => Ok (PDict [("dumped", t)]);
     images_to_message := fun images => Ok images;
     format_transcription := fun t =>
       match t with
       | PStr s => s
       | _ => EmptyString
       end |}.

(** What the two streaming methods have at hand on one system message when
    they call the SDK. *)
Definition prepared_stream (async : bool) : result ChatRequest * World :=
  Groq.prepare_request stream_breaking_provider Groq.defaults async true
    [0%nat] brief.

Definition prepared_stream_request (async : bool) : ChatRequest :=
  match (prepared_stream async).1 with
  | Ok request => request
  | Raise _ => prepared_request
  end.

(** What the constructor of the SDK's client raises when it gets no API
    key (a [GroqError], by its text). *)
Definition missing_api_key : exn :=
  OtherException
    ("The api_key client option must be set either by passing api_key " +:+
     "to the client or by setting the GROQ_API_KEY environment variable").

(** A provider reached from a process without [GROQ_API_KEY]: the
    constructor of the client raises when it is given no API key. *)
Definition keyless_provider : Externals :=
  {| getenv := fun _ => None;
     client_init := fun _ p =>
       match p !! "api_key" with
       | Some _ => None
       | None => Some missing_api_key
       end;
     chat_create := fun _ _ =>
       Raise (APIStatusError "Error code: 429" rate_limited);
     chat_create_stream := fun _ _ => Ok broken_stream;
     transcriptions_create := fun _ _ => Ok (PStr "hello");
     model_dump := fun t => Ok (PDict [("dumped", t)]);
     images_to_message := fun images => Ok images;
     format_transcription := fun t =>
       match t with
       | PStr s => s
       | _ => EmptyString
       end |}.

(** [Groq(request_params={"model": "other"})] *)
Definition model_overridden : Groq.t :=
  {| Groq.id := "llama-3.3-70b-versatile"; Groq.name := "Groq";
     Groq.provider := "Groq";
     Groq.frequency_penalty := None; Groq.logit_bias := None;
     Groq.logprobs := None; Groq.max_tokens := None;
     Groq.presence_penalty := None; Groq.response_format := None;
     Groq.seed := None; Groq.stop := None; Groq.temperature := None;
     Groq.top_logprobs := None; Groq.top_p := None; Groq.user := None;
     Groq.extra_headers := None; Groq.extra_query := None;
     Groq.request_params := Some {["model" := PStr "other"]};
     Groq.base_url := None; Groq.request_timeout := None;
     Groq.max_retries := None; Groq.default_headers := None;
     Groq.default_query := None; Groq.http_client := None;
     Groq.client_params := None; Groq._tools := None;
     Groq.tool_choice := None |}.

(** A client made earlier, and an instance that holds it. *)
Definition stored_client : GroqClient :=
  {| client_ref := 0%nat; is_async := false; client_kwargs := ∅ |}.

Definition connected : World :=
  {| api_key := Some "gsk_test"; client := Some stored_client;
     async_client := None; messages := []; files := ∅;
     next_ref := 1%nat; calls := []; logged := [] |}.

(** [Audio(content=b"RIFF", format="wav")] *)
Definition spoken : Audio.t :=
  {| Audio.content :=
       Some (PBytes [Byte.x52; Byte.x49; Byte.x46; Byte.x46]);
     Audio.url := None; Audio.audio_url_content := None;
     Audio.filepath := None; Audio.format := Some "wav" |}.

(** [Message(role="user", content="listen", audio=[spoken])] *)
Definition voice_message : Message.t :=
  {| Message.role := "user"; Message.content := PStr "listen";
     Message.name := None; Message.tool_call_id := None;
     Message.tool_calls := None; Message.images := None;
     Message.audio := Some [spoken]; Message.videos := None |}.

(** The transcription of that message on a new instance. *)
Definition listening : World := world [voice_message].

Definition transcribed (ext : Externals) : result pyval * World :=
  Groq.transcribe_audio ext Groq.defaults (AudioList [spoken]) None None
    None (Some "text") None "whisper-large-v3-turbo" listening.

(** A complete response without choices. *)
Definition no_choices : Completion.t :=
  {| Completion.choices := []; Completion.usage := None |}.

(** [Message(role="system", content="Be brief", images=[image])] *)
Definition illustrated : Message.t :=
  {| Message.role := "system"; Message.content := PStr "Be brief";
     Message.name := None; Message.tool_call_id := None;
     Message.tool_calls := None; Message.images := Some [PObj 9];
     Message.audio := None; Message.videos := None |}.

(** What [get_async_client] makes on an instance that holds a synchronous
    client only. *)
Definition async_made : result GroqClient * World :=
  Groq.get_async_client rate_limiting_provider Groq.defaults connected.

Definition async_made_client : GroqClient :=
  match async_made.1 with
  | Ok c => c
  | Raise _ => stored_client
  end.

(** The usage of [response_with_total]. *)
Definition usage_10_5 (total : pyval) : Completion.Usage :=
  {| Completion.prompt_tokens := PInt 10;
     Completion.completion_tokens := PInt 5;
     Completion.total_tokens := total;
     Completion.completion_time := PFloat 0;
     Completion.prompt_time := PFloat 0;
     Completion.queue_time := PFloat 0;
     Completion.total_time := PFloat 0 |}.

(** A response with that usage, total 15, and an empty list of choices. *)
Definition usage_without_choices : Completion.t :=
  {| Completion.choices := [];
     Completion.usage := Some (usage_10_5 (PInt 15)) |}.

(** A provider whose transcription endpoint answers 429 and whose chat
    endpoint answers with a completion. *)
Definition transcription_limited_provider : Externals :=
  {| getenv := fun _ => Some "gsk_test";
     client_init := fun _ _ => None;
     chat_create := fun _ _ => Ok (response_with_total (PInt 15));
     chat_create_stream := fun _ _ => Ok broken_stream;
     transcriptions_create := fun _ _ =>
       Raise (APIStatusError "Error code: 429" rate_limited);
     model_dump := fun t => Ok (PDict [("dumped", t)]);
     images_to_message := fun images => Ok images;
     format_transcription := fun t =>
       match t with
       | PStr s => s
       | _ => EmptyString
       end |}.

(** The client parameters of a new instance in a process without the
    variable. *)
Definition keyless_params : result pydict * World :=
  Groq._get_client_params keyless_provider Groq.defaults (world []).

(** The first [get_client] of a new instance. *)
Definition sync_made : result GroqClient * World :=
  Groq.get_client rate_limiting_provider Groq.defaults (world []).

Definition sync_made_client : GroqClient :=
  match sync_made.1 with
  | Ok c => c
  | Raise _ => stored_client
  end.

(** [Message(role="user", content="listen", images=[image],
    audio=[spoken])] *)
Definition illustrated_voice : Message.t :=
  {| Message.role := "user"; Message.content := PStr "listen";
     Message.name := None; Message.tool_call_id := None;
     Message.tool_calls := None; Message.images := Some [PObj 9];
     Message.audio := Some [spoken]; Message.videos := None |}.

(** A conversation of two messages. *)
Definition conversation : World :=
  world [illustrated_voice; system_message "Be brief"].

(** [Message(role="user", content="listen",
    audio=[Audio(filepath="/tmp/missing.mp3")])] *)
Definition unreadable_voice : Message.t :=
  {| Message.role := "user"; Message.content := PStr "listen";
     Message.name := None; Message.tool_call_id := None;
     Message.tool_calls := None; Message.images := None;
     Message.audio := Some [missing_file_audio]; Message.videos := None |}.

(** A model with a tool choice and no tools, and a model with one tool
    and a tool choice. *)
Definition choice_without_tools : Groq.t :=
  {| Groq.id := "llama-3.3-70b-versatile"; Groq.name := "Groq";
     Groq.provider := "Groq";
     Groq.frequency_penalty := None; Groq.logit_bias := None;
     Groq.logprobs := None; Groq.max_tokens := None;
     Groq.presence_penalty := None; Groq.response_format := None;
     Groq.seed := None; Groq.stop := None; Groq.temperature := None;
     Groq.top_logprobs := None; Groq.top_p := None; Groq.user := None;
     Groq.extra_headers := None; Groq.extra_query := None;
     Groq.request_params := None;
     Groq.base_url := None; Groq.request_timeout := None;
     Groq.max_retries := None; Groq.default_headers := None;
     Groq.default_query := None; Groq.http_client := None;
     Groq.client_params := None; Groq._tools := None;
     Groq.tool_choice := Some (PStr "required") |}.

Definition with_tools : Groq.t :=
  {| Groq.id := "llama-3.3-70b-versatile"; Groq.name := "Groq";
     Groq.provider := "Groq";
     Groq.frequency_penalty := None; Groq.logit_bias := None;
     Groq.logprobs := None; Groq.max_tokens := None;
     Groq.presence_penalty := None; Groq.response_format := None;
     Groq.seed := None; Groq.stop := None; Groq.temperature := None;
     Groq.top_logprobs := None; Groq.top_p := None; Groq.user := None;
     Groq.extra_headers := None; Groq.extra_query := None;
     Groq.request_params := None;
     Groq.base_url := None; Groq.request_timeout := None;
     Groq.max_retries := None; Groq.default_headers := None;
     Groq.default_query := None; Groq.http_client := None;
     Groq.client_params := None;
     Groq._tools := Some (PList [PDict [("type", PStr "function")]]);
     Groq.tool_choice := Some (PStr "required") |}.

(** A provider that cannot be reached: the chat endpoint raises the SDK's
    connection error, an [APIError] without response. *)
Definition unreachable_provider : Externals :=
  {| getenv := fun _ => Some "gsk_test";
     client_init := fun _ _ => None;
     chat_create := fun _ _ => Raise (APIError "Connection error.");
     chat_create_stream := fun _ _ => Raise (APIError "Connection error.");
     transcriptions_create := fun _ _ => Ok (PStr "hello");
     model_dump := fun t => Ok (PDict [("dumped", t)]);
     images_to_message := fun images => Ok images;
     format_transcription := fun t =>
       match t with
       | PStr s => s
       | _ => EmptyString
       end |}.

End Examples.

(** ** The reassembly read as values *)

Module Reference.

Import Reassembler.

(** What the first fragment for an index puts into its entry. *)
Definition first_fragment (tc : Delta.ChoiceDeltaToolCall) : entry :=
  let f := Delta.function tc in
  ToolCall (of_optional (Delta.id tc)) (of_optional (Delta.type tc))
    (or_empty (f ≫= Delta.name)) (or_empty (f ≫= Delta.arguments)).

(** What a later fragment for the same index makes of the entry: its
    name and arguments are appended, its id and type replace the old ones
    when they are not empty. *)
Definition later_fragment (e : entry) (tc : Delta.ChoiceDeltaToolCall)
  : entry :=
  match e with
  | EmptyDict => first_fragment tc
  | ToolCall i t n a =>
      let f := Delta.function tc in
      ToolCall (if truthy (Delta.id tc) then of_optional (Delta.id tc) else i)
        (if truthy (Delta.type tc) then of_optional (Delta.type tc) else t)
        (n +:+ or_empty (f ≫= Delta.name))
        (a +:+ or_empty (f ≫= Delta.arguments))
  end.

(** One fragment, on the list of entries read as values. *)
Definition accumulate (es : list entry) (tc : Delta.ChoiceDeltaToolCall)
  : list entry :=
  let i := Z.to_nat (Delta.index tc) in
  match es !! i with
  | Some e => <[i := later_fragment e tc]> es
  | None => es ++ [first_fragment tc]
  end.

Definition assemble (tcs : list Delta.ChoiceDeltaToolCall) : list entry :=
  foldl accumulate [] tcs.

(** No fragment skips an index: with [n] entries so far, the index of
    the next fragment is between 0 and [n]. *)
Fixpoint no_gap (n : nat) (tcs : list Delta.ChoiceDeltaToolCall) : bool :=
  match tcs with
  | [] => true
  | tc :: rest =>
      (0 <=? Delta.index tc) && (Delta.index tc <=? Z.of_nat n)
      && no_gap (if Delta.index tc =? Z.of_nat n then S n else n) rest
  end.

(** Where the dicts are when no index is skipped: the dict of entry [k]
    at location [2k], the dict of its function at [2k+1]. *)
Definition layout (h : store) (k : nat) (e : entry) : Prop :=
  match e with
  | EmptyDict => False
  | ToolCall i t n a =>
      exists d fd : dict,
        h !! (2 * k)%nat = Some d /\ h !! (2 * k + 1)%nat = Some fd
        /\ d !! "id" = Some i /\ d !! "type" = Some t
        /\ d !! "function" = Some (HDict (2 * k + 1)%nat)
        /\ fd !! "name" = Some (HStr n)
        /\ fd !! "arguments" = Some (HStr a)
  end.

Definition Inv (st : state) (es : list entry) : Prop :=
  st.1 = (fun k => 2 * k)%nat <$> seq 0 (length es)
  /\ length st.2 = (2 * length es)%nat
  /\ forall k e, es !! k = Some e -> layout st.2 k e.

(** A dict that holds a tool call: the three items, and a function dict
    of its own that is not a slot of the list. *)
Definition populated (l : list loc) (h : store) (d : dict) : Prop :=
  exists (i t : hval) (lf : loc) (fd : dict) (n a : string),
    d !! "id" = Some i /\ d !! "type" = Some t
    /\ d !! "function" = Some (HDict lf)
    /\ (lf ∉ l) /\ h !! lf = Some fd
    /\ fd !! "name" = Some (HStr n) /\ fd !! "arguments" = Some (HStr a).

Definition all_populated (st : state) : Prop :=
  forall x, x ∈ st.1 ->
    exists d : dict, st.2 !! x = Some d /\ populated st.1 st.2 d.

(** The largest index of the fragments, -1 when there is none. *)
Definition max_index (tcs : list Delta.ChoiceDeltaToolCall) : Z :=
  foldr Z.max (-1) (Delta.index <$> tcs).

(** The name and the arguments text a fragment carries, the empty string
    when it carries none. *)
Definition fragment_name (tc : Delta.ChoiceDeltaToolCall) : string :=
  or_empty (Delta.function tc ≫= Delta.name).

Definition fragment_arguments (tc : Delta.ChoiceDeltaToolCall) : string :=
  or_empty (Delta.function tc ≫= Delta.arguments).

(** The texts of a list of fragments, one after the other. *)
Definition joined (text : Delta.ChoiceDeltaToolCall -> string)
    (tcs : list Delta.ChoiceDeltaToolCall) : string :=
  foldr (fun tc rest => text tc +:+ rest) EmptyString tcs.

(** The dict at [x] holds the tool call [e], in a function dict that is
    another object. *)
Definition holds (h : store) (x : loc) (e : entry) : Prop :=
  match e with
  | EmptyDict => False
  | ToolCall i t n a =>
      exists (d : dict) (lf : loc) (fd : dict),
        h !! x = Some d
        /\ d !! "id" = Some i /\ d !! "type" = Some t
        /\ d !! "function" = Some (HDict lf)
        /\ lf <> x /\ h !! lf = Some fd
        /\ fd !! "name" = Some (HStr n)
        /\ fd !! "arguments" = Some (HStr a)
  end.

End Reference.

(** * Properties *)

(** ** The reassembly of streamed tool calls *)

Section reassembly.
Import Reassembler.

Lemma append_empty_r (s : string) : s +:+ EmptyString = s.
Proof.
  induction s as [|c s IH]; [done|].
  change (String c (s +:+ EmptyString) = String c s). by rewrite IH.
Qed.

Lemma or_empty_Some (s : string) : or_empty (Some s) = s.
Proof. by destruct s. Qed.

(** C2: the code does not do what the claim says.  When the fragment for
    index 1 arrives first, the list is extended by two references to one
    and the same dict, so the two slots of the result are the same object
    and read the same, whatever the two fragments carry; on the input below
    both slots read as the merge of the two fragments. *)
Theorem parse_tool_calls_index_1_then_0_shares_one_dict :
  (forall id1 ty1 fn1 id0 ty0 fn0,
     exists e,
       observe
         (parse_tool_calls
            [{| Delta.index := 1; Delta.id := id1; Delta.type := ty1;
                Delta.function := fn1 |};
             {| Delta.index := 0; Delta.id := id0; Delta.type := ty0;
                Delta.function := fn0 |}])
       = Ok ([0%nat; 0%nat], [e; e]))
  /\ observe
       (parse_tool_calls
          [fragment 1 (Some "call_1") (Some "function")
             (Some "search") (Some "{}");
           fragment 0 (Some "call_0") (Some "function")
             (Some "lookup") (Some "[]")])
     = Ok ([0%nat; 0%nat],
           [Some (ToolCall (HStr "call_0") (HStr "function")
                    "searchlookup" "{}[]");
            Some (ToolCall (HStr "call_0") (HStr "function")
                    "searchlookup" "{}[]")]).
Proof.
  split.
  - intros id1 ty1 fn1 id0 ty0 fn0.
    destruct id0 as [[|? ?]|], ty0 as [[|? ?]|];
      destruct fn0 as [[[[|? ?]|] [[|? ?]|]]|];
      eexists; vm_compute; reflexivity.
  - vm_compute. reflexivity.
Qed.

(** C10: the code does not do what the claim says about placeholders.  A
    single fragment with index 1 gives a list of length 2, but index 0, for
    which no fragment arrived, is not an empty mapping: it is the very dict
    that the fragment populated. *)
Theorem parse_tool_calls_skipped_index_is_not_empty :
  forall fid ftype n a,
    observe (parse_tool_calls [fragment 1 fid ftype n a])
    = Ok ([0%nat; 0%nat],
          [Some (ToolCall (of_optional fid) (of_optional ftype)
                   (or_empty n) (or_empty a));
           Some (ToolCall (of_optional fid) (of_optional ftype)
                   (or_empty n) (or_empty a))]).
Proof. intros fid ftype n a. vm_compute. reflexivity. Qed.

End reassembly.

(** ** The parsing of complete responses *)

Section responses.

Variable ext : Externals.

Lemma list_getitem_first {A} (x : A) (l : list A) :
  list_getitem (x :: l) 0 = Ok x.
Proof.
  unfold list_getitem. cbn [length].
  change (0 <? 0) with false. cbn iota.
  replace (0 <=? 0) with true by reflexivity.
  replace (0 <? Z.of_nat (S (length l))) with true
    by (symmetry; apply Z.ltb_lt; lia).
  reflexivity.
Qed.

(** The comprehension over [model_dump] gives one converted entry per tool
    call, or stops at a tool call whose conversion raises. *)
Lemma dump_all_Ok (tool_calls dumped : list pyval) :
  Groq.dump_all ext tool_calls = Ok dumped ->
  Forall2 (fun t d => model_dump ext t = Ok d) tool_calls dumped.
Proof.
  revert dumped. induction tool_calls as [|t ts IH]; intros dumped H.
  - injection H as <-. constructor.
  - cbn [Groq.dump_all] in H.
    destruct (model_dump ext t) as [d|e] eqn:Ht; [|discriminate H].
    cbn [rbind] in H.
    destruct (Groq.dump_all ext ts) as [ds|e]; [|discriminate H].
    injection H as <-. constructor; [exact Ht | by apply IH].
Qed.

Lemma dump_all_Raise (tool_calls : list pyval) (e : exn) :
  Groq.dump_all ext tool_calls = Raise e ->
  Exists (fun t => model_dump ext t = Raise e) tool_calls.
Proof.
  induction tool_calls as [|t ts IH]; intros H; [discriminate H|].
  cbn [Groq.dump_all] in H.
  destruct (model_dump ext t) as [d|e'] eqn:Ht.
  - cbn [rbind] in H.
    destruct (Groq.dump_all ext ts) as [ds|e'']; [discriminate H|].
    injection H as ->. right. by apply IH.
  - injection H as ->. by left.
Qed.

(** What the parser returns on a response that has a first choice. *)
Lemma parse_provider_response_eq (response : Completion.t)
    (c : Completion.Choice) (cs : list Completion.Choice) (w : World) :
  Completion.choices response = c :: cs ->
  exists tool_calls w',
    Groq.parse_provider_response ext response w
    = (Ok {| ModelResponse.role := Completion.role (Completion.message c);
             ModelResponse.content :=
               Completion.content (Completion.message c);
             ModelResponse.tool_calls := tool_calls;
             ModelResponse.response_usage :=
               Groq.response_usage_of <$> Completion.usage response |}, w')
    /\ match Completion.tool_calls (Completion.message c) with
       | Some (t :: ts) =>
           match Groq.dump_all ext (t :: ts) with
           | Ok dumped => tool_calls = Some dumped
           | Raise _ => tool_calls = None
           end
       | _ => tool_calls = None
       end.
Proof.
  intros Hc. unfold Groq.parse_provider_response, bind, lift, ret.
  rewrite Hc, list_getitem_first.
  destruct (Completion.tool_calls (Completion.message c)) as [[|t ts]|];
    [by eauto | | by eauto].
  unfold try_except, bind, lift, ret, log.
  destruct (Groq.dump_all ext (t :: ts)) as [dumped|e]; by eauto.
Qed.

(** C3: for a complete response with tool calls, the parser returns (it
    does not raise) and the [tool_calls] of the result are either the
    conversions of all the tool calls of the response, as many as there
    are, or left unset because the conversion of one of them raised;
    never a part of them. *)
Theorem parse_provider_response_tool_calls_all_or_nothing
    (response : Completion.t) (c : Completion.Choice)
    (cs : list Completion.Choice) (tool_calls : list pyval) (w : World) :
  Completion.choices response = c :: cs ->
  Completion.tool_calls (Completion.message c) = Some tool_calls ->
  tool_calls <> [] ->
  exists mr w',
    Groq.parse_provider_response ext response w = (Ok mr, w')
    /\ ((exists dumped,
           ModelResponse.tool_calls mr = Some dumped
           /\ length dumped = length tool_calls
           /\ Forall2 (fun t d => model_dump ext t = Ok d) tool_calls dumped)
        \/ (ModelResponse.tool_calls mr = None
            /\ Exists (fun t => exists e, model_dump ext t = Raise e)
                  tool_calls)).
Proof.
  intros Hc Ht Hne.
  destruct (parse_provider_response_eq response c cs w Hc)
    as (tcs & w' & Hp & Htcs).
  rewrite Ht in Htcs. destruct tool_calls as [|t ts]; [done|].
  eexists _, w'. split; [exact Hp|]. cbn [ModelResponse.tool_calls].
  destruct (Groq.dump_all ext (t :: ts)) as [dumped|e] eqn:Hd; subst tcs.
  - left. exists dumped. apply dump_all_Ok in Hd.
    split; [done|]. split; [symmetry; by eapply Forall2_length | done].
  - right. split; [done|]. apply dump_all_Raise in Hd.
    eapply Exists_impl; [exact Hd|]. intros x Hx. by exists e.
Qed.

(** The token counts are the three attributes of the provider's usage, as
    they are. *)
Lemma token_counts_eq (response : Completion.t) (c : Completion.Choice)
    (cs : list Completion.Choice) (u : Completion.Usage) (w : World) :
  Completion.choices response = c :: cs ->
  Completion.usage response = Some u ->
  token_counts (Groq.parse_provider_response ext response w)
  = Some (Some (Completion.prompt_tokens u),
          Some (Completion.completion_tokens u),
          Some (Completion.total_tokens u)).
Proof.
  intros Hc Hu.
  destruct (parse_provider_response_eq response c cs w Hc)
    as (tcs & w' & Hp & _).
  unfold token_counts. rewrite Hp, Hu.
  cbn [fst ModelResponse.response_usage fmap option_fmap option_map].
  unfold Groq.response_usage_of.
  vm_compute. reflexivity.
Qed.

(** C6, as amended: for a response whose usage has [prompt_tokens=10] and
    [completion_tokens=5].  When the response has a choice, the response
    usage has [input_tokens=10] and [output_tokens=5], and its
    [total_tokens] is the provider's [total_tokens] attribute as it is:
    the provider's total when there is one, [None] when there is none; no
    sum is computed.  When the response has no choice, the parser raises
    [IndexError] and there is no response usage. *)
Theorem parse_provider_response_usage_passes_total_through
    (response : Completion.t) (u : Completion.Usage) (w : World) :
  Completion.usage response = Some u ->
  Completion.prompt_tokens u = PInt 10 ->
  Completion.completion_tokens u = PInt 5 ->
  match Completion.choices response with
  | [] =>
      Groq.parse_provider_response ext response w = (Raise IndexError, w)
      /\ token_counts (Groq.parse_provider_response ext response w) = None
  | _ :: _ =>
      token_counts (Groq.parse_provider_response ext response w)
      = Some (Some (PInt 10), Some (PInt 5),
              Some (Completion.total_tokens u))
  end.
Proof.
  intros Hu Hp Hcomp.
  destruct (Completion.choices response) as [|c cs] eqn:Hc.
  - assert (Hr : Groq.parse_provider_response ext response w
                 = (Raise IndexError, w)).
    { unfold Groq.parse_provider_response, bind, lift. by rewrite Hc. }
    split; [exact Hr|]. by rewrite Hr.
  - rewrite (token_counts_eq response c cs u w Hc Hu). by rewrite Hp, Hcomp.
Qed.

End responses.

(** C3, at a response with two tool calls that both convert. *)
Lemma parse_provider_response_tool_calls_witness :
  exists mr w',
    Groq.parse_provider_response Examples.rate_limiting_provider
      (Examples.response_with_total (PInt 15)) (Examples.world [])
    = (Ok mr, w')
    /\ ((exists dumped,
           ModelResponse.tool_calls mr = Some dumped
           /\ length dumped = length [PObj 1; PObj 2]
           /\ Forall2
                (fun t d =>
                   model_dump Examples.rate_limiting_provider t = Ok d)
                [PObj 1; PObj 2] dumped)
        \/ (ModelResponse.tool_calls mr = None
            /\ Exists
                 (fun t =>
                    exists e,
                      model_dump Examples.rate_limiting_provider t = Raise e)
                 [PObj 1; PObj 2])).
Proof.
  eapply parse_provider_response_tool_calls_all_or_nothing;
    [reflexivity | reflexivity | discriminate].
Defined.

(** C6 as stated fails: when the provider's usage has no total, the
    [total_tokens] of the response usage is [None], not the sum 15. *)
Lemma absent_total_is_not_summed :
  token_counts
    (Groq.parse_provider_response Examples.rate_limiting_provider
       (Examples.response_with_total PNone) (Examples.world []))
  = Some (Some (PInt 10), Some (PInt 5), Some PNone)
  /\ token_counts
       (Groq.parse_provider_response Examples.rate_limiting_provider
          (Examples.response_with_total PNone) (Examples.world []))
     <> Some (Some (PInt 10), Some (PInt 5), Some (PInt 15)).
Proof. split; [vm_compute; reflexivity | vm_compute; discriminate]. Qed.

(** C6 as amended, at a response whose provider total is 15, and at a
    response with the same usage and no choice. *)
Lemma parse_provider_response_usage_witness :
  token_counts
    (Groq.parse_provider_response Examples.rate_limiting_provider
       (Examples.response_with_total (PInt 15)) (Examples.world []))
  = Some (Some (PInt 10), Some (PInt 5), Some (PInt 15))
  /\ (Groq.parse_provider_response Examples.rate_limiting_provider
        Examples.usage_without_choices (Examples.world [])
      = (Raise IndexError, Examples.world [])
      /\ token_counts
           (Groq.parse_provider_response Examples.rate_limiting_provider
              Examples.usage_without_choices (Examples.world []))
         = None).
Proof.
  split.
  - exact (parse_provider_response_usage_passes_total_through
             Examples.rate_limiting_provider
             (Examples.response_with_total (PInt 15))
             (Examples.usage_10_5 (PInt 15)) (Examples.world [])
             eq_refl eq_refl eq_refl).
  - exact (parse_provider_response_usage_passes_total_through
             Examples.rate_limiting_provider
             Examples.usage_without_choices
             (Examples.usage_10_5 (PInt 15)) (Examples.world [])
             eq_refl eq_refl eq_refl).
Defined.

(** ** Invocations *)

Section invocations.

Variable ext : Externals.
Variable self : Groq.t.

(** A status or validation error raised inside the [try] leaves as a
    [ModelProviderError] with the status code and the text of the HTTP
    response. *)
Lemma except_clauses_status {A} (m : M A) (w w1 : World) (e : exn)
    (msg : string) (response : HttpResponse) :
  e = APIStatusError msg response
  \/ e = APIResponseValidationError msg response ->
  m w = (Raise e, w1) ->
  surfaced (try_except m (Groq.except_clauses self) w)
  = Some (ModelProviderError (text response) (Some (status_code response))
            (Groq.name self) (Groq.id self)).
Proof.
  intros He Hm. unfold surfaced, try_except. rewrite Hm.
  by destruct He as [-> | ->].
Qed.

(** C7, as amended: when the request is prepared and the provider's
    [create] raises a validation or status error, the caller of [invoke],
    [ainvoke], [invoke_stream] or [ainvoke_stream] gets a
    [ModelProviderError] whose [status_code] and [message] are the status
    code and the text of the HTTP response (429 and [rate limited] for such
    a response); so does the consumer of [ainvoke_stream] when the error
    ends the iteration of the stream, which is inside the [try]. *)
Theorem provider_status_error_is_surfaced
    (async stream : bool) (messages : list nat) (w w1 : World)
    (request : ChatRequest) (e : exn) (msg : string)
    (response : HttpResponse) :
  e = APIStatusError msg response
  \/ e = APIResponseValidationError msg response ->
  Groq.prepare_request ext self async stream messages w = (Ok request, w1) ->
  (if stream
   then chat_create_stream ext (calls w1) request = Raise e
   else chat_create ext (calls w1) request = Raise e)
  \/ (async = true /\ stream = true
      /\ exists s,
           chat_create_stream ext (calls w1) request = Ok s
           /\ failure s = Some e) ->
  invocation_error ext self async stream messages w
  = Some (ModelProviderError (text response) (Some (status_code response))
            (Groq.name self) (Groq.id self)).
Proof.
  intros He Hprep [Hcreate | (-> & -> & s & Hcreate & Hfail)].
  - unfold invocation_error.
    destruct async, stream;
      unfold Groq.ainvoke_stream, Groq.invoke_stream, Groq.ainvoke,
        Groq.invoke;
      eapply except_clauses_status; try exact He;
      unfold bind; rewrite Hprep;
      unfold Groq.create, Groq.create_stream, bind, get, record_call, lift;
      cbn [calls]; rewrite Hcreate; reflexivity.
  - unfold invocation_error, Groq.ainvoke_stream.
    eapply except_clauses_status; [exact He|].
    unfold bind. rewrite Hprep.
    unfold Groq.create_stream, bind, get, record_call, lift.
    cbn [calls]. rewrite Hcreate, Hfail. reflexivity.
Qed.

End invocations.

(** C7 as stated fails: a status error of the provider is not always
    surfaced as a [ModelProviderError].  [invoke_stream] returns the
    stream it got; when the stream breaks with status 429 while the caller
    iterates it, that is outside the [try] and the method has raised
    nothing.  And a 429 of the transcription endpoint, raised while
    [invoke] formats a message with audio, is caught and logged by
    [format_message]: the invocation goes on and returns the completion. *)
Lemma status_errors_outside_the_try_are_not_wrapped :
  (Groq.invoke_stream Examples.stream_breaking_provider Groq.defaults
     [0%nat] Examples.brief).1
  = Ok Examples.broken_stream
  /\ failure Examples.broken_stream
     = Some (APIStatusError "Error code: 429" Examples.rate_limited)
  /\ invocation_error Examples.stream_breaking_provider Groq.defaults
       false true [0%nat] Examples.brief
     = None
  /\ (forall cs q,
        transcriptions_create Examples.transcription_limited_provider cs q
        = Raise (APIStatusError "Error code: 429" Examples.rate_limited))
  /\ (Groq.invoke Examples.transcription_limited_provider Groq.defaults
        [0%nat] Examples.listening).1
     = Ok (Examples.response_with_total (PInt 15))
  /\ invocation_error Examples.transcription_limited_provider Groq.defaults
       false false [0%nat] Examples.listening
     = None.
Proof.
  split; [vm_compute; reflexivity|]. split; [reflexivity|].
  split; [vm_compute; reflexivity|]. split; [reflexivity|].
  split; vm_compute; reflexivity.
Qed.

(** C7 as amended, at [invoke] on one system message with a provider whose
    [create] answers 429, and at [ainvoke_stream] with a provider whose
    stream breaks with 429 after the first chunk. *)
Lemma provider_status_error_is_surfaced_witness :
  invocation_error Examples.rate_limiting_provider Groq.defaults
    false false [0%nat] Examples.brief
  = Some (ModelProviderError "rate limited" (Some 429)
            "Groq" "llama-3.3-70b-versatile")
  /\ invocation_error Examples.stream_breaking_provider Groq.defaults
       true true [0%nat] Examples.brief
     = Some (ModelProviderError "rate limited" (Some 429)
               "Groq" "llama-3.3-70b-versatile").
Proof.
  split.
  - apply (provider_status_error_is_surfaced
             Examples.rate_limiting_provider Groq.defaults false false
             [0%nat] Examples.brief Examples.prepared.2
             Examples.prepared_request
             (APIStatusError "Error code: 429" Examples.rate_limited)
             "Error code: 429" Examples.rate_limited).
    + left. reflexivity.
    + vm_compute. reflexivity.
    + left. reflexivity.
  - apply (provider_status_error_is_surfaced
             Examples.stream_breaking_provider Groq.defaults true true
             [0%nat] Examples.brief (Examples.prepared_stream true).2
             (Examples.prepared_stream_request true)
             (APIStatusError "Error code: 429" Examples.rate_limited)
             "Error code: 429" Examples.rate_limited).
    + left. reflexivity.
    + vm_compute. reflexivity.
    + right. split; [reflexivity|]. split; [reflexivity|].
      exists Examples.broken_stream. split; reflexivity.
Defined.

(** ** Clients *)

Section clients.

Variable ext : Externals.
Variable self : Groq.t.

(** Once a client is stored on the instance, [get_client] returns it and
    changes nothing. *)
Lemma get_client_cached (c : GroqClient) (w : World) :
  client w = Some c ->
  Groq.get_client ext self w = (Ok c, w).
Proof.
  intros Hc. unfold Groq.get_client, bind, get. by rewrite Hc.
Qed.

(** [_get_client_params] assigns [api_key] only. *)
Lemma _get_client_params_frame (w : World) :
  exists p w',
    Groq._get_client_params ext self w = (Ok p, w')
    /\ client w' = client w
    /\ async_client w' = async_client w
    /\ next_ref w' = next_ref w.
Proof.
  unfold Groq._get_client_params, bind, get, when, ret, set_api_key, log.
  destruct (truthy (api_key w)); cbv beta iota.
  - eexists _, _. by split.
  - cbn [api_key].
    destruct (truthy (getenv ext "GROQ_API_KEY")); cbv beta iota;
      eexists _, _; by split.
Qed.

(** The first [get_client] of an instance stores the client it creates. *)
Lemma get_client_stores (w : World) :
  client w = None ->
  (forall p, client_init ext false p = None) ->
  exists c w',
    Groq.get_client ext self w = (Ok c, w')
    /\ client w' = Some c
    /\ client_ref c = next_ref w.
Proof.
  intros Hc Hinit. unfold Groq.get_client, bind, get. rewrite Hc.
  destruct (_get_client_params_frame w) as (p & w1 & -> & _ & _ & Hn).
  unfold Groq.new_client. rewrite Hinit.
  unfold bind, new_ref, ret, set_client. cbn. rewrite Hn. by eauto.
Qed.

(** [get_async_client] never assigns [async_client]; the client it
    returns when none is stored is a new object. *)
Lemma get_async_client_does_not_store (w : World) :
  async_client w = None ->
  (forall p, client_init ext true p = None) ->
  exists c w',
    Groq.get_async_client ext self w = (Ok c, w')
    /\ client w' = client w
    /\ async_client w' = None
    /\ (next_ref w <= client_ref c < next_ref w')%nat.
Proof.
  intros Hc Hinit. unfold Groq.get_async_client, bind, get. rewrite Hc.
  destruct (_get_client_params_frame w) as (p & w1 & -> & Hcl & Ha & Hn).
  unfold Groq.new_client.
  destruct (opt_truthy (Groq.http_client self));
    unfold ret, bind, new_ref; cbn; rewrite Hinit;
    unfold ret, bind, new_ref; cbn; rewrite Hcl, Ha, Hn, Hc;
    eexists _, _; (split; [reflexivity|]); cbn;
    (split; [done | split; [done | lia]]).
Qed.

End clients.

(** C8: the code does not do what the claim says for the asynchronous
    client.  [get_client] stores the client it creates and the second call
    returns that same object; [get_async_client] returns the client it
    creates without storing it, so that, for every configuration of the
    adapter, two successive calls return two different client objects and
    the instance holds none afterwards. *)
Theorem get_async_client_creates_a_client_per_call :
  client_identities
    (twice (Groq.get_client Examples.rate_limiting_provider Groq.defaults)
       (Examples.world []))
  = Some (0, 0, Some 0, None)%nat
  /\ client_identities
       (twice
          (Groq.get_async_client Examples.rate_limiting_provider
             Groq.defaults)
          (Examples.world []))
     = Some (1, 3, None, None)%nat
  /\ (forall (self : Groq.t) (ms : list Message.t),
        exists r1 r2,
          client_identities
            (twice
               (Groq.get_async_client Examples.rate_limiting_provider self)
               (Examples.world ms))
          = Some (r1, r2, None, None)
          /\ r1 <> r2).
Proof.
  split; [vm_compute; reflexivity|]. split; [vm_compute; reflexivity|].
  intros self ms.
  destruct (get_async_client_does_not_store Examples.rate_limiting_provider
              self (Examples.world ms) eq_refl (fun _ => eq_refl))
    as (c1 & w1 & H1 & Hc1 & Ha1 & Hr1).
  destruct (get_async_client_does_not_store Examples.rate_limiting_provider
              self w1 Ha1 (fun _ => eq_refl))
    as (c2 & w2 & H2 & Hc2 & Ha2 & Hr2).
  exists (client_ref c1), (client_ref c2).
  unfold client_identities, twice, bind, ret. rewrite H1, H2.
  cbn [fst snd]. rewrite Ha2, Hc2, Hc1. split; [reflexivity | lia].
Qed.

(** ** Audio *)

Section audio.

Variable ext : Externals.
Variable self : Groq.t.

(** An audio object without bytes and without URL content whose file is
    not there resolves to [None]; only a line is logged. *)
Lemma _format_audio_for_message_missing_file (audio : Audio.t)
    (path : string) (w : World) :
  Audio.content audio = None ->
  Audio.audio_url_content audio = None ->
  Audio.filepath audio = Some path ->
  files w !! path = None ->
  exists w',
    Groq._format_audio_for_message audio w = (Ok None, w')
    /\ calls w' = calls w
    /\ client w' = client w.
Proof.
  intros Hc Hu Hf Hm. unfold Groq._format_audio_for_message.
  rewrite Hc, Hu, Hf.
  assert (Hlog :
    (_ <- log INFO ("Attempting to read audio from file: " +:+ path);;
     w0 <- get;;
     match files w0 !! path with
     | Some content => ret (Some content)
     | None => ret None
     end) w
    = (Ok None,
       {| api_key := api_key w; client := client w;
          async_client := async_client w; messages := messages w;
          files := files w; next_ref := next_ref w; calls := calls w;
          logged := logged w ++
            [(INFO, "Attempting to read audio from file: " +:+ path)] |})).
  { unfold bind, log, get, ret. cbn [files]. by rewrite Hm. }
  destruct (Audio.url audio); rewrite Hlog; by eauto.
Qed.


End audio.



(** ** The formatting of messages *)

Section formatting.

Variable ext : Externals.

Lemma length_append (s t : string) :
  String.length (s +:+ t) = (String.length s + String.length t)%nat.
Proof.
  induction s as [|c s IH]; [done|].
  change (S (String.length (s +:+ t))
          = S (String.length s + String.length t)).
  by rewrite IH.
Qed.

(** Appending the directive changes a string. *)
Lemma append_json_directive_neq (s : string) :
  s +:+ Groq.json_directive <> s.
Proof.
  intros H. apply (f_equal String.length) in H.
  rewrite length_append in H.
  change (String.length Groq.json_directive) with 39%nat in H. lia.
Qed.

(** The first formatting of a system message in JSON mode: the mapping
    returned has the content as it was; the message has the directive. *)
Lemma format_message_system_json (s : string) :
  formatted_content
    (Groq.format_message ext Examples.json_mode 0
       (Examples.world [Examples.system_message s]))
  = Some (PStr s)
  /\ message_after
       (Groq.format_message ext Examples.json_mode 0
          (Examples.world [Examples.system_message s])) 0
     = Some (Examples.system_message (s +:+ Groq.json_directive)).
Proof. split; vm_compute; reflexivity. Qed.

(** C4: the code does not do what the claim says.  The mapping is built
    before the directive is appended, and the directive is appended to the
    message, not to the mapping: for every system message with text
    content, in JSON mode, the content of the mapping returned is the
    text as it was; for the text [Be brief] it does not end with the
    directive. *)
Theorem format_message_returns_content_without_directive :
  (forall s : string,
     formatted_content
       (Groq.format_message ext Examples.json_mode 0
          (Examples.world [Examples.system_message s]))
     = Some (PStr s))
  /\ ends_with Groq.json_directive "Be brief" = false
  /\ ends_with Groq.json_directive ("Be brief" +:+ Groq.json_directive)
     = true.
Proof.
  split; [intros s; apply format_message_system_json|].
  split; vm_compute; reflexivity.
Qed.

(** C5: the code does not do what the claim says.  Formatting a system
    message in JSON mode changes the [content] of the message (the
    directive is appended to it), and formatting the same message a second
    time returns another content than the first time. *)
Theorem format_message_mutates_the_message :
  forall s : string,
    message_after
      (Groq.format_message ext Examples.json_mode 0
         (Examples.world [Examples.system_message s])) 0
    = Some (Examples.system_message (s +:+ Groq.json_directive))
    /\ Message.content (Examples.system_message (s +:+ Groq.json_directive))
       <> Message.content (Examples.system_message s)
    /\ formatted_content
         (bind (Groq.format_message ext Examples.json_mode 0)
            (fun _ => Groq.format_message ext Examples.json_mode 0)
            (Examples.world [Examples.system_message s]))
       = Some (PStr (s +:+ Groq.json_directive))
    /\ formatted_content
         (bind (Groq.format_message ext Examples.json_mode 0)
            (fun _ => Groq.format_message ext Examples.json_mode 0)
            (Examples.world [Examples.system_message s]))
       <> formatted_content
            (Groq.format_message ext Examples.json_mode 0
               (Examples.world [Examples.system_message s])).
Proof.
  intros s.
  assert (H2 :
    formatted_content
      (bind (Groq.format_message ext Examples.json_mode 0)
         (fun _ => Groq.format_message ext Examples.json_mode 0)
         (Examples.world [Examples.system_message s]))
    = Some (PStr (s +:+ Groq.json_directive)))
    by (vm_compute; reflexivity).
  split; [apply format_message_system_json|].
  split.
  { cbn [Message.content Examples.system_message]. intros H.
    injection H as H. by apply append_json_directive_neq in H. }
  split; [exact H2|].
  rewrite H2, (proj1 (format_message_system_json s)).
  intros H. injection H as H. by apply append_json_directive_neq in H.
Qed.

End formatting.

(** ** What the invocation methods raise and return *)

Section surfacing.

Variable ext : Externals.
Variable self : Groq.t.

(** Whatever is raised inside the [try], the [except] clauses raise a
    [ModelProviderError] that names the model. *)
Lemma except_clauses_raise {A} (m : M A) (w : World) (e : exn) :
  surfaced (try_except m (Groq.except_clauses self) w) = Some e ->
  exists message status,
    e = ModelProviderError message status (Groq.name self) (Groq.id self).
Proof.
  unfold surfaced, try_except.
  destruct (m w) as [[a|e0] w']; [discriminate|].
  destruct e0; cbn; intros [= <-]; by eauto.
Qed.

(** What the [except] clauses make of an exception raised inside the
    [try]. *)
Lemma except_clauses_wrap {A} (m : M A) (w w1 : World) (e0 : exn) :
  m w = (Raise e0, w1) ->
  surfaced (try_except m (Groq.except_clauses self) w)
  = Some (ModelProviderError
            match e0 with
            | APIResponseValidationError _ r | APIStatusError _ r => text r
            | APIError message => message
            | _ => exn_str e0
            end
            match e0 with
            | APIResponseValidationError _ r | APIStatusError _ r =>
                Some (status_code r)
            | _ => None
            end
            (Groq.name self) (Groq.id self)).
Proof.
  intros Hm. unfold surfaced, try_except. rewrite Hm. by destruct e0.
Qed.

(** X1: the [except] clauses of [invoke], [ainvoke], [invoke_stream] and
    [ainvoke_stream] cover the whole of [Exception].  An exception that
    leaves one of the methods is a [ModelProviderError] carrying the name
    and the id of the model.  And whichever exception of that class is
    raised inside the [try] (while the request is prepared: the client,
    the formatting of the messages, the keyword arguments; by [create]; or,
    in [ainvoke_stream], while the stream is iterated), the
    [ModelProviderError] has the text and the status code of the HTTP
    response for a status or validation error, the message and no status
    code for another [APIError], and [str(e)] and no status code for
    anything else.  (An exception that derives from [BaseException] only,
    such as [KeyboardInterrupt] or [asyncio.CancelledError], is caught by
    no clause; [exn] has none.) *)
Theorem invocation_raises_only_model_provider_error
    (async stream : bool) (messages : list nat) (w : World) :
  (forall e,
     invocation_error ext self async stream messages w = Some e ->
     exists message status,
       e = ModelProviderError message status (Groq.name self) (Groq.id self))
  /\ (forall (e0 : exn) (w1 : World),
        Groq.prepare_request ext self async stream messages w
        = (Raise e0, w1)
        \/ (exists request,
              Groq.prepare_request ext self async stream messages w
              = (Ok request, w1)
              /\ ((if stream
                   then chat_create_stream ext (calls w1) request = Raise e0
                   else chat_create ext (calls w1) request = Raise e0)
                  \/ (async = true /\ stream = true
                      /\ exists s,
                           chat_create_stream ext (calls w1) request = Ok s
                           /\ failure s = Some e0))) ->
        invocation_error ext self async stream messages w
        = Some (ModelProviderError
                  match e0 with
                  | APIResponseValidationError _ r
                  | APIStatusError _ r => text r
                  | APIError message => message
                  | _ => exn_str e0
                  end
                  match e0 with
                  | APIResponseValidationError _ r
                  | APIStatusError _ r => Some (status_code r)
                  | _ => None
                  end
                  (Groq.name self) (Groq.id self))).
Proof.
  split.
  - intros e. unfold invocation_error.
    destruct async, stream; apply except_clauses_raise.
  - intros e0 w1 [Hprep | (request & Hprep & Hraise)].
    + unfold invocation_error.
      destruct async, stream;
        unfold Groq.ainvoke_stream, Groq.invoke_stream, Groq.ainvoke,
          Groq.invoke;
        apply (except_clauses_wrap _ w w1);
        unfold bind; by rewrite Hprep.
    + destruct Hraise as [Hcreate | (-> & -> & s & Hcreate & Hfail)].
      * unfold invocation_error.
        destruct async, stream;
          unfold Groq.ainvoke_stream, Groq.invoke_stream, Groq.ainvoke,
            Groq.invoke;
          eapply except_clauses_wrap;
          unfold bind; rewrite Hprep;
          unfold Groq.create, Groq.create_stream, bind, get, record_call,
            lift;
          cbn [calls]; rewrite Hcreate; reflexivity.
      * unfold invocation_error, Groq.ainvoke_stream.
        eapply except_clauses_wrap.
        unfold bind. rewrite Hprep.
        unfold Groq.create_stream, bind, get, record_call, lift.
        cbn [calls]. rewrite Hcreate, Hfail. reflexivity.
Qed.

(** X2: [invoke_stream] returns the stream as the SDK made it, after one
    network call and without logging anything: a failure the stream carries
    (it shows when the caller iterates) is not turned into a
    [ModelProviderError]. *)
Theorem invoke_stream_returns_the_stream_unwrapped
    (messages : list nat) (w w1 : World) (request : ChatRequest)
    (s : Stream) :
  Groq.prepare_request ext self false true messages w = (Ok request, w1) ->
  chat_create_stream ext (calls w1) request = Ok s ->
  exists w',
    Groq.invoke_stream ext self messages w = (Ok s, w')
    /\ calls w' = calls w1 ++ [ChatCall request]
    /\ logged w' = logged w1.
Proof.
  intros Hprep Hcreate.
  unfold Groq.invoke_stream, try_except, bind. rewrite Hprep.
  unfold Groq.create_stream, bind, get, record_call, lift.
  cbn [calls]. rewrite Hcreate. by eauto.
Qed.

(** X3: in [ainvoke_stream] the iteration is inside the [try]: a status or
    validation error that ends the stream after some chunks reaches the
    consumer as a [ModelProviderError] with the status code and the text of
    the HTTP response. *)
Theorem ainvoke_stream_wraps_stream_failures
    (messages : list nat) (w w1 : World) (request : ChatRequest)
    (s : Stream) (e : exn) (msg : string) (response : HttpResponse) :
  Groq.prepare_request ext self true true messages w = (Ok request, w1) ->
  chat_create_stream ext (calls w1) request = Ok s ->
  failure s = Some e ->
  e = APIStatusError msg response
  \/ e = APIResponseValidationError msg response ->
  surfaced (Groq.ainvoke_stream ext self messages w)
  = Some (ModelProviderError (text response) (Some (status_code response))
            (Groq.name self) (Groq.id self)).
Proof.
  intros Hprep Hcreate Hf He. unfold Groq.ainvoke_stream.
  eapply except_clauses_status; [exact He|].
  unfold bind. rewrite Hprep.
  unfold Groq.create_stream, bind, get, record_call, lift.
  cbn [calls]. rewrite Hcreate, Hf. reflexivity.
Qed.

End surfacing.

(** X1, at [invoke] with a provider that cannot be reached (an
    [APIError] of [create]), and at [invoke] with
    [request_params={"model": "other"}] (a [TypeError] while the request is
    prepared). *)
Lemma invocation_raises_only_model_provider_error_witness :
  invocation_error Examples.unreachable_provider Groq.defaults
    false false [0%nat] Examples.brief
  = Some (ModelProviderError "Connection error." None
            "Groq" "llama-3.3-70b-versatile")
  /\ invocation_error Examples.rate_limiting_provider
       Examples.model_overridden false false [] Examples.connected
     = Some (ModelProviderError "got multiple values for keyword argument"
               None "Groq" "llama-3.3-70b-versatile").
Proof.
  split.
  - apply (proj2 (invocation_raises_only_model_provider_error
                    Examples.unreachable_provider Groq.defaults false false
                    [0%nat] Examples.brief)
             (APIError "Connection error.") Examples.prepared.2).
    right. exists Examples.prepared_request. split.
    + vm_compute. reflexivity.
    + left. reflexivity.
  - apply (proj2 (invocation_raises_only_model_provider_error
                    Examples.rate_limiting_provider
                    Examples.model_overridden false false []
                    Examples.connected)
             (TypeError "got multiple values for keyword argument")
             Examples.connected).
    left. reflexivity.
Defined.

(** X2, at a stream that breaks after its first chunk. *)
Lemma invoke_stream_returns_the_stream_unwrapped_witness :
  exists w',
    Groq.invoke_stream Examples.stream_breaking_provider Groq.defaults
      [0%nat] Examples.brief
    = (Ok Examples.broken_stream, w')
    /\ calls w'
       = calls (Examples.prepared_stream false).2
         ++ [ChatCall (Examples.prepared_stream_request false)]
    /\ logged w' = logged (Examples.prepared_stream false).2.
Proof.
  apply (invoke_stream_returns_the_stream_unwrapped
           Examples.stream_breaking_provider Groq.defaults [0%nat]
           Examples.brief (Examples.prepared_stream false).2
           (Examples.prepared_stream_request false) Examples.broken_stream).
  - vm_compute. reflexivity.
  - reflexivity.
Defined.

(** X3, at the same stream. *)
Lemma ainvoke_stream_wraps_stream_failures_witness :
  surfaced
    (Groq.ainvoke_stream Examples.stream_breaking_provider Groq.defaults
       [0%nat] Examples.brief)
  = Some (ModelProviderError "rate limited" (Some 429)
            "Groq" "llama-3.3-70b-versatile").
Proof.
  apply (ainvoke_stream_wraps_stream_failures
           Examples.stream_breaking_provider Groq.defaults [0%nat]
           Examples.brief (Examples.prepared_stream true).2
           (Examples.prepared_stream_request true) Examples.broken_stream
           (APIStatusError "Error code: 429" Examples.rate_limited)
           "Error code: 429" Examples.rate_limited).
  - vm_compute. reflexivity.
  - reflexivity.
  - reflexivity.
  - left. reflexivity.
Defined.

(** ** Dict displays and comprehensions *)

Section dicts.

(** A key that is not in a dict display is not in the comprehension over
    it. *)
Lemma non_none_lookup_None (base : list (string * option pyval))
    (k : string) :
  k ∉ base.*1 -> non_none base !! k = None.
Proof.
  intros Hk. unfold non_none. apply not_elem_of_list_to_map_1.
  intros Hin. apply Hk. clear Hk.
  induction base as [|[k' [v|]] base IH]; cbn in *.
  - done.
  - apply elem_of_cons in Hin as [->|Hin]; [left | right; by apply IH].
  - right. by apply IH.
Qed.

Lemma non_none_cons_Some (k : string) (v : pyval)
    (base : list (string * option pyval)) :
  non_none ((k, Some v) :: base) = <[k := v]> (non_none base).
Proof. reflexivity. Qed.

Lemma non_none_cons_None (k : string)
    (base : list (string * option pyval)) :
  non_none ((k, None) :: base) = non_none base.
Proof. reflexivity. Qed.

(** The first item of the display decides the entry of its key. *)
Lemma non_none_lookup_head (k : string) (o : option pyval)
    (base : list (string * option pyval)) :
  k ∉ base.*1 -> non_none ((k, o) :: base) !! k = o.
Proof.
  intros Hk. destruct o as [v|].
  - rewrite non_none_cons_Some. apply lookup_insert_eq.
  - rewrite non_none_cons_None. by apply non_none_lookup_None.
Qed.

(** A dict with an entry is truthy. *)
Lemma dict_truthy_lookup (d : pydict) (k : string) (v : pyval) :
  d !! k = Some v -> dict_truthy (Some d) = true.
Proof.
  intros Hk. unfold dict_truthy. rewrite bool_decide_false; [done|].
  intros Hd. apply elem_of_dom_2 in Hk. rewrite Hd in Hk.
  by apply not_elem_of_empty in Hk.
Qed.

End dicts.

(** ** Client and request parameters *)

Section params.

Variable ext : Externals.
Variable self : Groq.t.

(** X4: [_get_client_params] prefers the API key of the instance; when the
    instance has none (or an empty one) it reads [GROQ_API_KEY] and stores
    what it gets on the instance; the parameters returned carry the key the
    instance holds afterwards (no entry when there is none).  It does not
    raise. *)
Theorem _get_client_params_api_key_precedence (w : World) :
  default ∅ (Groq.client_params self) !! "api_key" = None ->
  exists p w',
    Groq._get_client_params ext self w = (Ok p, w')
    /\ api_key w'
       = (if truthy (api_key w) then api_key w
          else getenv ext "GROQ_API_KEY")
    /\ p !! "api_key" = PStr <$> api_key w'.
Proof.
  intros Hcp.
  unfold Groq._get_client_params, bind, get, when, ret, set_api_key, log.
  assert (Hk : forall (o : option pyval) rest,
            "api_key" ∉ rest.*1 ->
            (if dict_truthy (Groq.client_params self)
             then update (non_none (("api_key", o) :: rest))
                    (default ∅ (Groq.client_params self))
             else non_none (("api_key", o) :: rest)) !! "api_key" = o).
  { intros o rest Hr. destruct (dict_truthy _).
    - unfold update. rewrite lookup_union_r by exact Hcp.
      by apply non_none_lookup_head.
    - by apply non_none_lookup_head. }
  assert (Hnotin : forall a b c d e : option pyval,
            "api_key" ∉ [("base_url", a); ("timeout", b); ("max_retries", c);
                         ("default_headers", d); ("default_query", e)].*1).
  { intros. cbn. rewrite !not_elem_of_cons. repeat split; try discriminate.
    apply not_elem_of_nil. }
  destruct (truthy (api_key w)); cbv beta iota.
  - eexists _, _. split; [reflexivity|]. split; [done|].
    apply Hk, Hnotin.
  - cbn [api_key].
    destruct (truthy (getenv ext "GROQ_API_KEY")); cbv beta iota;
      eexists _, _; (split; [reflexivity|]); cbn [api_key];
      (split; [done|]); apply Hk, Hnotin.
Qed.

(** What [_get_client_params] logs. *)
Lemma _get_client_params_logged (w : World) :
  truthy (api_key w) = false ->
  truthy (getenv ext "GROQ_API_KEY") = false ->
  exists p w',
    Groq._get_client_params ext self w = (Ok p, w')
    /\ client w' = client w
    /\ next_ref w' = next_ref w
    /\ calls w' = calls w
    /\ logged w'
       = logged w ++
         [(ERROR, "GROQ_API_KEY not set. Please set the " +:+
                  "GROQ_API_KEY environment variable.")].
Proof.
  intros Hk He.
  unfold Groq._get_client_params, bind, get, when, ret, set_api_key, log.
  rewrite Hk. cbv beta iota. cbn [api_key]. rewrite He. cbv beta iota.
  eexists _, _. by split.
Qed.

(** X5: when no client is stored and there is no API key, neither on the
    instance nor in the environment, [get_client] logs one error line and
    then calls the constructor of the SDK with the parameters it has.
    What follows is the constructor's doing: when it raises (the SDK's
    client raises without an API key), [get_client] raises that exception
    and stores no client; when it accepts, the new client is stored and
    returned.  No network call is made. *)
Theorem get_client_without_api_key_follows_the_constructor
    (w w1 : World) (p : pydict) :
  client w = None ->
  truthy (api_key w) = false ->
  truthy (getenv ext "GROQ_API_KEY") = false ->
  Groq._get_client_params ext self w = (Ok p, w1) ->
  logged w1
  = logged w ++
    [(ERROR, "GROQ_API_KEY not set. Please set the " +:+
             "GROQ_API_KEY environment variable.")]
  /\ match client_init ext false
             (match Groq.http_client self with
              | Some h => <["http_client" := h]> p
              | None => p
              end) with
     | Some e =>
         Groq.get_client ext self w = (Raise e, w1)
         /\ client w1 = None /\ calls w1 = calls w
     | None =>
         exists c w',
           Groq.get_client ext self w = (Ok c, w')
           /\ client w' = Some c /\ calls w' = calls w
           /\ logged w' = logged w1
     end.
Proof.
  intros Hc Hk He Hp.
  destruct (_get_client_params_logged w Hk He)
    as (p' & w1' & Hp' & Hcl & _ & Hcalls & Hlog).
  rewrite Hp in Hp'. injection Hp' as <- <-.
  split; [exact Hlog|].
  unfold Groq.get_client, bind, get. rewrite Hc, Hp.
  unfold Groq.new_client.
  destruct (client_init ext false _) as [e|].
  - split; [reflexivity|]. split; [by rewrite Hcl | exact Hcalls].
  - unfold bind, new_ref, ret, set_client. eexists _, _.
    split; [reflexivity|]. cbn [client calls logged]. by rewrite Hcalls.
Qed.

(** X6: when a call of [get_client] returns a client, the instance holds
    that client afterwards, the call has created at most one object, and a
    further call returns the same object and changes nothing. *)
Theorem get_client_creates_once_and_reuses (w w1 : World) (c : GroqClient) :
  Groq.get_client ext self w = (Ok c, w1) ->
  client w1 = Some c
  /\ Groq.get_client ext self w1 = (Ok c, w1)
  /\ twice (Groq.get_client ext self) w = (Ok (c, c), w1)
  /\ (next_ref w1 <= S (next_ref w))%nat.
Proof.
  intros H.
  assert (Hstored : client w1 = Some c /\ (next_ref w1 <= S (next_ref w))%nat).
  { destruct (client w) as [c0|] eqn:Hc.
    - rewrite (get_client_cached ext self c0 w Hc) in H.
      injection H as <- <-. split; [done | lia].
    - unfold Groq.get_client, bind, get in H. rewrite Hc in H.
      destruct (_get_client_params_frame ext self w)
        as (p & w' & Hp & _ & _ & Hn).
      rewrite Hp in H. unfold Groq.new_client in H.
      destruct (client_init ext false _) as [e|]; [discriminate H|].
      unfold bind, new_ref, ret, set_client in H.
      injection H as <- <-. cbn [client next_ref]. split; [done | lia]. }
  destruct Hstored as [Hs Hn].
  pose proof (get_client_cached ext self c w1 Hs) as H2.
  split; [done|]. split; [done|]. split; [|done].
  unfold twice, bind, ret. by rewrite H, H2.
Qed.

End params.

Section kwargs.

Variable self : Groq.t.

Lemma request_keys_no_tools (a b c d e f g h i j k l m n : option pyval) :
  ("tools" ∉
     ([("frequency_penalty", a); ("logit_bias", b); ("logprobs", c);
       ("max_tokens", d); ("presence_penalty", e);
       ("response_format", f); ("seed", g); ("stop", h);
       ("temperature", i); ("top_logprobs", j); ("top_p", k);
       ("user", l); ("extra_headers", m); ("extra_query", n)].*1))
  /\ ("tool_choice" ∉
        ([("frequency_penalty", a); ("logit_bias", b); ("logprobs", c);
          ("max_tokens", d); ("presence_penalty", e);
          ("response_format", f); ("seed", g); ("stop", h);
          ("temperature", i); ("top_logprobs", j); ("top_p", k);
          ("user", l); ("extra_headers", m); ("extra_query", n)].*1)).
Proof. split; apply (bool_decide_unpack _); vm_compute; exact I. Qed.

(** X7: when no [request_params] are given, the request carries [tools]
    exactly when the model has tools, and [tool_choice] only together with
    them: a [tool_choice] set on a model without tools is not sent. *)
Theorem request_kwargs_tool_choice_needs_tools :
  Groq.request_params self = None ->
  Groq.request_kwargs self !! "tools" = Groq._tools self
  /\ Groq.request_kwargs self !! "tool_choice"
     = match Groq._tools self with
       | Some _ => Groq.tool_choice self
       | None => None
       end.
Proof.
  intros Hrp. unfold Groq.request_kwargs. rewrite Hrp.
  cbv zeta. cbn [dict_truthy].
  match goal with
  | |- context [non_none ?base] =>
      assert (Hn : non_none base !! "tools" = None
                   /\ non_none base !! "tool_choice" = None)
        by (split; apply non_none_lookup_None, request_keys_no_tools);
      generalize dependent (non_none base)
  end.
  intros base [Ht Hc].
  destruct (Groq._tools self) as [tools|]; [|done].
  destruct (Groq.tool_choice self) as [choice|].
  - split; [by rewrite lookup_insert_ne, lookup_insert_eq|].
    by rewrite lookup_insert_eq.
  - split; [by rewrite lookup_insert_eq|].
    by rewrite lookup_insert_ne.
Qed.

(** X8: an entry of a non-empty [request_params] is in the request as it
    is given, whatever the fields of the model say for that key. *)
Theorem request_params_override (rp : pydict) (k : string) (v : pyval) :
  Groq.request_params self = Some rp ->
  rp !! k = Some v ->
  Groq.request_kwargs self !! k = Some v.
Proof.
  intros Hrp Hk. unfold Groq.request_kwargs. rewrite Hrp.
  cbv zeta. rewrite (dict_truthy_lookup rp k v Hk).
  unfold update. cbn [default]. by apply lookup_union_Some_l.
Qed.

End kwargs.

(** X4, at a new instance with the key in the environment. *)
Lemma _get_client_params_api_key_precedence_witness :
  exists p w',
    Groq._get_client_params Examples.rate_limiting_provider Groq.defaults
      (Examples.world [])
    = (Ok p, w')
    /\ api_key w'
       = (if truthy (api_key (Examples.world []))
          then api_key (Examples.world [])
          else getenv Examples.rate_limiting_provider "GROQ_API_KEY")
    /\ p !! "api_key" = PStr <$> api_key w'.
Proof.
  apply (_get_client_params_api_key_precedence
           Examples.rate_limiting_provider Groq.defaults
           (Examples.world [])).
  reflexivity.
Defined.

(** X5, at a new instance in a process without the variable, with a
    constructor that raises without an API key. *)
Lemma get_client_without_api_key_follows_the_constructor_witness :
  logged Examples.keyless_params.2
  = logged (Examples.world []) ++
    [(ERROR, "GROQ_API_KEY not set. Please set the " +:+
             "GROQ_API_KEY environment variable.")]
  /\ (Groq.get_client Examples.keyless_provider Groq.defaults
        (Examples.world [])
      = (Raise Examples.missing_api_key, Examples.keyless_params.2)
      /\ client Examples.keyless_params.2 = None
      /\ calls Examples.keyless_params.2 = calls (Examples.world [])).
Proof.
  exact (get_client_without_api_key_follows_the_constructor
           Examples.keyless_provider Groq.defaults (Examples.world [])
           Examples.keyless_params.2 ∅ eq_refl eq_refl eq_refl eq_refl).
Defined.

(** X6, at the first call on a new instance. *)
Lemma get_client_creates_once_and_reuses_witness :
  client Examples.sync_made.2 = Some Examples.sync_made_client
  /\ Groq.get_client Examples.rate_limiting_provider Groq.defaults
       Examples.sync_made.2
     = (Ok Examples.sync_made_client, Examples.sync_made.2)
  /\ twice (Groq.get_client Examples.rate_limiting_provider Groq.defaults)
       (Examples.world [])
     = (Ok (Examples.sync_made_client, Examples.sync_made_client),
        Examples.sync_made.2)
  /\ (next_ref Examples.sync_made.2 <= S (next_ref (Examples.world [])))%nat.
Proof.
  apply (get_client_creates_once_and_reuses
           Examples.rate_limiting_provider Groq.defaults
           (Examples.world []) Examples.sync_made.2
           Examples.sync_made_client).
  vm_compute. reflexivity.
Defined.

(** X7, at a model with a tool choice and no tools, and at a model with a
    tool and a tool choice. *)
Lemma request_kwargs_tool_choice_needs_tools_witness :
  (Groq.request_kwargs Examples.choice_without_tools !! "tools" = None
   /\ Groq.request_kwargs Examples.choice_without_tools !! "tool_choice"
      = None)
  /\ (Groq.request_kwargs Examples.with_tools !! "tools"
      = Some (PList [PDict [("type", PStr "function")]])
      /\ Groq.request_kwargs Examples.with_tools !! "tool_choice"
         = Some (PStr "required")).
Proof.
  split.
  - apply (request_kwargs_tool_choice_needs_tools
             Examples.choice_without_tools).
    reflexivity.
  - apply (request_kwargs_tool_choice_needs_tools Examples.with_tools).
    reflexivity.
Defined.

(** X8, at [request_params={"model": "other"}]. *)
Lemma request_params_override_witness :
  Groq.request_kwargs Examples.model_overridden !! "model"
  = Some (PStr "other").
Proof.
  apply (request_params_override Examples.model_overridden
           {["model" := PStr "other"]} "model" (PStr "other"));
    reflexivity.
Defined.

(** ** Keyword arguments given twice *)

Section duplicate_keywords.

Variable ext : Externals.
Variable self : Groq.t.

(** A key of [request_kwargs] that the call also passes by name makes the
    call a [TypeError]. *)
Lemma chat_request_duplicate (client : GroqClient) (stream : bool)
    (msgs : list pydict) (k : string) (w : World) :
  k = "model" \/ k = "messages" \/ (k = "stream" /\ stream = true) ->
  is_Some (Groq.request_kwargs self !! k) ->
  Groq.chat_request self client stream msgs w
  = (Raise (TypeError "got multiple values for keyword argument"), w).
Proof.
  intros Hk Hsome. unfold Groq.chat_request.
  rewrite bool_decide_true; [done|].
  apply Exists_exists. exists k. split; [|done].
  destruct Hk as [-> | [-> | [-> ->]]].
  - apply elem_of_app. left. apply elem_of_cons. by left.
  - apply elem_of_app. left. apply elem_of_cons. right.
    apply elem_of_cons. by left.
  - apply elem_of_app. right. apply elem_of_cons. by left.
Qed.

(** X9: [request_params] cannot replace an argument the methods pass by
    name.  When [request_kwargs] has the key [model] or [messages] (or
    [stream], for the streaming methods), each of the four methods fails
    once the client is there and the messages are formatted: the caller
    gets a [ModelProviderError] without status code, and no request is
    sent. *)
Theorem duplicate_keyword_fails_before_the_request
    (async stream : bool) (messages : list nat) (w w1 w2 : World)
    (client : GroqClient) (msgs : list pydict) (k : string) :
  (if async then Groq.get_async_client ext self else Groq.get_client ext self)
    w = (Ok client, w1) ->
  Groq.format_messages ext self messages w1 = (Ok msgs, w2) ->
  k = "model" \/ k = "messages" \/ (k = "stream" /\ stream = true) ->
  is_Some (Groq.request_kwargs self !! k) ->
  (exists msg,
     invocation_error ext self async stream messages w
     = Some (ModelProviderError msg None (Groq.name self) (Groq.id self)))
  /\ calls (invocation_world ext self async stream messages w) = calls w2.
Proof.
  intros Hclient Hmsgs Hk Hsome.
  assert (Hprep :
    Groq.prepare_request ext self async stream messages w
    = (Raise (TypeError "got multiple values for keyword argument"), w2)).
  { unfold Groq.prepare_request, bind. rewrite Hclient, Hmsgs.
    by apply (chat_request_duplicate client stream msgs k). }
  unfold invocation_error, invocation_world, surfaced.
  destruct async, stream;
    unfold Groq.ainvoke_stream, Groq.invoke_stream, Groq.ainvoke, Groq.invoke,
      try_except, bind;
    rewrite Hprep; (split; [eexists; reflexivity | reflexivity]).
Qed.

End duplicate_keywords.

(** X9, at [invoke] without messages on an instance that holds its client,
    with [request_params={"model": "other"}]. *)
Lemma duplicate_keyword_fails_before_the_request_witness :
  (exists msg,
     invocation_error Examples.rate_limiting_provider
       Examples.model_overridden false false [] Examples.connected
     = Some (ModelProviderError msg None
               (Groq.name Examples.model_overridden)
               (Groq.id Examples.model_overridden)))
  /\ calls
       (invocation_world Examples.rate_limiting_provider
          Examples.model_overridden false false [] Examples.connected)
     = calls Examples.connected.
Proof.
  apply (duplicate_keyword_fails_before_the_request
           Examples.rate_limiting_provider Examples.model_overridden
           false false [] Examples.connected Examples.connected
           Examples.connected Examples.stored_client [] "model").
  - reflexivity.
  - reflexivity.
  - left. reflexivity.
  - exists (PStr "other"). reflexivity.
Defined.

(** ** Fragments with a negative index *)

Section negative_index.
Import Reassembler.

(** X10: the index of a fragment is used as a Python list index.  When the
    first fragment of a stream has a negative index, the list is not
    extended and [tool_calls[_index]] raises [IndexError]: the method
    raises, whatever follows. *)
Theorem parse_tool_calls_negative_first_index_raises
    (tc : Delta.ChoiceDeltaToolCall)
    (rest : list Delta.ChoiceDeltaToolCall) :
  Delta.index tc < 0 ->
  parse_tool_calls (tc :: rest) = Raise IndexError.
Proof.
  intros Hi. unfold parse_tool_calls. cbn [run].
  assert (Hs : step ([], []) tc = Raise IndexError);
    [|by rewrite Hs].
  unfold step. cbn [fst snd length].
  replace (Z.of_nat 0 <=? Delta.index tc) with false
    by (symmetry; apply Z.leb_gt; lia).
  unfold list_getitem. cbn [length].
  replace (Delta.index tc <? 0) with true by (symmetry; apply Z.ltb_lt; lia).
  replace (0 <=? Delta.index tc + Z.of_nat 0) with false
    by (symmetry; apply Z.leb_gt; lia).
  reflexivity.
Qed.

End negative_index.

(** X10, at a single fragment with index -1. *)
Lemma parse_tool_calls_negative_first_index_raises_witness :
  Reassembler.parse_tool_calls
    [Reassembler.fragment (-1) (Some "call_0") (Some "function")
       (Some "search") (Some "{}")]
  = Raise IndexError.
Proof.
  apply (parse_tool_calls_negative_first_index_raises
           (Reassembler.fragment (-1) (Some "call_0") (Some "function")
              (Some "search") (Some "{}")) []).
  reflexivity.
Defined.

(** ** Streams that skip no index *)

Section refinement.
Import Reassembler Reference.

Lemma Inv_entries st es : Inv st es -> entries st = Some <$> es.
Proof.
  destruct st as [l h]. intros (Hl & Hh & Hlay). cbn [fst snd] in *.
  unfold entries. cbn [fst snd]. subst l.
  apply list_eq. intros k.
  rewrite !list_lookup_fmap.
  destruct (es !! k) as [e|] eqn:He.
  - assert (k < length es)%nat by (by eapply lookup_lt_Some).
    rewrite lookup_seq_lt by done. cbn [fmap option_fmap option_map].
    change (0 + k)%nat with k.
    specialize (Hlay k e He). destruct e as [|i t n a]; [done|].
    destruct Hlay as (d & fd & Hd & Hfd & Hi & Ht & Hf & Hn & Ha).
    unfold read_entry. rewrite Hd. cbn [mbind option_bind].
    destruct (decide (d = ∅)) as [->|_]; [by rewrite lookup_empty in Hi|].
    rewrite Hi. cbn [mbind option_bind]. rewrite Ht. cbn [mbind option_bind].
    rewrite Hf. cbn [mbind option_bind]. rewrite Hfd. cbn [mbind option_bind].
    rewrite Hn. cbn [mbind option_bind]. rewrite Ha. reflexivity.
  - apply lookup_ge_None in He.
    rewrite lookup_seq_ge by done. reflexivity.
Qed.


Lemma deref_lookup (h : store) (l : loc) (d : dict) :
  h !! l = Some d -> deref h l = Ok d.
Proof. intros H. unfold deref. by rewrite H. Qed.

Lemma setitem_lookup (h : store) (l : loc) (d : dict) (k : string)
    (v : hval) :
  h !! l = Some d -> setitem l k v h = Ok (<[l := <[k := v]> d]> h).
Proof. intros H. unfold setitem. by rewrite (deref_lookup h l d H). Qed.

Lemma getitem_lookup (h : store) (l : loc) (d : dict) (k : string)
    (v : hval) :
  h !! l = Some d -> d !! k = Some v -> getitem l k h = Ok v.
Proof.
  intros H Hk. unfold getitem. rewrite (deref_lookup h l d H).
  cbn [rbind]. by rewrite Hk.
Qed.

Lemma iadd_nested_lookup (h : store) (l li : loc) (d fd : dict)
    (k1 k2 t s : string) :
  h !! l = Some d -> d !! k1 = Some (HDict li) ->
  h !! li = Some fd -> fd !! k2 = Some (HStr t) ->
  iadd_nested l k1 k2 s h = Ok (<[li := <[k2 := HStr (t +:+ s)]> fd]> h).
Proof.
  intros H Hk1 Hi Hk2. unfold iadd_nested.
  rewrite (getitem_lookup h l d k1 _ H Hk1). cbn [rbind].
  rewrite (getitem_lookup h li fd k2 _ Hi Hk2). cbn [rbind].
  by apply setitem_lookup.
Qed.

Lemma Inv_length st es : Inv st es -> length st.1 = length es.
Proof. intros (-> & _ & _). by rewrite length_fmap, length_seq. Qed.

Lemma Inv_lookup st es k :
  Inv st es -> (k < length es)%nat -> st.1 !! k = Some (2 * k)%nat.
Proof.
  intros (-> & _ & _) Hk. rewrite list_lookup_fmap, lookup_seq_lt by done.
  reflexivity.
Qed.

(** Changing the two dicts of one entry. *)
Lemma Inv_update (l : list loc) (h h' : store) (es : list entry) (k : nat)
    (e' : entry) :
  Inv (l, h) es ->
  (k < length es)%nat ->
  length h' = length h ->
  (forall j, j <> (2 * k)%nat -> j <> (2 * k + 1)%nat -> h' !! j = h !! j) ->
  layout h' k e' ->
  Inv (l, h') (<[k := e']> es).
Proof.
  intros (Hl & Hh & Hlay) Hk Hlen Hother Hnew. cbn [fst snd] in *.
  split; [|split]; cbn [fst snd].
  - by rewrite length_insert.
  - by rewrite length_insert, Hlen.
  - intros j e Hj. destruct (decide (j = k)) as [->|Hne].
    + rewrite list_lookup_insert_eq in Hj by done. by injection Hj as <-.
    + rewrite list_lookup_insert_ne in Hj by done.
      specialize (Hlay j e Hj). destruct e as [|i t n a]; [done|].
      destruct Hlay as (d & fd & Hd & Hfd & Hrest).
      exists d, fd. rewrite !Hother by lia. done.
Qed.


Section fields.

Variables (l : list loc) (h : store) (es : list entry) (k : nat).
Variables (i t : hval) (n a : string).
Hypothesis HInv : Inv (l, h) es.
Hypothesis Hk : es !! k = Some (ToolCall i t n a).

Lemma maybe_set_id (o : option string) :
  exists h',
    (if truthy o then setitem (2 * k)%nat "id" (of_optional o) h else Ok h)
    = Ok h'
    /\ Inv (l, h')
         (<[k := ToolCall (if truthy o then of_optional o else i) t n a]> es).
Proof.
  destruct (truthy o).
  - destruct HInv as (_ & _ & Hlay). specialize (Hlay k _ Hk).
    destruct Hlay as (d & fd & Hd & Hfd & Hi & Ht & Hf & Hn & Ha).
    eexists. split; [by apply setitem_lookup|].
    apply (Inv_update l h); [done | by eapply lookup_lt_Some | | | ].
    + by rewrite length_insert.
    + intros j Hj _. by rewrite list_lookup_insert_ne.
    + exists (<["id" := of_optional o]> d), fd.
      rewrite list_lookup_insert_eq by (by eapply lookup_lt_Some).
      rewrite list_lookup_insert_ne by lia.
      rewrite lookup_insert_eq, !lookup_insert_ne by done. done.
  - exists h. split; [done|]. by rewrite list_insert_id.
Qed.

Lemma maybe_set_type (o : option string) :
  exists h',
    (if truthy o then setitem (2 * k)%nat "type" (of_optional o) h else Ok h)
    = Ok h'
    /\ Inv (l, h')
         (<[k := ToolCall i (if truthy o then of_optional o else t) n a]> es).
Proof.
  destruct (truthy o).
  - destruct HInv as (_ & _ & Hlay). specialize (Hlay k _ Hk).
    destruct Hlay as (d & fd & Hd & Hfd & Hi & Ht & Hf & Hn & Ha).
    eexists. split; [by apply setitem_lookup|].
    apply (Inv_update l h); [done | by eapply lookup_lt_Some | | | ].
    + by rewrite length_insert.
    + intros j Hj _. by rewrite list_lookup_insert_ne.
    + exists (<["type" := of_optional o]> d), fd.
      rewrite list_lookup_insert_eq by (by eapply lookup_lt_Some).
      rewrite list_lookup_insert_ne by lia.
      rewrite lookup_insert_eq, !lookup_insert_ne by done. done.
  - exists h. split; [done|]. by rewrite list_insert_id.
Qed.

Lemma truthy_default (o : option string) :
  truthy o = true -> default EmptyString o = or_empty o.
Proof. by destruct o as [[|c s]|]. Qed.

Lemma falsy_or_empty (o : option string) :
  truthy o = false -> or_empty o = EmptyString.
Proof. by destruct o as [[|c s]|]. Qed.

Lemma maybe_add_name (o : option string) :
  exists h',
    (if truthy o
     then iadd_nested (2 * k)%nat "function" "name" (default EmptyString o) h
     else Ok h)
    = Ok h'
    /\ Inv (l, h') (<[k := ToolCall i t (n +:+ or_empty o) a]> es).
Proof.
  destruct (truthy o) eqn:Ho.
  - destruct HInv as (_ & _ & Hlay). specialize (Hlay k _ Hk).
    destruct Hlay as (d & fd & Hd & Hfd & Hi & Ht & Hf & Hn & Ha).
    eexists. split; [by eapply iadd_nested_lookup|].
    rewrite (truthy_default o Ho).
    apply (Inv_update l h); [done | by eapply lookup_lt_Some | | | ].
    + by rewrite length_insert.
    + intros j _ Hj. by rewrite list_lookup_insert_ne.
    + exists d, (<["name" := HStr (n +:+ or_empty o)]> fd).
      rewrite list_lookup_insert_eq by (by eapply lookup_lt_Some).
      rewrite list_lookup_insert_ne by lia.
      rewrite lookup_insert_eq, !lookup_insert_ne by done. done.
  - exists h. split; [done|].
    rewrite (falsy_or_empty o Ho), append_empty_r. by rewrite list_insert_id.
Qed.

Lemma maybe_add_arguments (o : option string) :
  exists h',
    (if truthy o
     then iadd_nested (2 * k)%nat "function" "arguments"
            (default EmptyString o) h
     else Ok h)
    = Ok h'
    /\ Inv (l, h') (<[k := ToolCall i t n (a +:+ or_empty o)]> es).
Proof.
  destruct (truthy o) eqn:Ho.
  - destruct HInv as (_ & _ & Hlay). specialize (Hlay k _ Hk).
    destruct Hlay as (d & fd & Hd & Hfd & Hi & Ht & Hf & Hn & Ha).
    eexists. split; [by eapply iadd_nested_lookup|].
    rewrite (truthy_default o Ho).
    apply (Inv_update l h); [done | by eapply lookup_lt_Some | | | ].
    + by rewrite length_insert.
    + intros j _ Hj. by rewrite list_lookup_insert_ne.
    + exists d, (<["arguments" := HStr (a +:+ or_empty o)]> fd).
      rewrite list_lookup_insert_eq by (by eapply lookup_lt_Some).
      rewrite list_lookup_insert_ne by lia.
      rewrite lookup_insert_eq, !lookup_insert_ne by done. done.
  - exists h. split; [done|].
    rewrite (falsy_or_empty o Ho), append_empty_r. by rewrite list_insert_id.
Qed.

End fields.


Lemma list_getitem_nat {A} (l : list A) (k : nat) (x : A) :
  l !! k = Some x -> list_getitem l (Z.of_nat k) = Ok x.
Proof.
  intros Hx. assert (k < length l)%nat by (by eapply lookup_lt_Some).
  unfold list_getitem.
  replace (Z.of_nat k <? 0) with false by (symmetry; apply Z.ltb_ge; lia).
  replace (0 <=? Z.of_nat k) with true by (symmetry; apply Z.leb_le; lia).
  replace (Z.of_nat k <? Z.of_nat (length l)) with true
    by (symmetry; apply Z.ltb_lt; lia).
  cbn [andb]. by rewrite Nat2Z.id, Hx.
Qed.

(** A fragment for an index that is there is merged into its entry. *)
Lemma step_merge (st : state) (es : list entry) (k : nat) (e : entry)
    (tc : Delta.ChoiceDeltaToolCall) :
  Inv st es ->
  Delta.index tc = Z.of_nat k ->
  es !! k = Some e ->
  exists st',
    step st tc = Ok st' /\ Inv st' (<[k := later_fragment e tc]> es).
Proof.
  intros HInv Hidx He.
  assert (Hlt : (k < length es)%nat) by (by eapply lookup_lt_Some).
  pose proof (Inv_length st es HInv) as Hlen.
  pose proof (Inv_lookup st es k HInv Hlt) as Hl.
  destruct st as [l h]. cbn [fst snd] in Hlen, Hl.
  destruct e as [|i t n a];
    [destruct HInv as (_ & _ & Hlay); by specialize (Hlay k _ He)|].
  destruct (proj2 (proj2 HInv) k _ He)
    as (d & fd & Hd & Hfd & Hi & Ht & Hf & Hn & Ha).
  unfold step. cbn [fst snd]. rewrite Hidx, Hlen.
  replace (Z.of_nat (length es) <=? Z.of_nat k) with false
    by (symmetry; apply Z.leb_gt; lia).
  rewrite (list_getitem_nat l k _ Hl). cbn [rbind].
  rewrite (deref_lookup h _ d Hd). cbn [rbind].
  destruct (decide (d = ∅)) as [->|_]; [by rewrite lookup_empty in Hi|].
  set (fname := match Delta.function tc with
                | Some f => Delta.name f | None => None end).
  set (fargs := match Delta.function tc with
                | Some f => Delta.arguments f | None => None end).
  destruct (maybe_add_name l h es k i t n a HInv He fname)
    as (h1 & -> & HInv1).
  cbn [rbind].
  assert (He1 : <[k := ToolCall i t (n +:+ or_empty fname) a]> es !! k
                = Some (ToolCall i t (n +:+ or_empty fname) a))
    by (by apply list_lookup_insert_eq).
  destruct (maybe_add_arguments l h1 _ k _ _ _ _ HInv1 He1 fargs)
    as (h2 & -> & HInv2).
  cbn [rbind]. rewrite list_insert_insert_eq in HInv2.
  match type of HInv2 with
  | Inv _ (<[k := ?e2]> es) =>
      assert (He2 : <[k := e2]> es !! k = Some e2)
        by (by apply list_lookup_insert_eq)
  end.
  destruct (maybe_set_id l h2 _ k _ _ _ _ HInv2 He2 (Delta.id tc))
    as (h3 & -> & HInv3).
  cbn [rbind]. rewrite list_insert_insert_eq in HInv3.
  match type of HInv3 with
  | Inv _ (<[k := ?e3]> es) =>
      assert (He3 : <[k := e3]> es !! k = Some e3)
        by (by apply list_lookup_insert_eq)
  end.
  destruct (maybe_set_type l h3 _ k _ _ _ _ HInv3 He3 (Delta.type tc))
    as (h4 & -> & HInv4).
  cbn [rbind]. rewrite list_insert_insert_eq in HInv4.
  eexists. split; [reflexivity|].
  unfold later_fragment. subst fname fargs.
  by destruct (Delta.function tc).
Qed.


(** A fragment for the next index gets a new dict of its own. *)
Lemma step_append (st : state) (es : list entry)
    (tc : Delta.ChoiceDeltaToolCall) :
  Inv st es ->
  Delta.index tc = Z.of_nat (length es) ->
  exists st',
    step st tc = Ok st' /\ Inv st' (es ++ [first_fragment tc]).
Proof.
  intros HInv Hidx.
  pose proof (Inv_length st es HInv) as Hlen.
  destruct st as [l h]. destruct HInv as (Hl & Hh & Hlay).
  cbn [fst snd] in Hlen, Hl, Hh, Hlay.
  set (x := length h).
  assert (Hx : x = (2 * length es)%nat) by done.
  unfold step. cbn [fst snd]. rewrite Hidx, Hlen.
  replace (Z.of_nat (length es) <=? Z.of_nat (length es)) with true
    by (symmetry; apply Z.leb_le; lia).
  replace (Z.of_nat (length es) - Z.of_nat (length es) + 1) with 1 by lia.
  unfold extend_placeholders, alloc. cbn [fst snd].
  change (replicate (Z.to_nat 1) (length h)) with [x].
  rewrite (list_getitem_nat (l ++ [x]) (length es) x)
    by (by rewrite <- Hlen, lookup_app_r, Nat.sub_diag by done).
  cbn [rbind].
  assert (H0 : (h ++ [∅ : dict]) !! x = Some (∅ : dict))
    by (by rewrite lookup_app_r, Nat.sub_diag by done).
  rewrite (deref_lookup _ _ _ H0). cbn [rbind].
  destruct (decide ((∅ : dict) = ∅)) as [_|Hne]; [|done].
  rewrite (setitem_lookup _ _ _ "id" _ H0). cbn [rbind].
  set (h1 := <[x := _]> (h ++ [∅])).
  assert (H1 : h1 !! x = Some (<["id" := of_optional (Delta.id tc)]> ∅))
    by (apply list_lookup_insert_eq; rewrite length_app; cbn; lia).
  rewrite (setitem_lookup _ _ _ "type" _ H1). cbn [rbind].
  set (h2 := <[x := _]> h1).
  assert (Hlen2 : length h2 = S x)
    by (unfold h2, h1; rewrite !length_insert, length_app; cbn; lia).
  assert (H2 : h2 !! x
               = Some (<["type" := of_optional (Delta.type tc)]>
                         (<["id" := of_optional (Delta.id tc)]> ∅)))
    by (apply list_lookup_insert_eq; unfold h1;
        rewrite length_insert, length_app; cbn; lia).
  set (fd := <["arguments" := _]> (<["name" := _]> ∅)).
  assert (H3 : (h2 ++ [fd]) !! x
               = Some (<["type" := of_optional (Delta.type tc)]>
                         (<["id" := of_optional (Delta.id tc)]> ∅)))
    by (rewrite lookup_app_l by lia; exact H2).
  rewrite (setitem_lookup _ _ _ "function" _ H3). cbn [rbind].
  eexists. split; [reflexivity|].
  split; [|split]; cbn [fst snd].
  - rewrite length_app, Nat.add_1_r, seq_S, fmap_app, <- Hl. cbn.
    by rewrite Hx.
  - rewrite length_insert, !length_app, Hlen2. cbn. lia.
  - intros k e He.
    assert (Hother : forall j, (j < x)%nat ->
              (<[x := <["function" := HDict (length h2)]>
                        (<["type" := of_optional (Delta.type tc)]>
                           (<["id" := of_optional (Delta.id tc)]> ∅))]>
                 (h2 ++ [fd])) !! j = h !! j).
    { intros j Hj. rewrite list_lookup_insert_ne by lia.
      rewrite lookup_app_l by lia. unfold h2, h1.
      rewrite !list_lookup_insert_ne by lia. by rewrite lookup_app_l. }
    destruct (decide (k = length es)) as [->|Hne].
    + rewrite lookup_app_r, Nat.sub_diag in He by done.
      injection He as <-. unfold first_fragment, layout.
      eexists _, fd. rewrite <- Hx.
      split; [apply list_lookup_insert_eq; rewrite length_app; lia|].
      split.
      { rewrite list_lookup_insert_ne by lia.
        rewrite lookup_app_r by lia.
        replace (x + 1 - length h2)%nat with 0%nat by lia. done. }
      rewrite Hlen2.
      replace (x + 1)%nat with (S x) by lia.
      rewrite lookup_insert_eq, !lookup_insert_ne by done.
      rewrite lookup_insert_eq.
      unfold fd. rewrite lookup_insert_eq, lookup_insert_ne by done.
      rewrite lookup_insert_eq.
      by destruct (Delta.function tc).
    + assert (Hk : (k < length es)%nat).
      { apply lookup_lt_Some in He. rewrite length_app in He. cbn in He.
        lia. }
      rewrite lookup_app_l in He by done.
      specialize (Hlay k e He). destruct e as [|i t n a]; [done|].
      destruct Hlay as (d & fd' & Hd & Hfd & Hrest).
      exists d, fd'. rewrite !Hother by lia. done.
Qed.


Lemma run_no_gap (tcs : list Delta.ChoiceDeltaToolCall) :
  forall (st : state) (es : list entry),
    Inv st es ->
    no_gap (length es) tcs = true ->
    exists st', run st tcs = Ok st' /\ Inv st' (foldl accumulate es tcs).
Proof.
  induction tcs as [|tc tcs IH]; intros st es HInv Hgap.
  - exists st. by split.
  - cbn [no_gap] in Hgap.
    apply andb_prop in Hgap as [Hgap Hrest].
    apply andb_prop in Hgap as [Hlo Hhi].
    apply Z.leb_le in Hlo. apply Z.leb_le in Hhi.
    cbn [run foldl].
    destruct (Delta.index tc =? Z.of_nat (length es)) eqn:Heq.
    + apply Z.eqb_eq in Heq.
      destruct (step_append st es tc HInv Heq) as (st1 & -> & HInv1).
      cbn [rbind].
      assert (Hacc : accumulate es tc = es ++ [first_fragment tc]).
      { unfold accumulate. rewrite Heq, Nat2Z.id.
        by rewrite (proj2 (lookup_ge_None es (length es))). }
      rewrite Hacc. apply IH; [done|].
      by rewrite length_app, Nat.add_1_r.
    + apply Z.eqb_neq in Heq.
      assert (Hk : (Z.to_nat (Delta.index tc) < length es)%nat) by lia.
      destruct (lookup_lt_is_Some_2 es _ Hk) as [e He].
      assert (Hidx : Delta.index tc = Z.of_nat (Z.to_nat (Delta.index tc)))
        by lia.
      destruct (step_merge st es _ e tc HInv Hidx He) as (st1 & -> & HInv1).
      cbn [rbind].
      assert (Hacc : accumulate es tc
                     = <[Z.to_nat (Delta.index tc) := later_fragment e tc]> es)
        by (unfold accumulate; by rewrite He).
      rewrite Hacc. apply IH; [done|]. by rewrite length_insert.
Qed.

(** X11: when no fragment skips an index (the index of each fragment is at
    most the number of entries so far), [parse_tool_calls] returns, every
    entry is a dict object of its own, and the entries read as the fold of
    [Reference.accumulate]: the first fragment of an index sets id, type,
    name and arguments (the empty string for a missing text); a later
    fragment appends its name and arguments and replaces id and type when
    it has non-empty ones. *)
Theorem parse_tool_calls_without_gaps
    (tcs : list Delta.ChoiceDeltaToolCall) :
  no_gap 0 tcs = true ->
  exists l,
    observe (parse_tool_calls tcs) = Ok (l, Some <$> assemble tcs)
    /\ NoDup l
    /\ length l = length (assemble tcs).
Proof.
  intros Hgap.
  assert (H0 : Inv ([], []) []) by (split; [done | split; [done|]]; done).
  destruct (run_no_gap tcs ([], []) [] H0 Hgap) as (st & Hrun & HInv).
  exists st.1. unfold parse_tool_calls, observe. rewrite Hrun. cbn [rbind].
  rewrite (Inv_entries st _ HInv). split; [done|].
  split; [|by apply Inv_length].
  destruct HInv as (-> & _ & _).
  apply NoDup_fmap_2; [intros a b; lia | apply NoDup_seq].
Qed.

End refinement.


(** X11, at two tool calls whose fragments are interleaved. *)
Lemma parse_tool_calls_without_gaps_witness :
  exists l,
    Reassembler.observe
      (Reassembler.parse_tool_calls
         [Reassembler.fragment 0 (Some "call_0") (Some "function")
            (Some "get_") (Some "{");
          Reassembler.fragment 1 (Some "call_1") (Some "function")
            (Some "search") (Some "{}");
          Reassembler.fragment 0 None None (Some "weather") (Some "}")])
    = Ok (l,
          Some <$>
            Reference.assemble
              [Reassembler.fragment 0 (Some "call_0") (Some "function")
                 (Some "get_") (Some "{");
               Reassembler.fragment 1 (Some "call_1") (Some "function")
                 (Some "search") (Some "{}");
               Reassembler.fragment 0 None None (Some "weather")
                 (Some "}")])
    /\ NoDup l
    /\ length l
       = length
           (Reference.assemble
              [Reassembler.fragment 0 (Some "call_0") (Some "function")
                 (Some "get_") (Some "{");
               Reassembler.fragment 1 (Some "call_1") (Some "function")
                 (Some "search") (Some "{}");
               Reassembler.fragment 0 None None (Some "weather")
                 (Some "}")]).
Proof.
  apply (parse_tool_calls_without_gaps
           [Reassembler.fragment 0 (Some "call_0") (Some "function")
              (Some "get_") (Some "{");
            Reassembler.fragment 1 (Some "call_1") (Some "function")
              (Some "search") (Some "{}");
            Reassembler.fragment 0 None None (Some "weather") (Some "}")]).
  reflexivity.
Defined.

(** ** Streams with any non-negative indices *)

Section population.
Import Reassembler Reference.

Lemma populated_read (l : list loc) (h : store) (x : loc) (d : dict) :
  h !! x = Some d -> populated l h d ->
  exists i t n a, read_entry h x = Some (ToolCall i t n a).
Proof.
  intros Hd (i & t & lf & fd & n & a & Hi & Ht & Hf & _ & Hfd & Hn & Ha).
  exists i, t, n, a. unfold read_entry. rewrite Hd. cbn [mbind option_bind].
  destruct (decide (d = ∅)) as [->|_]; [by rewrite lookup_empty in Hi|].
  rewrite Hi. cbn [mbind option_bind]. rewrite Ht. cbn [mbind option_bind].
  rewrite Hf. cbn [mbind option_bind]. rewrite Hfd. cbn [mbind option_bind].
  rewrite Hn. cbn [mbind option_bind]. by rewrite Ha.
Qed.

(** Assigning [id] or [type] of an entry keeps every entry populated. *)
Lemma all_populated_setitem (l : list loc) (h : store) (x : loc) (d : dict)
    (k : string) (v : hval) :
  all_populated (l, h) -> x ∈ l -> h !! x = Some d ->
  k = "id" \/ k = "type" ->
  all_populated (l, <[x := <[k := v]> d]> h).
Proof.
  intros Hall Hx Hd Hk y Hy. cbn [fst snd] in *.
  assert (Hlt : (x < length h)%nat) by (by eapply lookup_lt_Some).
  destruct (Hall y Hy) as (dy & Hdy & Hpop). cbn [fst snd] in *.
  destruct Hpop as (i & t & lf & fd & n & a & Hi & Ht & Hf & Hlf & Hfd & Hn & Ha).
  assert (lf <> x) by (intros ->; done).
  destruct (decide (y = x)) as [->|Hne].
  - assert (dy = d) as -> by congruence.
    exists (<[k := v]> d). split; [by apply list_lookup_insert_eq|].
    destruct Hk as [-> | ->].
    + exists v, t, lf, fd, n, a.
      rewrite lookup_insert_eq, !lookup_insert_ne by done.
      by rewrite list_lookup_insert_ne.
    + exists i, v, lf, fd, n, a.
      rewrite lookup_insert_eq, !lookup_insert_ne by done.
      by rewrite list_lookup_insert_ne.
  - exists dy. split; [by rewrite list_lookup_insert_ne|].
    exists i, t, lf, fd, n, a. by rewrite list_lookup_insert_ne.
Qed.

(** Assigning [name] or [arguments] of a function dict keeps every entry
    populated. *)
Lemma all_populated_set_function (l : list loc) (h : store) (lf : loc)
    (fd : dict) (k : string) (s : string) :
  all_populated (l, h) -> lf ∉ l -> h !! lf = Some fd ->
  k = "name" \/ k = "arguments" ->
  all_populated (l, <[lf := <[k := HStr s]> fd]> h).
Proof.
  intros Hall Hlf Hfd Hk y Hy. cbn [fst snd] in *.
  assert (Hlt : (lf < length h)%nat) by (by eapply lookup_lt_Some).
  destruct (Hall y Hy) as (dy & Hdy & Hpop). cbn [fst snd] in *.
  destruct Hpop
    as (i & t & lfy & fdy & n & a & Hi & Ht & Hf & Hlfy & Hfdy & Hn & Ha).
  assert (y <> lf) by (intros ->; done).
  exists dy. split; [by rewrite list_lookup_insert_ne|].
  destruct (decide (lfy = lf)) as [->|Hne].
  - assert (fdy = fd) as -> by congruence.
    destruct Hk as [-> | ->].
    + exists i, t, lf, (<["name" := HStr s]> fd), s, a.
      rewrite list_lookup_insert_eq by done.
      by rewrite lookup_insert_eq, lookup_insert_ne.
    + exists i, t, lf, (<["arguments" := HStr s]> fd), n, s.
      rewrite list_lookup_insert_eq by done.
      by rewrite lookup_insert_eq, lookup_insert_ne.
  - exists i, t, lfy, fdy, n, a. by rewrite list_lookup_insert_ne.
Qed.

Section conditional.

Variables (l : list loc) (h : store) (x : loc).
Hypothesis Hall : all_populated (l, h).
Hypothesis Hx : x ∈ l.

Lemma populated_maybe_setitem (k : string) (o : option string) :
  k = "id" \/ k = "type" ->
  exists h',
    (if truthy o then setitem x k (of_optional o) h else Ok h) = Ok h'
    /\ all_populated (l, h').
Proof.
  intros Hk. destruct (truthy o); [|by exists h].
  destruct (Hall x Hx) as (d & Hd & _). cbn [fst snd] in Hd.
  eexists. split; [by apply setitem_lookup|].
  by apply all_populated_setitem.
Qed.

Lemma populated_maybe_iadd (k : string) (o : option string) :
  k = "name" \/ k = "arguments" ->
  exists h',
    (if truthy o
     then iadd_nested x "function" k (default EmptyString o) h
     else Ok h) = Ok h'
    /\ all_populated (l, h').
Proof.
  intros Hk. destruct (truthy o); [|by exists h].
  destruct (Hall x Hx) as (d & Hd & Hpop). cbn [fst snd] in Hd, Hpop.
  destruct Hpop
    as (i & t & lf & fd & n & a & Hi & Ht & Hf & Hlf & Hfd & Hn & Ha).
  destruct Hk as [-> | ->].
  - eexists. split; [by eapply iadd_nested_lookup|].
    by apply all_populated_set_function; [| | |left].
  - eexists. split; [by eapply iadd_nested_lookup|].
    by apply all_populated_set_function; [| | |right].
Qed.

End conditional.


Lemma list_getitem_Z {A} (l : list A) (i : Z) (x : A) :
  0 <= i -> l !! Z.to_nat i = Some x -> list_getitem l i = Ok x.
Proof.
  intros Hi Hx. rewrite <- (Z2Nat.id i) by done.
  by apply list_getitem_nat.
Qed.

(** One fragment with a non-negative index: the step returns, each slot
    of the list holds a populated dict afterwards, and the list is as long
    as the index asks for. *)
Lemma step_populated (st : state) (tc : Delta.ChoiceDeltaToolCall) :
  all_populated st ->
  0 <= Delta.index tc ->
  exists st',
    step st tc = Ok st'
    /\ all_populated st'
    /\ Z.of_nat (length st'.1)
       = Z.max (Z.of_nat (length st.1)) (Delta.index tc + 1).
Proof.
  intros Hall Hidx. destruct st as [l h]. unfold step. cbn [fst snd].
  destruct (Z.of_nat (length l) <=? Delta.index tc) eqn:Hext.
  - apply Z.leb_le in Hext.
    unfold extend_placeholders, alloc. cbn [fst snd].
    set (x := length h).
    set (m := Z.to_nat (Delta.index tc - Z.of_nat (length l) + 1)).
    set (l' := l ++ replicate m x).
    assert (Hl' : l' !! Z.to_nat (Delta.index tc) = Some x).
    { unfold l'. rewrite lookup_app_r by lia.
      apply lookup_replicate_2. lia. }
    assert (Hin : forall y, y ∈ l' -> y ∈ l \/ y = x).
    { intros y Hy. apply elem_of_app in Hy as [Hy|Hy]; [by left|].
      apply elem_of_replicate in Hy as [-> _]. by right. }
    assert (Hold : forall y, y ∈ l -> (y < x)%nat).
    { intros y Hy. destruct (Hall y Hy) as (d & Hd & _).
      by eapply lookup_lt_Some. }
    rewrite (list_getitem_Z l' _ x Hidx Hl'). cbn [rbind].
    assert (H0 : (h ++ [∅ : dict]) !! x = Some (∅ : dict))
      by (by rewrite lookup_app_r, Nat.sub_diag by done).
    rewrite (deref_lookup _ _ _ H0). cbn [rbind].
    destruct (decide ((∅ : dict) = ∅)) as [_|Hne]; [|done].
    rewrite (setitem_lookup _ _ _ "id" _ H0). cbn [rbind].
    set (h1 := <[x := _]> (h ++ [∅])).
    assert (H1 : h1 !! x = Some (<["id" := of_optional (Delta.id tc)]> ∅))
      by (apply list_lookup_insert_eq; rewrite length_app; cbn; lia).
    rewrite (setitem_lookup _ _ _ "type" _ H1). cbn [rbind].
    set (h2 := <[x := _]> h1).
    assert (Hlen2 : length h2 = S x)
      by (unfold h2, h1; rewrite !length_insert, length_app; cbn; lia).
    assert (H2 : h2 !! x
                 = Some (<["type" := of_optional (Delta.type tc)]>
                           (<["id" := of_optional (Delta.id tc)]> ∅)))
      by (apply list_lookup_insert_eq; unfold h1;
          rewrite length_insert, length_app; cbn; lia).
    set (fd := <["arguments" := _]> (<["name" := _]> ∅)).
    assert (H3 : (h2 ++ [fd]) !! x
                 = Some (<["type" := of_optional (Delta.type tc)]>
                           (<["id" := of_optional (Delta.id tc)]> ∅)))
      by (rewrite lookup_app_l by lia; exact H2).
    rewrite (setitem_lookup _ _ _ "function" _ H3). cbn [rbind].
    set (dx := <["function" := HDict (length h2)]> _).
    eexists. split; [reflexivity|]. cbn [fst snd]. split.
    + assert (Hother : forall j, (j < x)%nat ->
                (<[x := dx]> (h2 ++ [fd])) !! j = h !! j).
      { intros j Hj. rewrite list_lookup_insert_ne by lia.
        rewrite lookup_app_l by lia. unfold h2, h1.
        rewrite !list_lookup_insert_ne by lia. by rewrite lookup_app_l. }
      assert (Hfresh : length h2 ∉ l').
      { intros Hy. apply Hin in Hy as [Hy | Hy]; [apply Hold in Hy|]; lia. }
      intros y Hy. cbn [fst snd] in *.
      apply Hin in Hy as [Hy | ->].
      * destruct (Hall y Hy) as (d & Hd & Hpop). cbn [fst snd] in *.
        destruct Hpop
          as (i & t & lf & fd' & n & a & Hi & Ht & Hf & Hlf & Hfd & Hn & Ha).
        exists d. split; [by rewrite Hother by (by apply Hold)|].
        exists i, t, lf, fd', n, a.
        assert (lf < x)%nat by (by eapply lookup_lt_Some).
        rewrite Hother by done.
        repeat split; try done.
        intros Hlf'. apply Hin in Hlf' as [? | ?]; [done | lia].
      * exists dx. split.
        { apply list_lookup_insert_eq. rewrite length_app. lia. }
        eexists _, _, (length h2), fd, _, _. unfold dx, fd.
        rewrite lookup_insert_eq, !lookup_insert_ne by done.
        rewrite !lookup_insert_eq, lookup_insert_ne by done.
        rewrite lookup_insert_eq.
        rewrite list_lookup_insert_ne by lia.
        rewrite lookup_app_r, Nat.sub_diag by lia.
        repeat split; done.
    + unfold l'. rewrite length_app, length_replicate. lia.
  - apply Z.leb_gt in Hext.
    assert (Hlt : (Z.to_nat (Delta.index tc) < length l)%nat) by lia.
    destruct (lookup_lt_is_Some_2 l _ Hlt) as [x Hlx].
    assert (Hx : x ∈ l) by (by eapply list_elem_of_lookup_2).
    rewrite (list_getitem_Z l _ x Hidx Hlx). cbn [rbind].
    destruct (Hall x Hx) as (d & Hd & Hpop). cbn [fst snd] in Hd, Hpop.
    rewrite (deref_lookup h x d Hd). cbn [rbind].
    destruct (decide (d = ∅)) as [->|_].
    { destruct Hpop as (i & t & lf & fd & n & a & Hi & _).
      by rewrite lookup_empty in Hi. }
    destruct (populated_maybe_iadd l h x Hall Hx "name"
                (match Delta.function tc with
                 | Some f => Delta.name f | None => None end))
      as (h1 & -> & Hall1); [by left|]. cbn [rbind].
    destruct (populated_maybe_iadd l h1 x Hall1 Hx "arguments"
                (match Delta.function tc with
                 | Some f => Delta.arguments f | None => None end))
      as (h2 & -> & Hall2); [by right|]. cbn [rbind].
    destruct (populated_maybe_setitem l h2 x Hall2 Hx "id" (Delta.id tc))
      as (h3 & -> & Hall3); [by left|]. cbn [rbind].
    destruct (populated_maybe_setitem l h3 x Hall3 Hx "type" (Delta.type tc))
      as (h4 & -> & Hall4); [by right|]. cbn [rbind].
    eexists. split; [reflexivity|]. split; [done|]. cbn [fst]. lia.
Qed.

Lemma run_populated (tcs : list Delta.ChoiceDeltaToolCall) :
  forall st : state,
    all_populated st ->
    Forall (fun tc => 0 <= Delta.index tc) tcs ->
    exists st',
      run st tcs = Ok st'
      /\ all_populated st'
      /\ Z.of_nat (length st'.1)
         = Z.max (Z.of_nat (length st.1)) (max_index tcs + 1).
Proof.
  induction tcs as [|tc tcs IH]; intros st Hall Hnn.
  - exists st. split; [done|]. split; [done|]. cbn. lia.
  - apply Forall_cons in Hnn as [Htc Hnn].
    destruct (step_populated st tc Hall Htc) as (st1 & Hs & Hall1 & Hlen1).
    destruct (IH st1 Hall1 Hnn) as (st2 & Hr & Hall2 & Hlen2).
    exists st2. cbn [run]. rewrite Hs. cbn [rbind].
    split; [done|]. split; [done|].
    rewrite Hlen2, Hlen1. unfold max_index. cbn [fmap list_fmap foldr].
    fold (max_index tcs). lia.
Qed.

(** X12: for fragments with non-negative indices, in any order and with
    any gaps, [parse_tool_calls] returns (it does not raise) and the list
    it returns has length 0 when there is no fragment and one plus the
    largest index otherwise. *)
Theorem parse_tool_calls_returns_and_length
    (tcs : list Delta.ChoiceDeltaToolCall) :
  Forall (fun tc => 0 <= Delta.index tc) tcs ->
  exists st,
    parse_tool_calls tcs = Ok st
    /\ Z.of_nat (length st.1) = max_index tcs + 1.
Proof.
  intros Hnn.
  assert (H0 : all_populated ([], [])) by (intros x Hx; by inversion Hx).
  destruct (run_populated tcs ([], []) H0 Hnn) as (st & Hr & _ & Hlen).
  exists st. split; [done|]. rewrite Hlen. cbn [fst length].
  assert (-1 <= max_index tcs); [|lia].
  unfold max_index. generalize (Delta.index <$> tcs). intros zs.
  induction zs as [|z zs IHz]; cbn; lia.
Qed.

(** X13: for fragments with non-negative indices, no slot of the list
    returned by [parse_tool_calls] is an empty dict: every slot reads as a
    tool call with id, type, name and arguments, also the slots of indexes
    for which no fragment arrived. *)
Theorem parse_tool_calls_leaves_no_empty_slot
    (tcs : list Delta.ChoiceDeltaToolCall) :
  Forall (fun tc => 0 <= Delta.index tc) tcs ->
  exists l es,
    observe (parse_tool_calls tcs) = Ok (l, es)
    /\ Forall (fun e => exists i t n a, e = Some (ToolCall i t n a)) es.
Proof.
  intros Hnn.
  assert (H0 : all_populated ([], [])) by (intros x Hx; by inversion Hx).
  destruct (run_populated tcs ([], []) H0 Hnn) as (st & Hr & Hall & _).
  exists st.1, (entries st). unfold parse_tool_calls, observe.
  rewrite Hr. cbn [rbind]. split; [done|].
  unfold entries. apply Forall_fmap, Forall_forall. intros x Hx.
  destruct (Hall x Hx) as (d & Hd & Hpop). cbn [compose].
  by eapply populated_read.
Qed.

End population.

(** X12, at a single fragment with index 2. *)
Lemma parse_tool_calls_returns_and_length_witness :
  exists st,
    Reassembler.parse_tool_calls
      [Reassembler.fragment 2 (Some "call_2") (Some "function")
         (Some "search") (Some "{}")]
    = Ok st
    /\ Z.of_nat (length st.1)
       = Reference.max_index
           [Reassembler.fragment 2 (Some "call_2") (Some "function")
              (Some "search") (Some "{}")] + 1.
Proof.
  apply (parse_tool_calls_returns_and_length
           [Reassembler.fragment 2 (Some "call_2") (Some "function")
              (Some "search") (Some "{}")]).
  constructor; [simpl; lia | constructor].
Defined.

(** X13, at the same fragment. *)
Lemma parse_tool_calls_leaves_no_empty_slot_witness :
  exists l es,
    Reassembler.observe
      (Reassembler.parse_tool_calls
         [Reassembler.fragment 2 (Some "call_2") (Some "function")
            (Some "search") (Some "{}")])
    = Ok (l, es)
    /\ Forall
         (fun e => exists i t n a, e = Some (Reassembler.ToolCall i t n a))
         es.
Proof.
  apply (parse_tool_calls_leaves_no_empty_slot
           [Reassembler.fragment 2 (Some "call_2") (Some "function")
              (Some "search") (Some "{}")]).
  constructor; [simpl; lia | constructor].
Defined.

(** ** What the methods leave of the caller's messages *)

Section frames.

Lemma keeps_ret {A} (a : A) : keeps_messages (ret a).
Proof. by intros w. Qed.

Lemma keeps_raise {A} (e : exn) : keeps_messages (@raise A e).
Proof. by intros w. Qed.

Lemma keeps_lift {A} (r : result A) : keeps_messages (lift r).
Proof. by intros w. Qed.

Lemma keeps_get : keeps_messages get.
Proof. by intros w. Qed.

Lemma keeps_log (l : level) (msg : string) : keeps_messages (log l msg).
Proof. by intros w. Qed.

Lemma keeps_set_api_key (k : option string) : keeps_messages (set_api_key k).
Proof. by intros w. Qed.

Lemma keeps_set_client (c : option GroqClient) :
  keeps_messages (set_client c).
Proof. by intros w. Qed.

Lemma keeps_new_ref : keeps_messages new_ref.
Proof. by intros w. Qed.

Lemma keeps_record_call (c : NetCall) : keeps_messages (record_call c).
Proof. by intros w. Qed.

Lemma keeps_bind {A B} (m : M A) (k : A -> M B) :
  keeps_messages m -> (forall a, keeps_messages (k a)) ->
  keeps_messages (bind m k).
Proof.
  intros Hm Hk w. unfold bind. specialize (Hm w).
  destruct (m w) as [[a|e] w']; cbn [snd] in *; [|done].
  by rewrite Hk.
Qed.

Lemma keeps_try_except {A} (m : M A) (h : exn -> M A) :
  keeps_messages m -> (forall e, keeps_messages (h e)) ->
  keeps_messages (try_except m h).
Proof.
  intros Hm Hh w. unfold try_except. specialize (Hm w).
  destruct (m w) as [[a|e] w']; cbn [snd] in *; [done|].
  by rewrite Hh.
Qed.

Lemma keeps_when (b : bool) (m : M unit) :
  keeps_messages m -> keeps_messages (when b m).
Proof. intros Hm. destruct b; [done | apply keeps_ret]. Qed.

End frames.

Create HintDb keeps.

#[local] Hint Resolve keeps_ret keeps_raise keeps_lift keeps_get keeps_log
  keeps_set_api_key keeps_set_client keeps_new_ref keeps_record_call
  keeps_when : keeps.

Ltac keeps :=
  repeat first
    [ progress intros
    | solve [auto with keeps]
    | apply keeps_bind
    | apply keeps_try_except
    | apply keeps_when
    | match goal with
      | |- keeps_messages (match ?x with _ => _ end) => destruct x
      end ].

Section frames_of_methods.

Variable ext : Externals.
Variable self : Groq.t.

Lemma keeps__get_client_params :
  keeps_messages (Groq._get_client_params ext self).
Proof. unfold Groq._get_client_params. keeps. Qed.

Lemma keeps_get_client : keeps_messages (Groq.get_client ext self).
Proof.
  pose proof keeps__get_client_params.
  unfold Groq.get_client, Groq.new_client. keeps.
Qed.

Lemma keeps__format_audio_for_message (audio : Audio.t) :
  keeps_messages (Groq._format_audio_for_message audio).
Proof. unfold Groq._format_audio_for_message. keeps. Qed.

Lemma keeps_transcribe_audio (audio_data : AudioData)
    (file_format language prompt response_format : option string)
    (temperature : option pyval) (model : string) :
  keeps_messages
    (Groq.transcribe_audio ext self audio_data file_format language prompt
       response_format temperature model).
Proof.
  pose proof keeps_get_client.
  pose proof keeps__format_audio_for_message.
  unfold Groq.transcribe_audio. keeps.
Qed.

End frames_of_methods.

(** ** The formatting of messages, in general *)

Section format_message_frame.

Variable ext : Externals.
Variable self : Groq.t.

Lemma bind_Ok {A B} (m : M A) (k : A -> M B) (w w' : World) (a : A) :
  m w = (Ok a, w') -> bind m k w = k a w'.
Proof. intros H. unfold bind. by rewrite H. Qed.

Lemma read_message_Ok (i : nat) (m : Message.t) (w : World) :
  messages w !! i = Some m -> Groq.read_message i w = (Ok m, w).
Proof. intros H. unfold Groq.read_message, bind, get. by rewrite H. Qed.

Lemma keeps_read_message (i : nat) : keeps_messages (Groq.read_message i).
Proof. unfold Groq.read_message. keeps. Qed.

(** The step of [format_message] that appends the directive. *)
Lemma directive_step (i : nat) (m : Message.t) (w : World) :
  messages w !! i = Some m ->
  exists w1 m1,
    match Message.content m with
    | PStr s =>
        when (String.eqb (Message.role m) "system"
              && Groq.json_object_requested self)
          (set_message i
             (Message.set_content (PStr (s +:+ Groq.json_directive)) m))
    | _ => ret tt
    end w = (Ok tt, w1)
    /\ messages w1 !! i = Some m1
    /\ Message.role m1 = Message.role m
    /\ Message.images m1 = Message.images m
    /\ Message.audio m1 = Message.audio m
    /\ Message.videos m1 = Message.videos m
    /\ (Groq.directive_applies self m = false -> w1 = w)
    /\ (forall j, j <> i -> messages w1 !! j = messages w !! j).
Proof.
  intros Hm. unfold Groq.directive_applies.
  destruct (Message.content m) as [| | | |s| | | |];
    try (exists w, m; by repeat split).
  destruct (String.eqb (Message.role m) "system"
            && Groq.json_object_requested self);
    [|exists w, m; by repeat split].
  eexists _, _. split; [reflexivity|]. cbn [messages].
  split; [apply list_lookup_insert_eq; by eapply lookup_lt_Some|].
  repeat split; try done.
  intros j Hj. by rewrite list_lookup_insert_ne.
Qed.

(** X14: [format_message] changes no [Message] other than the one it
    formats, however it ends; and it leaves that one unchanged as well
    unless the directive applies (role [system], text content, JSON object
    requested): neither the handling of images nor the transcription of
    audio touches a message. *)
Theorem format_message_touches_no_other_message
    (i : nat) (m : Message.t) (w : World) :
  messages w !! i = Some m ->
  (Groq.directive_applies self m = false ->
   messages (Groq.format_message ext self i w).2 = messages w)
  /\ (forall j, j <> i ->
        messages (Groq.format_message ext self i w).2 !! j
        = messages w !! j).
Proof.
  intros Hm.
  destruct (directive_step i m w Hm)
    as (w1 & m1 & Hstep & _ & _ & _ & _ & _ & Hsame & Hother).
  unfold Groq.format_message.
  rewrite (bind_Ok _ _ w w m (read_message_Ok i m w Hm)).
  rewrite (bind_Ok _ _ w w1 tt Hstep).
  match goal with
  | |- context [messages (?rest w1).2] =>
      assert (Hkeeps : keeps_messages rest)
  end.
  { pose proof keeps_read_message.
    pose proof (keeps_transcribe_audio ext self).
    keeps. }
  rewrite !Hkeeps. split; [|done].
  intros Hd. by rewrite (Hsame Hd).
Qed.

End format_message_frame.

Section format_message_audio.

Variable ext : Externals.
Variable self : Groq.t.

Lemma bind_ret {A B} (a : A) (k : A -> M B) (w : World) :
  bind (ret a) k w = k a w.
Proof. reflexivity. Qed.

Lemma message_dict_role (role : string) (a b c d : option pyval) :
  non_none [("role", Some (PStr role)); ("content", a); ("name", b);
            ("tool_call_id", c); ("tool_calls", d)] !! "role"
  = Some (PStr role).
Proof.
  apply non_none_lookup_head.
  apply (bool_decide_unpack _). vm_compute. exact I.
Qed.

(** X15: a message without images ([None] or an empty list) is always
    formatted: whatever exception the transcription of its audio raises (no
    bytes, no client, an error of the provider), [format_message] returns a
    mapping with the role of the message.  When the transcription raised,
    an error line with the text of the exception is in the log; when it
    returned, the content of the mapping is the transcription. *)
Theorem format_message_survives_audio_failures
    (i : nat) (m : Message.t) (w : World) :
  messages w !! i = Some m ->
  Message.images m = None \/ Message.images m = Some [] ->
  exists d w',
    Groq.format_message ext self i w = (Ok d, w')
    /\ d !! "role" = Some (PStr (Message.role m))
    /\ forall a rest,
         Message.audio m = Some (a :: rest) ->
         exists w1 r w2,
           (Groq.directive_applies self m = false -> w1 = w)
           /\ Groq.transcribe_audio ext self (AudioList (a :: rest)) None
                None None (Some "text") None "whisper-large-v3-turbo" w1
              = (r, w2)
           /\ match r with
              | Raise e =>
                  (ERROR, "Error transcribing audio: " +:+ exn_str e)
                  ∈ logged w'
              | Ok t =>
                  d !! "content"
                  = Some (PStr ("Audio Transcription: " +:+
                                format_transcription ext t))
              end.
Proof.
  intros Hm Himg.
  destruct (directive_step self i m w Hm)
    as (w1 & m1 & Hstep & Hm1 & _ & Himg1 & Haud1 & _ & Hsame & _).
  unfold Groq.format_message.
  rewrite (bind_Ok _ _ w w m (read_message_Ok i m w Hm)).
  rewrite (bind_Ok _ _ w w1 tt Hstep).
  rewrite (bind_Ok _ _ w1 w1 m1 (read_message_Ok i m1 w1 Hm1)).
  rewrite Himg1, Haud1.
  assert (Hnone : forall (k : pydict -> M pydict) (d0 : pydict),
            bind
              match Message.images m with
              | Some (img :: imgs) =>
                  match Message.content m1 with
                  | PStr s0 =>
                      parts <- lift (images_to_message ext (img :: imgs));;
                      ret (<["content" :=
                               PList (PDict [("type", PStr "text");
                                             ("text", PStr s0)] :: parts)]>
                             d0)
                  | _ => ret d0
                  end
              | _ => ret d0
              end k w1 = k d0 w1).
  { intros k d0. destruct Himg as [Hi | Hi]; by rewrite Hi. }
  rewrite Hnone. clear Hnone.
  destruct (Message.audio m) as [[|a rest]|].
  - rewrite bind_ret. unfold bind, when, log, ret.
    destruct (bool_decide _); eexists _, _;
      (split; [reflexivity|]); (split; [apply message_dict_role|]);
      intros a' rest' Ha; discriminate Ha.
  - destruct (Groq.transcribe_audio ext self (AudioList (a :: rest)) None
                None None (Some "text") None "whisper-large-v3-turbo" w1)
      as [[t|e] w2] eqn:Ht;
      unfold try_except, bind, when, log, ret; rewrite Ht.
    + destruct (bool_decide _); eexists _, _;
        (split; [reflexivity|]);
        (split;
         [rewrite lookup_insert_ne by done; apply message_dict_role|]);
        intros a' rest' Ha; injection Ha as <- <-; exists w1, (Ok t), w2;
        (split; [exact Hsame|]); (split; [exact Ht|]);
        apply lookup_insert_eq.
    + destruct (bool_decide _); eexists _, _;
        (split; [reflexivity|]); (split; [apply message_dict_role|]);
        intros a' rest' Ha; injection Ha as <- <-; exists w1, (Raise e), w2;
        (split; [exact Hsame|]); (split; [exact Ht|]);
        cbn [logged]; rewrite ?elem_of_app, !list_elem_of_singleton;
        tauto.
  - rewrite bind_ret. unfold bind, when, log, ret.
    destruct (bool_decide _); eexists _, _;
      (split; [reflexivity|]); (split; [apply message_dict_role|]);
      intros a' rest' Ha; discriminate Ha.
Qed.

Lemma message_dict_content (role : string) (a b c d : option pyval) :
  non_none [("role", Some (PStr role)); ("content", a); ("name", b);
            ("tool_call_id", c); ("tool_calls", d)] !! "content"
  = a.
Proof.
  rewrite non_none_cons_Some, lookup_insert_ne by done.
  apply non_none_lookup_head.
  apply (bool_decide_unpack _). vm_compute. exact I.
Qed.

(** X16: for a message with audio (no images, no directive): when the
    transcription of the first audio returns, the content of the mapping
    is the text [Audio Transcription: ] followed by the transcription, in
    place of the content of the message; when the transcription raises,
    the content of the mapping is the content of the message, left out
    when it is [None]. *)
Theorem format_message_audio_replaces_content
    (i : nat) (m : Message.t) (w w2 : World) (a : Audio.t)
    (rest : list Audio.t) (r : result pyval) :
  messages w !! i = Some m ->
  Groq.directive_applies self m = false ->
  Message.images m = None ->
  Message.audio m = Some (a :: rest) ->
  Groq.transcribe_audio ext self (AudioList (a :: rest)) None None None
    (Some "text") None "whisper-large-v3-turbo" w = (r, w2) ->
  formatted_content (Groq.format_message ext self i w)
  = match r with
    | Ok t =>
        Some (PStr ("Audio Transcription: " +:+ format_transcription ext t))
    | Raise _ => Groq.not_none (Message.content m)
    end.
Proof.
  intros Hm Hd Himg Haudio Ht.
  destruct (directive_step self i m w Hm)
    as (w1 & m1 & Hstep & Hm1 & _ & _ & _ & _ & Hsame & _).
  specialize (Hsame Hd). subst w1.
  assert (m1 = m) as -> by congruence.
  unfold Groq.format_message.
  rewrite (bind_Ok _ _ w w m (read_message_Ok i m w Hm)).
  rewrite (bind_Ok _ _ w w tt Hstep).
  rewrite (bind_Ok _ _ w w m (read_message_Ok i m w Hm)).
  rewrite Himg, bind_ret, Haudio.
  unfold formatted_content, try_except, bind, when, log, ret. rewrite Ht.
  destruct r as [t|e]; destruct (bool_decide _); cbn [fst].
  - apply lookup_insert_eq.
  - apply lookup_insert_eq.
  - apply message_dict_content.
  - apply message_dict_content.
Qed.

End format_message_audio.

(** ** Transcription requests *)

Section transcription_request.

Variable ext : Externals.
Variable self : Groq.t.

Lemma lookup_if_insert_ne (b : bool) (k k' : string) (v : pyval)
    (p : pydict) :
  k <> k' -> (if b then <[k' := v]> p else p) !! k = p !! k.
Proof. intros Hk. destruct b; [by rewrite lookup_insert_ne | done]. Qed.

Lemma lookup_opt_insert_ne (o : option pyval) (k k' : string) (p : pydict) :
  k <> k' ->
  match o with Some t => <[k' := t]> p | None => p end !! k = p !! k.
Proof. intros Hk. destruct o; [by rewrite lookup_insert_ne | done]. Qed.

Lemma lookup_if_truthy_insert (o : option string) (k : string) (p : pydict) :
  p !! k = None ->
  (if truthy o then <[k := PStr (default EmptyString o)]> p else p) !! k
  = (if truthy o then PStr <$> o else None).
Proof.
  intros Hp. destruct o as [[|c s]|]; cbn [truthy]; try done.
  by rewrite lookup_insert_eq.
Qed.

(** The optional parameters of a transcription request. *)
Lemma transcription_params_lookup
    (language prompt response_format : option string)
    (temperature : option pyval) :
  let params : pydict := ∅ in
  let params :=
    if truthy language
    then <["language" := PStr (default EmptyString language)]> params
    else params in
  let params :=
    if truthy prompt
    then <["prompt" := PStr (default EmptyString prompt)]> params
    else params in
  let params :=
    if truthy response_format
    then <["response_format" := PStr (default EmptyString response_format)]>
           params
    else params in
  let params :=
    match temperature with
    | Some t => <["temperature" := t]> params
    | None => params
    end in
  params !! "language" = (if truthy language then PStr <$> language else None)
  /\ params !! "prompt" = (if truthy prompt then PStr <$> prompt else None)
  /\ params !! "response_format"
     = (if truthy response_format then PStr <$> response_format else None)
  /\ params !! "temperature" = temperature.
Proof.
  cbv zeta. split; [|split; [|split]].
  - rewrite lookup_opt_insert_ne, !lookup_if_insert_ne by done.
    by apply lookup_if_truthy_insert.
  - rewrite lookup_opt_insert_ne, lookup_if_insert_ne by done.
    apply lookup_if_truthy_insert.
    by rewrite lookup_if_insert_ne.
  - rewrite lookup_opt_insert_ne by done.
    apply lookup_if_truthy_insert.
    by rewrite !lookup_if_insert_ne.
  - destruct temperature.
    + by rewrite lookup_insert_eq.
    + by rewrite !lookup_if_insert_ne.
Qed.

(** The name given to the file: the format asked for, else the format of
    the audio object, else mp3. *)
Lemma transcription_file_name (file_format format : option string) :
  (let file_format :=
     if negb (truthy file_format) && truthy format
     then format else file_format in
   if truthy file_format then default EmptyString file_format else "mp3")
  = (if truthy file_format then default EmptyString file_format
     else if truthy format then default EmptyString format else "mp3").
Proof.
  cbv zeta. destruct (truthy file_format) eqn:E1, (truthy format) eqn:E2;
    cbn [negb andb]; by rewrite ?E1, ?E2.
Qed.

Lemma bind_lift_ret {A} (r : result A) (w : World) :
  bind (lift r) (fun response => ret response) w = (r, w).
Proof. by destruct r. Qed.

(** What [transcribe_audio] sends once the bytes are there and the client
    is made. *)
Lemma transcribe_audio_request (audio_data : AudioData) (audio : Audio.t)
    (b : bytes) (file_format language prompt response_format : option string)
    (temperature : option pyval) (model : string) (w w1 w2 : World)
    (c : GroqClient) :
  audio_data = OneAudio audio
  \/ (exists rest, audio_data = AudioList (audio :: rest)) ->
  Groq._format_audio_for_message audio w = (Ok (Some b), w1) ->
  Groq.get_client ext self w1 = (Ok c, w2) ->
  exists q,
    last_transcription
      (Groq.transcribe_audio ext self audio_data file_format language prompt
         response_format temperature model w) = Some q
    /\ tr_client q = c
    /\ tr_file q = RawBytes b
    /\ tr_model q = model
    /\ tr_file_name q
       = "audio." +:+
         (if truthy file_format then default EmptyString file_format
          else if truthy (Audio.format audio)
               then default EmptyString (Audio.format audio)
               else "mp3")
    /\ tr_params q !! "language"
       = (if truthy language then PStr <$> language else None)
    /\ tr_params q !! "prompt"
       = (if truthy prompt then PStr <$> prompt else None)
    /\ tr_params q !! "response_format"
       = (if truthy response_format then PStr <$> response_format else None)
    /\ tr_params q !! "temperature" = temperature.
Proof.
  intros Hd Hb Hc.
  assert (Hfront : forall k : AudioData * option string -> M pyval,
    bind
      (processed_audio <- Groq._format_audio_for_message audio;;
       match processed_audio with
       | None => raise (ValueError "Failed to process audio data")
       | Some b0 =>
           ret (RawBytes b0,
                if negb (truthy file_format) && truthy (Audio.format audio)
                then Audio.format audio else file_format)
       end) k w
    = k (RawBytes b,
         if negb (truthy file_format) && truthy (Audio.format audio)
         then Audio.format audio else file_format) w1).
  { intros k. unfold bind. by rewrite Hb. }
  unfold Groq.transcribe_audio.
  assert (Hrest : forall ff' : option string, exists q,
    last_transcription
      (let params : pydict := ∅ in
       let params :=
         if truthy language
         then <["language" := PStr (default EmptyString language)]> params
         else params in
       let params :=
         if truthy prompt
         then <["prompt" := PStr (default EmptyString prompt)]> params
         else params in
       let params :=
         if truthy response_format
         then <["response_format" :=
                  PStr (default EmptyString response_format)]> params
         else params in
       let params :=
         match temperature with
         | Some t => <["temperature" := t]> params
         | None => params
         end in
       let file_format :=
         if truthy ff' then default EmptyString ff' else "mp3" in
       let file_name := "audio." +:+ file_format in
       (client <- Groq.get_client ext self;;
        let request :=
          {| tr_client := client; tr_file_name := file_name;
             tr_file := RawBytes b; tr_model := model;
             tr_params := params |} in
        w0 <- get;;
        _ <- record_call (TranscriptionCall request);;
        response <- lift (transcriptions_create ext (calls w0) request);;
        ret response) w1) = Some q
    /\ tr_client q = c /\ tr_file q = RawBytes b /\ tr_model q = model
    /\ tr_file_name q
       = "audio." +:+ (if truthy ff' then default EmptyString ff' else "mp3")
    /\ tr_params q !! "language"
       = (if truthy language then PStr <$> language else None)
    /\ tr_params q !! "prompt"
       = (if truthy prompt then PStr <$> prompt else None)
    /\ tr_params q !! "response_format"
       = (if truthy response_format then PStr <$> response_format else None)
    /\ tr_params q !! "temperature" = temperature).
  { intros ff'. cbv zeta.
    rewrite (bind_Ok _ _ w1 w2 c Hc).
    unfold get at 1. unfold bind at 1.
    unfold record_call at 1. unfold bind at 1.
    rewrite bind_lift_ret. unfold last_transcription. cbn [snd calls].
    rewrite last_snoc. eexists. split; [reflexivity|].
    cbn [tr_client tr_file tr_model tr_file_name tr_params].
    split; [done|]. split; [done|]. split; [done|]. split; [done|].
    apply transcription_params_lookup. }
  rewrite <- (transcription_file_name file_format (Audio.format audio)).
  destruct Hd as [-> | [rest ->]]; rewrite Hfront; apply Hrest.
Qed.

(** The transcription request is the one call [transcribe_audio] adds. *)
Lemma transcribe_audio_calls (audio_data : AudioData) (audio : Audio.t)
    (b : bytes) (file_format language prompt response_format : option string)
    (temperature : option pyval) (model : string) (w w1 w2 : World)
    (c : GroqClient) :
  audio_data = OneAudio audio
  \/ (exists rest, audio_data = AudioList (audio :: rest)) ->
  Groq._format_audio_for_message audio w = (Ok (Some b), w1) ->
  Groq.get_client ext self w1 = (Ok c, w2) ->
  exists q,
    calls
      (Groq.transcribe_audio ext self audio_data file_format language prompt
         response_format temperature model w).2
    = calls w2 ++ [TranscriptionCall q].
Proof.
  intros Hd Hb Hc.
  assert (Hfront : forall k : AudioData * option string -> M pyval,
    bind
      (processed_audio <- Groq._format_audio_for_message audio;;
       match processed_audio with
       | None => raise (ValueError "Failed to process audio data")
       | Some b0 =>
           ret (RawBytes b0,
                if negb (truthy file_format) && truthy (Audio.format audio)
                then Audio.format audio else file_format)
       end) k w
    = k (RawBytes b,
         if negb (truthy file_format) && truthy (Audio.format audio)
         then Audio.format audio else file_format) w1).
  { intros k. unfold bind. by rewrite Hb. }
  unfold Groq.transcribe_audio.
  assert (Hrest : forall (file_name : string) (params : pydict), exists q,
    calls
      ((client <- Groq.get_client ext self;;
        let request :=
          {| tr_client := client; tr_file_name := file_name;
             tr_file := RawBytes b; tr_model := model;
             tr_params := params |} in
        w0 <- get;;
        _ <- record_call (TranscriptionCall request);;
        response <- lift (transcriptions_create ext (calls w0) request);;
        ret response) w1).2
    = calls w2 ++ [TranscriptionCall q]).
  { intros file_name params. cbv zeta.
    rewrite (bind_Ok _ _ w1 w2 c Hc).
    unfold get at 1. unfold bind at 1.
    unfold record_call at 1. unfold bind at 1.
    rewrite bind_lift_ret. cbn [snd calls]. by eexists. }
  destruct Hd as [-> | [rest ->]]; rewrite Hfront; apply Hrest.
Qed.

End transcription_request.

Section calls_frames.

Variable ext : Externals.
Variable self : Groq.t.

(** Neither the making of the client nor the resolution of the audio
    bytes makes a network call. *)
Lemma keeps_calls_get_client (w : World) :
  calls (Groq.get_client ext self w).2 = calls w.
Proof.
  unfold Groq.get_client, bind, get.
  destruct (client w) as [c|]; [done|].
  destruct (_get_client_params_frame ext self w) as (p & w1 & Hp & _).
  assert (Hcalls : calls (Groq._get_client_params ext self w).2 = calls w).
  { unfold Groq._get_client_params, bind, get, when, ret, set_api_key, log.
    destruct (truthy (api_key w)); cbv beta iota; [done|].
    cbn [api_key].
    by destruct (truthy (getenv ext "GROQ_API_KEY")). }
  rewrite Hp in Hcalls |- *. cbn [snd] in Hcalls.
  unfold Groq.new_client.
  destruct (client_init ext false _); [done|].
  unfold bind, new_ref, ret, set_client. cbn [snd calls]. exact Hcalls.
Qed.

Lemma keeps_calls__format_audio_for_message (audio : Audio.t) (w : World) :
  calls (Groq._format_audio_for_message audio w).2 = calls w.
Proof.
  unfold Groq._format_audio_for_message, bind, get, log, ret.
  destruct (Audio.content audio) as [[| | | | |[|b bs]| | |]|];
    try done;
    destruct (Audio.url audio), (Audio.audio_url_content audio);
    try done;
    destruct (Audio.filepath audio); try done;
    cbn [files]; by destruct (files w !! _).
Qed.

End calls_frames.

Section transcription_theorems.

Variable ext : Externals.
Variable self : Groq.t.

(** X17: once the bytes of the audio object are resolved and the client is
    there, [transcribe_audio] makes exactly one network call, a
    transcription request with these bytes, the model asked for and that
    client; the file is named [audio.] followed by the format given by the
    caller, or else the format of the audio object, or else [mp3]. *)
Theorem transcribe_audio_file_name_rule (audio_data : AudioData)
    (audio : Audio.t) (b : bytes)
    (file_format language prompt response_format : option string)
    (temperature : option pyval) (model : string) (w w1 w2 : World)
    (c : GroqClient) :
  audio_data = OneAudio audio
  \/ (exists rest, audio_data = AudioList (audio :: rest)) ->
  Groq._format_audio_for_message audio w = (Ok (Some b), w1) ->
  Groq.get_client ext self w1 = (Ok c, w2) ->
  exists q,
    calls
      (Groq.transcribe_audio ext self audio_data file_format language prompt
         response_format temperature model w).2
    = calls w2 ++ [TranscriptionCall q]
    /\ calls w2 = calls w
    /\ tr_client q = c
    /\ tr_file q = RawBytes b
    /\ tr_model q = model
    /\ tr_file_name q
       = "audio." +:+
         (if truthy file_format then default EmptyString file_format
          else if truthy (Audio.format audio)
               then default EmptyString (Audio.format audio)
               else "mp3").
Proof.
  intros Hd Hb Hc.
  destruct (transcribe_audio_request ext self audio_data audio b file_format
              language prompt response_format temperature model w w1 w2 c
              Hd Hb Hc)
    as (q & Hq & H1 & H2 & H3 & H4 & _).
  destruct (transcribe_audio_calls ext self audio_data audio b file_format
              language prompt response_format temperature model w w1 w2 c
              Hd Hb Hc)
    as (q' & Hcalls).
  assert (q' = q) as ->.
  { unfold last_transcription in Hq. rewrite Hcalls, last_snoc in Hq.
    by injection Hq. }
  exists q. split; [exact Hcalls|]. split; [|done].
  pose proof (keeps_calls_get_client ext self w1) as Hk1.
  pose proof (keeps_calls__format_audio_for_message audio w) as Hk2.
  rewrite Hc in Hk1. rewrite Hb in Hk2. cbn [snd] in Hk1, Hk2. congruence.
Qed.

(** X18: the optional parameters of the transcription request:
    [language], [prompt] and [response_format] are sent when they are
    non-empty strings and left out when [None] or empty; [temperature] is
    sent whenever it is not [None]. *)
Theorem transcribe_audio_optional_params (audio_data : AudioData)
    (audio : Audio.t) (b : bytes)
    (file_format language prompt response_format : option string)
    (temperature : option pyval) (model : string) (w w1 w2 : World)
    (c : GroqClient) :
  audio_data = OneAudio audio
  \/ (exists rest, audio_data = AudioList (audio :: rest)) ->
  Groq._format_audio_for_message audio w = (Ok (Some b), w1) ->
  Groq.get_client ext self w1 = (Ok c, w2) ->
  exists q,
    last_transcription
      (Groq.transcribe_audio ext self audio_data file_format language prompt
         response_format temperature model w) = Some q
    /\ tr_params q !! "language"
       = (if truthy language then PStr <$> language else None)
    /\ tr_params q !! "prompt"
       = (if truthy prompt then PStr <$> prompt else None)
    /\ tr_params q !! "response_format"
       = (if truthy response_format then PStr <$> response_format else None)
    /\ tr_params q !! "temperature" = temperature.
Proof.
  intros Hd Hb Hc.
  destruct (transcribe_audio_request ext self audio_data audio b file_format
              language prompt response_format temperature model w w1 w2 c
              Hd Hb Hc)
    as (q & Hq & _ & _ & _ & _ & H5 & H6 & H7 & H8).
  exists q. by repeat split.
Qed.

End transcription_theorems.

(** ** The two response parsers *)

Section parsers.

Variable ext : Externals.

(** X19: on a response without choices [parse_provider_response] raises
    [IndexError] (from [response.choices[0]]); nothing is logged or
    changed. *)
Theorem parse_provider_response_without_choices
    (response : Completion.t) (w : World) :
  Completion.choices response = [] ->
  Groq.parse_provider_response ext response w = (Raise IndexError, w).
Proof.
  intros Hc. unfold Groq.parse_provider_response, bind, lift.
  by rewrite Hc.
Qed.

(** X20: [parse_provider_response_delta] returns for every chunk, also one
    without choices, and changes and logs nothing.  The role is never set;
    content and tool calls are those of the delta of the first choice, the
    tool calls as the SDK's objects (no conversion); the usage is that of
    [x_groq], reported also when there is no choice. *)
Theorem parse_provider_response_delta_returns (response : Chunk.t)
    (w : World) :
  exists mr,
    Groq.parse_provider_response_delta response w = (Ok mr, w)
    /\ ModelResponse.role mr = None
    /\ ModelResponse.content mr
       = head (Chunk.choices response) ≫= (Chunk.content ∘ Chunk.delta)
    /\ ModelResponse.tool_calls mr
       = head (Chunk.choices response) ≫= (Chunk.tool_calls ∘ Chunk.delta)
    /\ ModelResponse.response_usage mr
       = Groq.response_usage_of <$> (Chunk.x_groq response ≫= Chunk.usage).
Proof.
  unfold Groq.parse_provider_response_delta.
  destruct (Chunk.choices response) as [|c cs] eqn:Hc.
  - rewrite bind_ret. unfold ret. eexists. split; [reflexivity|].
    cbn [ModelResponse.role ModelResponse.content ModelResponse.tool_calls
         ModelResponse.response_usage head mbind option_bind].
    by destruct (Chunk.x_groq response).
  - unfold bind, lift, ret. rewrite list_getitem_first.
    eexists. split; [reflexivity|].
    cbn [ModelResponse.role ModelResponse.content ModelResponse.tool_calls
         ModelResponse.response_usage head mbind option_bind compose].
    by destruct (Chunk.x_groq response).
Qed.

(** X21: on a response with a first choice, [parse_provider_response]
    returns role, content and usage as the response has them and changes
    nothing but the log: it logs one warning with the text of the
    exception exactly when the conversion of the tool calls raised, and
    then leaves the tool calls unset. *)
Theorem parse_provider_response_logs_conversion_failures
    (response : Completion.t) (c : Completion.Choice)
    (cs : list Completion.Choice) (w : World) :
  Completion.choices response = c :: cs ->
  exists mr w',
    Groq.parse_provider_response ext response w = (Ok mr, w')
    /\ ModelResponse.role mr = Completion.role (Completion.message c)
    /\ ModelResponse.content mr = Completion.content (Completion.message c)
    /\ ModelResponse.response_usage mr
       = Groq.response_usage_of <$> Completion.usage response
    /\ messages w' = messages w /\ calls w' = calls w
    /\ client w' = client w
    /\ match Completion.tool_calls (Completion.message c) with
       | Some (t :: ts) =>
           match Groq.dump_all ext (t :: ts) with
           | Ok dumped =>
               ModelResponse.tool_calls mr = Some dumped
               /\ logged w' = logged w
           | Raise e =>
               ModelResponse.tool_calls mr = None
               /\ logged w'
                  = logged w ++
                    [(WARNING,
                      "Error processing tool calls: " +:+ exn_str e)]
           end
       | _ => ModelResponse.tool_calls mr = None /\ logged w' = logged w
       end.
Proof.
  intros Hc. unfold Groq.parse_provider_response, bind, lift, ret.
  rewrite Hc, list_getitem_first.
  destruct (Completion.tool_calls (Completion.message c)) as [[|t ts]|].
  - eexists _, w. split; [reflexivity|]. by repeat split.
  - unfold try_except, bind, lift, ret, log.
    destruct (Groq.dump_all ext (t :: ts)) as [dumped|e].
    + eexists _, w. split; [reflexivity|]. by repeat split.
    + eexists _, _. split; [reflexivity|]. by repeat split.
  - eexists _, w. split; [reflexivity|]. by repeat split.
Qed.

End parsers.

(** X14, in JSON mode on a conversation of two messages: at the first, a
    user message with an image and audio, and at the second, a system
    message, to which the directive applies. *)
Lemma format_message_touches_no_other_message_witness :
  ((Groq.directive_applies Examples.json_mode Examples.illustrated_voice
    = false ->
    messages
      (Groq.format_message Examples.rate_limiting_provider
         Examples.json_mode 0 Examples.conversation).2
    = messages Examples.conversation)
   /\ (forall j, j <> 0%nat ->
         messages
           (Groq.format_message Examples.rate_limiting_provider
              Examples.json_mode 0 Examples.conversation).2 !! j
         = messages Examples.conversation !! j))
  /\ ((Groq.directive_applies Examples.json_mode
         (Examples.system_message "Be brief")
       = false ->
       messages
         (Groq.format_message Examples.rate_limiting_provider
            Examples.json_mode 1 Examples.conversation).2
       = messages Examples.conversation)
      /\ (forall j, j <> 1%nat ->
            messages
              (Groq.format_message Examples.rate_limiting_provider
                 Examples.json_mode 1 Examples.conversation).2 !! j
            = messages Examples.conversation !! j)).
Proof.
  split.
  - apply (format_message_touches_no_other_message
             Examples.rate_limiting_provider Examples.json_mode 0
             Examples.illustrated_voice Examples.conversation).
    reflexivity.
  - apply (format_message_touches_no_other_message
             Examples.rate_limiting_provider Examples.json_mode 1
             (Examples.system_message "Be brief") Examples.conversation).
    reflexivity.
Defined.

(** X15, at a user message whose audio is a file that is not there: the
    transcription raises. *)
Lemma format_message_survives_audio_failures_witness :
  exists d w',
    Groq.format_message Examples.rate_limiting_provider Groq.defaults 0
      (Examples.world [Examples.unreadable_voice])
    = (Ok d, w')
    /\ d !! "role" = Some (PStr (Message.role Examples.unreadable_voice))
    /\ forall a rest,
         Message.audio Examples.unreadable_voice = Some (a :: rest) ->
         exists w1 r w2,
           (Groq.directive_applies Groq.defaults Examples.unreadable_voice
            = false ->
            w1 = Examples.world [Examples.unreadable_voice])
           /\ Groq.transcribe_audio Examples.rate_limiting_provider
                Groq.defaults (AudioList (a :: rest)) None None None
                (Some "text") None "whisper-large-v3-turbo" w1
              = (r, w2)
           /\ match r with
              | Raise e =>
                  (ERROR, "Error transcribing audio: " +:+ exn_str e)
                  ∈ logged w'
              | Ok t =>
                  d !! "content"
                  = Some (PStr ("Audio Transcription: " +:+
                                format_transcription
                                  Examples.rate_limiting_provider t))
              end.
Proof.
  apply (format_message_survives_audio_failures
           Examples.rate_limiting_provider Groq.defaults 0
           Examples.unreadable_voice
           (Examples.world [Examples.unreadable_voice])).
  - reflexivity.
  - left. reflexivity.
Defined.

(** X16, at a user message with audio whose transcription is [hello]. *)
Lemma format_message_audio_replaces_content_witness :
  formatted_content
    (Groq.format_message Examples.rate_limiting_provider Groq.defaults 0
       Examples.listening)
  = Some (PStr "Audio Transcription: hello").
Proof.
  apply (format_message_audio_replaces_content
           Examples.rate_limiting_provider Groq.defaults 0
           Examples.voice_message Examples.listening
           (Examples.transcribed Examples.rate_limiting_provider).2
           Examples.spoken [] (Ok (PStr "hello"))).
  - reflexivity.
  - reflexivity.
  - reflexivity.
  - reflexivity.
  - vm_compute. reflexivity.
Defined.

(** X17, at [transcribe_audio(spoken)] on an instance that holds its
    client. *)
Lemma transcribe_audio_file_name_rule_witness :
  exists q,
    calls
      (Groq.transcribe_audio Examples.rate_limiting_provider Groq.defaults
         (OneAudio Examples.spoken) None None None (Some "text") None
         "whisper-large-v3-turbo" Examples.connected).2
    = calls Examples.connected ++ [TranscriptionCall q]
    /\ calls Examples.connected = calls Examples.connected
    /\ tr_client q = Examples.stored_client
    /\ tr_file q = RawBytes [Byte.x52; Byte.x49; Byte.x46; Byte.x46]
    /\ tr_model q = "whisper-large-v3-turbo"
    /\ tr_file_name q = "audio.wav".
Proof.
  apply (transcribe_audio_file_name_rule
           Examples.rate_limiting_provider Groq.defaults
           (OneAudio Examples.spoken) Examples.spoken
           [Byte.x52; Byte.x49; Byte.x46; Byte.x46] None None None
           (Some "text") None "whisper-large-v3-turbo"
           Examples.connected Examples.connected Examples.connected
           Examples.stored_client).
  - left. reflexivity.
  - reflexivity.
  - reflexivity.
Defined.

(** X18, at the same call with an empty language and temperature 0. *)
Lemma transcribe_audio_optional_params_witness :
  exists q,
    last_transcription
      (Groq.transcribe_audio Examples.rate_limiting_provider Groq.defaults
         (OneAudio Examples.spoken) None (Some EmptyString) None
         (Some "text") (Some (PFloat 0)) "whisper-large-v3-turbo"
         Examples.connected)
    = Some q
    /\ tr_params q !! "language" = None
    /\ tr_params q !! "prompt" = None
    /\ tr_params q !! "response_format" = Some (PStr "text")
    /\ tr_params q !! "temperature" = Some (PFloat 0).
Proof.
  apply (transcribe_audio_optional_params
           Examples.rate_limiting_provider Groq.defaults
           (OneAudio Examples.spoken) Examples.spoken
           [Byte.x52; Byte.x49; Byte.x46; Byte.x46] None (Some EmptyString)
           None (Some "text") (Some (PFloat 0)) "whisper-large-v3-turbo"
           Examples.connected Examples.connected Examples.connected
           Examples.stored_client).
  - left. reflexivity.
  - reflexivity.
  - reflexivity.
Defined.

(** X19, at a response with an empty list of choices. *)
Lemma parse_provider_response_without_choices_witness :
  Groq.parse_provider_response Examples.rate_limiting_provider
    Examples.no_choices (Examples.world [])
  = (Raise IndexError, Examples.world []).
Proof.
  apply (parse_provider_response_without_choices
           Examples.rate_limiting_provider Examples.no_choices
           (Examples.world [])).
  reflexivity.
Defined.

(** X21, at a response with two tool calls that both convert. *)
Lemma parse_provider_response_logs_conversion_failures_witness :
  exists mr w',
    Groq.parse_provider_response Examples.rate_limiting_provider
      (Examples.response_with_total (PInt 15)) (Examples.world [])
    = (Ok mr, w')
    /\ ModelResponse.role mr = Some "assistant"
    /\ ModelResponse.content mr = None
    /\ ModelResponse.response_usage mr
       = Groq.response_usage_of <$>
         Completion.usage (Examples.response_with_total (PInt 15))
    /\ messages w' = messages (Examples.world [])
    /\ calls w' = calls (Examples.world [])
    /\ client w' = client (Examples.world [])
    /\ ModelResponse.tool_calls mr
       = Some [PDict [("dumped", PObj 1)]; PDict [("dumped", PObj 2)]]
    /\ logged w' = logged (Examples.world []).
Proof.
  apply (parse_provider_response_logs_conversion_failures
           Examples.rate_limiting_provider
           (Examples.response_with_total (PInt 15))
           {| Completion.message :=
                {| Completion.role := Some "assistant";
                   Completion.content := None;
                   Completion.tool_calls := Some [PObj 1; PObj 2] |} |}
           [] (Examples.world [])).
  reflexivity.
Defined.

(** ** Messages with images *)

Section format_message_images.

Variable ext : Externals.
Variable self : Groq.t.

(** X22: for a message with text content and images (and no audio), the
    content of the mapping is a list: a text part, then the parts
    [images_to_message] makes of the images.  The text is read from the
    message after the directive was appended, so it is the content of the
    message followed by the JSON directive when the directive applies.  An
    exception of [images_to_message] is not caught: [format_message]
    raises it. *)
Theorem format_message_images_make_a_list
    (i : nat) (m : Message.t) (w : World) (s : string) (img : pyval)
    (imgs : list pyval) :
  messages w !! i = Some m ->
  Message.content m = PStr s ->
  Message.images m = Some (img :: imgs) ->
  Message.audio m = None ->
  match images_to_message ext (img :: imgs) with
  | Ok parts =>
      formatted_content (Groq.format_message ext self i w)
      = Some (PList
                (PDict [("type", PStr "text");
                        ("text",
                         PStr (if Groq.directive_applies self m
                               then s +:+ Groq.json_directive else s))]
                 :: parts))
  | Raise e => surfaced (Groq.format_message ext self i w) = Some e
  end.
Proof.
  intros Hm Hcontent Himg Haudio.
  unfold Groq.format_message, Groq.directive_applies.
  rewrite (bind_Ok _ _ w w m (read_message_Ok i m w Hm)).
  rewrite Hcontent.
  destruct (String.eqb (Message.role m) "system"
            && Groq.json_object_requested self).
  - unfold when.
    set (m' := Message.set_content (PStr (s +:+ Groq.json_directive)) m).
    assert (Hread : messages (set_message i m' w).2 !! i = Some m').
    { unfold set_message. cbn [snd messages].
      apply list_lookup_insert_eq. by eapply lookup_lt_Some. }
    rewrite (bind_Ok (set_message i m') _ w (set_message i m' w).2 tt eq_refl).
    rewrite (bind_Ok (Groq.read_message i) _ _ _ m'
               (read_message_Ok i m' _ Hread)).
    subst m'.
    cbn [Message.images Message.content Message.audio Message.videos
         Message.set_content].
    rewrite Himg, Haudio.
    unfold formatted_content, surfaced, bind, lift, when, log, ret.
    destruct (images_to_message ext (img :: imgs)) as [parts|e]; [|done].
    destruct (bool_decide _); cbn [fst]; apply lookup_insert_eq.
  - unfold when. rewrite bind_ret.
    rewrite (bind_Ok _ _ w w m (read_message_Ok i m w Hm)).
    rewrite Himg, Hcontent, Haudio.
    unfold formatted_content, surfaced, bind, lift, when, log, ret.
    destruct (images_to_message ext (img :: imgs)) as [parts|e]; [|done].
    destruct (bool_decide _); cbn [fst]; apply lookup_insert_eq.
Qed.

End format_message_images.

Section async_transcription.

Variable ext : Externals.
Variable self : Groq.t.

Lemma atranscribe_audio_request (audio_data : AudioData) (audio : Audio.t)
    (b : bytes) (file_format language prompt response_format : option string)
    (temperature : option pyval) (model : string) (w w1 w2 : World)
    (c : GroqClient) :
  audio_data = OneAudio audio
  \/ (exists rest, audio_data = AudioList (audio :: rest)) ->
  Groq._format_audio_for_message audio w = (Ok (Some b), w1) ->
  Groq.get_async_client ext self w1 = (Ok c, w2) ->
  exists q,
    last_transcription
      (Groq.atranscribe_audio ext self audio_data file_format language prompt
         response_format temperature model w) = Some q
    /\ tr_client q = c
    /\ tr_file q = RawBytes b
    /\ tr_model q = model
    /\ tr_file_name q
       = "audio." +:+
         (if truthy file_format then default EmptyString file_format
          else if truthy (Audio.format audio)
               then default EmptyString (Audio.format audio)
               else "mp3")
    /\ tr_params q !! "language"
       = (if truthy language then PStr <$> language else None)
    /\ tr_params q !! "prompt"
       = (if truthy prompt then PStr <$> prompt else None)
    /\ tr_params q !! "response_format"
       = (if truthy response_format then PStr <$> response_format else None)
    /\ tr_params q !! "temperature" = temperature.
Proof.
  intros Hd Hb Hc.
  assert (Hfront : forall k : AudioData * option string -> M pyval,
    bind
      (processed_audio <- Groq._format_audio_for_message audio;;
       match processed_audio with
       | None => raise (ValueError "Failed to process audio data")
       | Some b0 =>
           ret (RawBytes b0,
                if negb (truthy file_format) && truthy (Audio.format audio)
                then Audio.format audio else file_format)
       end) k w
    = k (RawBytes b,
         if negb (truthy file_format) && truthy (Audio.format audio)
         then Audio.format audio else file_format) w1).
  { intros k. unfold bind. by rewrite Hb. }
  unfold Groq.atranscribe_audio.
  assert (Hrest : forall ff' : option string, exists q,
    last_transcription
      (let params : pydict := ∅ in
       let params :=
         if truthy language
         then <["language" := PStr (default EmptyString language)]> params
         else params in
       let params :=
         if truthy prompt
         then <["prompt" := PStr (default EmptyString prompt)]> params
         else params in
       let params :=
         if truthy response_format
         then <["response_format" :=
                  PStr (default EmptyString response_format)]> params
         else params in
       let params :=
         match temperature with
         | Some t => <["temperature" := t]> params
         | None => params
         end in
       let file_name :=
         if truthy ff'
         then "audio." +:+ default EmptyString ff'
         else "audio.mp3" in
       (client <- Groq.get_async_client ext self;;
        let request :=
          {| tr_client := client; tr_file_name := file_name;
             tr_file := RawBytes b; tr_model := model;
             tr_params := params |} in
        w0 <- get;;
        _ <- record_call (TranscriptionCall request);;
        response <- lift (transcriptions_create ext (calls w0) request);;
        ret response) w1) = Some q
    /\ tr_client q = c /\ tr_file q = RawBytes b /\ tr_model q = model
    /\ tr_file_name q
       = "audio." +:+ (if truthy ff' then default EmptyString ff' else "mp3")
    /\ tr_params q !! "language"
       = (if truthy language then PStr <$> language else None)
    /\ tr_params q !! "prompt"
       = (if truthy prompt then PStr <$> prompt else None)
    /\ tr_params q !! "response_format"
       = (if truthy response_format then PStr <$> response_format else None)
    /\ tr_params q !! "temperature" = temperature).
  { intros ff'. cbv zeta.
    rewrite (bind_Ok _ _ w1 w2 c Hc).
    unfold get at 1. unfold bind at 1.
    unfold record_call at 1. unfold bind at 1.
    rewrite bind_lift_ret. unfold last_transcription. cbn [snd calls].
    rewrite last_snoc. eexists. split; [reflexivity|].
    cbn [tr_client tr_file tr_model tr_file_name tr_params].
    split; [done|]. split; [done|]. split; [done|].
    split; [by destruct (truthy ff')|].
    apply transcription_params_lookup. }
  rewrite <- (transcription_file_name file_format (Audio.format audio)).
  destruct Hd as [-> | [rest ->]]; rewrite Hfront; apply Hrest.
Qed.

(** X25: for the same arguments, [atranscribe_audio] sends what
    [transcribe_audio] sends (the same file name, bytes, model, and the
    same entries for the four optional parameters), through the client
    [get_async_client] returned instead of the one [get_client] returned. *)
Theorem atranscribe_audio_sends_the_same_request (audio_data : AudioData)
    (audio : Audio.t) (b : bytes)
    (file_format language prompt response_format : option string)
    (temperature : option pyval) (model : string) (w w1 w2 w2' : World)
    (c c' : GroqClient) :
  audio_data = OneAudio audio
  \/ (exists rest, audio_data = AudioList (audio :: rest)) ->
  Groq._format_audio_for_message audio w = (Ok (Some b), w1) ->
  Groq.get_client ext self w1 = (Ok c, w2) ->
  Groq.get_async_client ext self w1 = (Ok c', w2') ->
  exists q q',
    last_transcription
      (Groq.transcribe_audio ext self audio_data file_format language prompt
         response_format temperature model w) = Some q
    /\ last_transcription
         (Groq.atranscribe_audio ext self audio_data file_format language
            prompt response_format temperature model w) = Some q'
    /\ tr_client q = c /\ tr_client q' = c'
    /\ tr_file_name q' = tr_file_name q
    /\ tr_file q' = tr_file q
    /\ tr_model q' = tr_model q
    /\ (forall k,
          k ∈ ["language"; "prompt"; "response_format"; "temperature"] ->
          tr_params q' !! k = tr_params q !! k).
Proof.
  intros Hd Hb Hc Hc'.
  destruct (transcribe_audio_request ext self audio_data audio b file_format
              language prompt response_format temperature model w w1 w2 c
              Hd Hb Hc)
    as (q & Hq & H1 & H2 & H3 & H4 & H5 & H6 & H7 & H8).
  destruct (atranscribe_audio_request audio_data audio b file_format
              language prompt response_format temperature model w w1 w2' c'
              Hd Hb Hc')
    as (q' & Hq' & H1' & H2' & H3' & H4' & H5' & H6' & H7' & H8').
  exists q, q'. split; [done|]. split; [done|]. split; [done|].
  split; [done|]. split; [congruence|]. split; [congruence|].
  split; [congruence|].
  intros k Hk. rewrite !elem_of_cons in Hk.
  destruct Hk as [-> | [-> | [-> | [-> | Hk]]]];
    [congruence | congruence | congruence | congruence |].
  by apply elem_of_nil in Hk.
Qed.

End async_transcription.

(** ** The dictionary form of the model *)

Section dictionary.

Variable self : Groq.t.

Lemma non_none_lookup (l : list (string * option pyval)) (k : string) :
  NoDup l.*1 ->
  non_none l !! k
  = (list_to_map l : gmap string (option pyval)) !! k ≫= (fun v => v).
Proof.
  induction l as [|[k' o] l IH]; intros Hnd.
  - reflexivity.
  - cbn [fmap list_fmap fst] in Hnd. apply NoDup_cons in Hnd as [Hk' Hnd].
    change (list_to_map ((k', o) :: l) : gmap string (option pyval))
      with (<[k' := o]> (list_to_map l : gmap string (option pyval))).
    destruct (decide (k = k')) as [->|Hne].
    + rewrite lookup_insert_eq. cbn [mbind option_bind].
      by apply non_none_lookup_head.
    + rewrite lookup_insert_ne by done. rewrite <- IH by done.
      destruct o as [v|].
      * rewrite non_none_cons_Some. by rewrite lookup_insert_ne.
      * by rewrite non_none_cons_None.
Qed.

Lemma list_to_map_is_Some (l : list (string * option pyval)) (k : string) :
  k ∈ l.*1 ->
  is_Some ((list_to_map l : gmap string (option pyval)) !! k).
Proof.
  intros Hk.
  destruct ((list_to_map l : gmap string (option pyval)) !! k) eqn:Hl;
    [by eexists|].
  by apply not_elem_of_list_to_map_2 in Hl.
Qed.

(** X23: in the dictionary form of a model with tools, [tool_choice] is
    the one of the model, or ["auto"] when the model has none; without
    tools, [tools] and [tool_choice] are what the base class reported.
    (The request itself carries no [tool_choice] unless the model has
    one.) *)
Theorem to_dict_tool_choice_defaults_to_auto
    (super_to_dict : gmap string (option pyval)) :
  Groq.to_dict self super_to_dict !! "tools"
  = match Groq._tools self with
    | Some tools => Some tools
    | None => super_to_dict !! "tools" ≫= (fun v => v)
    end
  /\ Groq.to_dict self super_to_dict !! "tool_choice"
     = match Groq._tools self with
       | Some _ => Some (default (PStr "auto") (Groq.tool_choice self))
       | None => super_to_dict !! "tool_choice" ≫= (fun v => v)
       end.
Proof.
  unfold Groq.to_dict. cbv zeta. rewrite !lookup_omap.
  match goal with
  | |- context [list_to_map ?base ∪ _] =>
      pose proof (request_keys_no_tools
                    (Groq.frequency_penalty self) (Groq.logit_bias self)
                    (Groq.logprobs self) (Groq.max_tokens self)
                    (Groq.presence_penalty self)
                    (PDict <$> Groq.response_format self)
                    (Groq.seed self) (Groq.stop self)
                    (Groq.temperature self) (Groq.top_logprobs self)
                    (Groq.top_p self) (Groq.user self)
                    (Groq.extra_headers self) (Groq.extra_query self))
        as [Ht Hc];
      apply (not_elem_of_list_to_map_1 (M := gmap string)) in Ht;
      apply (not_elem_of_list_to_map_1 (M := gmap string)) in Hc
  end.
  destruct (Groq._tools self) as [tools|].
  - destruct (Groq.tool_choice self) as [c|].
    + by rewrite lookup_insert_ne, !lookup_insert_eq by done.
    + by rewrite lookup_insert_ne, !lookup_insert_eq by done.
  - by rewrite !lookup_union_r.
Qed.


End dictionary.

(** X22, at a system message with one image, in JSON mode. *)
Lemma format_message_images_make_a_list_witness :
  formatted_content
    (Groq.format_message Examples.rate_limiting_provider Examples.json_mode
       0 (Examples.world [Examples.illustrated]))
  = Some (PList
            [PDict [("type", PStr "text");
                    ("text", PStr ("Be brief" +:+ Groq.json_directive))];
             PObj 9]).
Proof.
  exact (format_message_images_make_a_list
           Examples.rate_limiting_provider Examples.json_mode 0
           Examples.illustrated (Examples.world [Examples.illustrated])
           "Be brief" (PObj 9) [] eq_refl eq_refl eq_refl eq_refl).
Defined.


(** X25, at [spoken] on an instance that holds its synchronous client. *)
Lemma atranscribe_audio_sends_the_same_request_witness :
  exists q q',
    last_transcription
      (Groq.transcribe_audio Examples.rate_limiting_provider Groq.defaults
         (OneAudio Examples.spoken) None None None (Some "json") None
         "whisper-large-v3-turbo" Examples.connected) = Some q
    /\ last_transcription
         (Groq.atranscribe_audio Examples.rate_limiting_provider
            Groq.defaults (OneAudio Examples.spoken) None None None
            (Some "json") None "whisper-large-v3-turbo" Examples.connected)
       = Some q'
    /\ tr_client q = Examples.stored_client
    /\ tr_client q' = Examples.async_made_client
    /\ tr_file_name q' = tr_file_name q
    /\ tr_file q' = tr_file q
    /\ tr_model q' = tr_model q
    /\ (forall k,
          k ∈ ["language"; "prompt"; "response_format"; "temperature"] ->
          tr_params q' !! k = tr_params q !! k).
Proof.
  apply (atranscribe_audio_sends_the_same_request
           Examples.rate_limiting_provider Groq.defaults
           (OneAudio Examples.spoken) Examples.spoken
           [Byte.x52; Byte.x49; Byte.x46; Byte.x46] None None None
           (Some "json") None "whisper-large-v3-turbo"
           Examples.connected Examples.connected Examples.connected
           Examples.async_made.2 Examples.stored_client
           Examples.async_made_client).
  - left. reflexivity.
  - reflexivity.
  - reflexivity.
  - vm_compute. reflexivity.
Defined.

(** ** Later fragments for an index that is there *)

Section concatenation.
Import Reassembler Reference.

Lemma append_assoc (a b c : string) : (a +:+ b) +:+ c = a +:+ (b +:+ c).
Proof.
  induction a as [|x a IH]; [done|].
  change (String x ((a +:+ b) +:+ c) = String x (a +:+ (b +:+ c))).
  by rewrite IH.
Qed.

Lemma holds_read (h : store) (x : loc) (e : entry) :
  holds h x e -> read_entry h x = Some e.
Proof.
  destruct e as [|i t n a]; [done|].
  intros (d & lf & fd & Hd & Hi & Ht & Hf & _ & Hfd & Hn & Ha).
  unfold read_entry. rewrite Hd. cbn [mbind option_bind].
  destruct (decide (d = ∅)) as [->|_]; [by rewrite lookup_empty in Hi|].
  rewrite Hi. cbn [mbind option_bind]. rewrite Ht. cbn [mbind option_bind].
  rewrite Hf. cbn [mbind option_bind]. rewrite Hfd. cbn [mbind option_bind].
  rewrite Hn. cbn [mbind option_bind]. by rewrite Ha.
Qed.

(** In a list of populated dicts, a slot that reads as a tool call holds
    it. *)
Lemma populated_holds (l : list loc) (h : store) (x : loc) (e : entry) :
  all_populated (l, h) -> x ∈ l -> read_entry h x = Some e -> holds h x e.
Proof.
  intros Hall Hx Hread.
  destruct (Hall x Hx) as (d & Hd & Hpop). cbn [fst snd] in Hd, Hpop.
  destruct Hpop
    as (i & t & lf & fd & n & a & Hi & Ht & Hf & Hlf & Hfd & Hn & Ha).
  assert (Hh : holds h x (ToolCall i t n a)).
  { exists d, lf, fd. repeat split; try done. by intros ->. }
  rewrite (holds_read h x _ Hh) in Hread. by injection Hread as <-.
Qed.

Section one_entry.

Variables (h : store) (x : loc) (i t : hval) (n a : string).
Hypothesis Hh : holds h x (ToolCall i t n a).

Lemma holds_maybe_name (o : option string) :
  exists h',
    (if truthy o
     then iadd_nested x "function" "name" (default EmptyString o) h
     else Ok h) = Ok h'
    /\ holds h' x (ToolCall i t (n +:+ or_empty o) a).
Proof.
  destruct (truthy o) eqn:Ho.
  - destruct Hh as (d & lf & fd & Hd & Hi & Ht & Hf & Hne & Hfd & Hn & Ha).
    eexists. split; [by eapply iadd_nested_lookup|].
    rewrite (truthy_default o Ho).
    exists d, lf, (<["name" := HStr (n +:+ or_empty o)]> fd).
    rewrite list_lookup_insert_ne by done.
    rewrite list_lookup_insert_eq by (by eapply lookup_lt_Some).
    by rewrite lookup_insert_eq, lookup_insert_ne.
  - exists h. split; [done|].
    by rewrite (falsy_or_empty o Ho), append_empty_r.
Qed.

Lemma holds_maybe_arguments (o : option string) :
  exists h',
    (if truthy o
     then iadd_nested x "function" "arguments" (default EmptyString o) h
     else Ok h) = Ok h'
    /\ holds h' x (ToolCall i t n (a +:+ or_empty o)).
Proof.
  destruct (truthy o) eqn:Ho.
  - destruct Hh as (d & lf & fd & Hd & Hi & Ht & Hf & Hne & Hfd & Hn & Ha).
    eexists. split; [by eapply iadd_nested_lookup|].
    rewrite (truthy_default o Ho).
    exists d, lf, (<["arguments" := HStr (a +:+ or_empty o)]> fd).
    rewrite list_lookup_insert_ne by done.
    rewrite list_lookup_insert_eq by (by eapply lookup_lt_Some).
    by rewrite lookup_insert_eq, lookup_insert_ne.
  - exists h. split; [done|].
    by rewrite (falsy_or_empty o Ho), append_empty_r.
Qed.

Lemma holds_maybe_id (o : option string) :
  exists h',
    (if truthy o then setitem x "id" (of_optional o) h else Ok h) = Ok h'
    /\ holds h' x (ToolCall (if truthy o then of_optional o else i) t n a).
Proof.
  destruct (truthy o); [|by exists h].
  destruct Hh as (d & lf & fd & Hd & Hi & Ht & Hf & Hne & Hfd & Hn & Ha).
  eexists. split; [by apply setitem_lookup|].
  exists (<["id" := of_optional o]> d), lf, fd.
  rewrite list_lookup_insert_eq by (by eapply lookup_lt_Some).
  rewrite list_lookup_insert_ne by done.
  by rewrite lookup_insert_eq, !lookup_insert_ne.
Qed.

Lemma holds_maybe_type (o : option string) :
  exists h',
    (if truthy o then setitem x "type" (of_optional o) h else Ok h) = Ok h'
    /\ holds h' x (ToolCall i (if truthy o then of_optional o else t) n a).
Proof.
  destruct (truthy o); [|by exists h].
  destruct Hh as (d & lf & fd & Hd & Hi & Ht & Hf & Hne & Hfd & Hn & Ha).
  eexists. split; [by apply setitem_lookup|].
  exists (<["type" := of_optional o]> d), lf, fd.
  rewrite list_lookup_insert_eq by (by eapply lookup_lt_Some).
  rewrite list_lookup_insert_ne by done.
  by rewrite lookup_insert_eq, !lookup_insert_ne.
Qed.

End one_entry.

(** A fragment for a slot that holds a tool call: the list stays as it
    is, and the slot holds what the fragment makes of the tool call. *)
Lemma step_existing (l : list loc) (h : store) (k : nat) (x : loc)
    (i t : hval) (n a : string) (tc : Delta.ChoiceDeltaToolCall) :
  Delta.index tc = Z.of_nat k ->
  l !! k = Some x ->
  holds h x (ToolCall i t n a) ->
  exists h',
    step (l, h) tc = Ok (l, h')
    /\ holds h' x (later_fragment (ToolCall i t n a) tc).
Proof.
  intros Hidx Hl Hh.
  assert (Hlt : (k < length l)%nat) by (by eapply lookup_lt_Some).
  pose proof Hh as (d & lf & fd & Hd & Hi & _).
  unfold step. cbn [fst snd]. rewrite Hidx.
  replace (Z.of_nat (length l) <=? Z.of_nat k) with false
    by (symmetry; apply Z.leb_gt; lia).
  rewrite (list_getitem_nat l k _ Hl). cbn [rbind].
  rewrite (deref_lookup h _ d Hd). cbn [rbind].
  destruct (decide (d = ∅)) as [->|_]; [by rewrite lookup_empty in Hi|].
  set (fname := match Delta.function tc with
                | Some f => Delta.name f | None => None end).
  set (fargs := match Delta.function tc with
                | Some f => Delta.arguments f | None => None end).
  destruct (holds_maybe_name h x i t n a Hh fname) as (h1 & -> & Hh1).
  cbn [rbind].
  destruct (holds_maybe_arguments h1 x _ _ _ _ Hh1 fargs)
    as (h2 & -> & Hh2).
  cbn [rbind].
  destruct (holds_maybe_id h2 x _ _ _ _ Hh2 (Delta.id tc))
    as (h3 & -> & Hh3).
  cbn [rbind].
  destruct (holds_maybe_type h3 x _ _ _ _ Hh3 (Delta.type tc))
    as (h4 & -> & Hh4).
  cbn [rbind]. exists h4. split; [reflexivity|].
  unfold later_fragment. subst fname fargs.
  by destruct (Delta.function tc).
Qed.

Lemma run_app (tcs1 tcs2 : list Delta.ChoiceDeltaToolCall) :
  forall st, run st (tcs1 ++ tcs2) = rbind (run st tcs1) (fun st' => run st' tcs2).
Proof.
  induction tcs1 as [|tc tcs1 IH]; intros st; [done|].
  cbn [app run]. destruct (step st tc) as [st1|e]; [|done].
  cbn [rbind]. apply IH.
Qed.

(** Fragments that all have index 0 skip no index. *)
Lemma no_gap_index_0 (tcs : list Delta.ChoiceDeltaToolCall) (n : nat) :
  Forall (fun tc => Delta.index tc = 0) tcs -> no_gap (S n) tcs = true.
Proof.
  induction 1 as [|tc tcs Htc _ IH]; [done|].
  cbn [no_gap]. rewrite Htc.
  replace (0 <=? 0) with true by done.
  replace (0 <=? Z.of_nat (S n)) with true by (symmetry; apply Z.leb_le; lia).
  replace (0 =? Z.of_nat (S n)) with false by (symmetry; apply Z.eqb_neq; lia).
  exact IH.
Qed.

(** On one entry, fragments with index 0 append their texts in order. *)
Lemma accumulate_index_0 (tcs : list Delta.ChoiceDeltaToolCall) :
  Forall (fun tc => Delta.index tc = 0) tcs ->
  forall (i t : hval) (n a : string),
    exists i' t',
      foldl accumulate [ToolCall i t n a] tcs
      = [ToolCall i' t' (n +:+ joined fragment_name tcs)
           (a +:+ joined fragment_arguments tcs)].
Proof.
  induction 1 as [|tc tcs Htc _ IH]; intros i t n a.
  - exists i, t. cbn [foldl joined foldr]. by rewrite !append_empty_r.
  - cbn [foldl]. unfold accumulate at 2. rewrite Htc.
    change (Z.to_nat 0) with 0%nat. cbn [lookup list_lookup].
    cbn [insert list_insert later_fragment].
    destruct (IH (if truthy (Delta.id tc)
                  then of_optional (Delta.id tc) else i)
                 (if truthy (Delta.type tc)
                  then of_optional (Delta.type tc) else t)
                 (n +:+ or_empty (Delta.function tc ≫= Delta.name))
                 (a +:+ or_empty (Delta.function tc ≫= Delta.arguments)))
      as (i' & t' & ->).
    exists i', t'. cbn [joined foldr]. unfold fragment_name at 2.
    unfold fragment_arguments at 2. by rewrite !append_assoc.
Qed.


End concatenation.

